(** * python-mccdaq: configuration resolution and analog-scan orchestration

    A shallow embedding of [python_mccdaq/daq_linux.py] and
    [python_mccdaq/daq_windows.py] (class [DAQ] in both), with the
    properties of the configuration resolver, of single-channel I/O and
    of the analog-input scan.

    Conventions of the embedding.
    - Python values that reach the code from a configuration document are
      numbers, strings and [None]; numbers are exact rationals (every
      float is one, and [==] on numbers compares their values).
    - An exception is a value of [exn]; a method is a function from the
      state it touches to an [outcome] and the new state.
    - The vendor libraries ([uldaq], [mcculw]), [hjsonconfig] and the
      clock are collaborators: their enumerations are tables passed as
      section variables, their calls are answered by a scripted
      [backend], and every name the methods use from them is taken as
      bound to the collaborator's object.  [daq_linux.py] binds only
      [sleep] of the [time] module, so the clock its scan reads
      ([time.time()]) is bound only where a caller provides it: the
      Linux polling loop is embedded as it is written, and a result
      about a Linux scan that passes the guard of that loop describes
      the loop, not a call of the module as it is shipped.
    - [upper] is Python's [str.upper] on ASCII strings ([is_ascii]); a
      result that depends on the case folding of a string carries that
      hypothesis. *)

From Stdlib Require Import ZArith QArith Qround Ascii String List Lia.
From stdpp Require Import base option list strings gmap.

Set Default Proof Using "Type".
Local Open Scope Z_scope.

(** ** Python values, exceptions, outcomes *)

Inductive pyval :=
| VNone
| VNum (q : Q)
| VStr (s : string).

(** [a == b] on the values above. *)
Definition py_eq (a b : pyval) : bool :=
  match a, b with
  | VNone, VNone => true
  | VNum x, VNum y => Qeq_bool x y
  | VStr s, VStr t => String.eqb s t
  | _, _ => false
  end.

Inductive exn :=
| KeyError (key : string)
| TypeError (what : string)
| AttributeError (attr : string)
| ValueError (msg : string)
| RuntimeError (msg : string)
| UnboundLocalError (var : string)
| IndexError (msg : string)
| OSError (msg : string)
| OverflowError (msg : string)
| PyException (msg : string)
| ULError (code : Z).

(** What evaluating an expression gives: a value or an exception. *)
Inductive result (A : Type) :=
| Ok (a : A)
| Err (e : exn).
Arguments Ok {A} a.
Arguments Err {A} e.

(** What a method call does: it returns, it raises, or it is still
    polling when the observation stops (only the scan loops can be). *)
Inductive outcome (A : Type) :=
| Return (a : A)
| Raise (e : exn)
| Polling.
Arguments Return {A} a.
Arguments Raise {A} e.
Arguments Polling {A}.

(** A state-and-exception monad: [M S A] is a method body over state [S]. *)
Definition M (S A : Type) : Type := S -> outcome A * S.

Definition ret {S A} (a : A) : M S A := fun s => (Return a, s).
Definition raise {S A} (e : exn) : M S A := fun s => (Raise e, s).
Definition bind {S A B} (m : M S A) (k : A -> M S B) : M S B :=
  fun s =>
    match m s with
    | (Return a, s') => k a s'
    | (Raise e, s') => (Raise e, s')
    | (Polling, s') => (Polling, s')
    end.
Definition get {S} : M S S := fun s => (Return s, s).
Definition modify {S} (f : S -> S) : M S unit := fun s => (Return tt, f s).
Definition polling {S A} : M S A := fun s => (Polling, s).
Definition lift {S A} (r : result A) : M S A :=
  fun s =>
    match r with
    | Ok a => (Return a, s)
    | Err e => (Raise e, s)
    end.

(** [try: body finally: cleanup].  The cleanup runs however the body
    ends; an exception of the cleanup replaces the body's outcome. *)
Definition try_finally {S A} (body : M S A) (cleanup : M S unit) : M S A :=
  fun s =>
    match body s with
    | (Polling, s') => (Polling, s')
    | (o, s') =>
        match cleanup s' with
        | (Return _, s'') => (o, s'')
        | (Raise e, s'') => (Raise e, s'')
        | (Polling, s'') => (Polling, s'')
        end
    end.

Declare Scope py_scope.
Delimit Scope py_scope with py.
Notation "x <- m ;; k" := (bind m (fun x => k))
  (at level 100, m at next level, right associativity) : py_scope.
Notation "m ;;; k" := (bind m (fun _ => k))
  (at level 100, right associativity) : py_scope.

(** ** Strings *)

Definition upper_ascii (c : ascii) : ascii :=
  let n := nat_of_ascii c in
  if (97 <=? n)%nat && (n <=? 122)%nat then ascii_of_nat (n - 32) else c.

Fixpoint upper (s : string) : string :=
  match s with
  | EmptyString => EmptyString
  | String c r => String (upper_ascii c) (upper r)
  end.

(** [v.upper()]: only strings have the method. *)
Definition py_upper (v : pyval) : result string :=
  match v with
  | VStr s => Ok (upper s)
  | _ => Err (AttributeError "upper")
  end.

(** ** Enumerations of the vendor library *)

(** A member of [ULRange]: its name, its [range_max] and its value. *)
Record ulrange := { name : string; range_max : Q; range_value : Z }.

(** [Enum[key]]: lookup of a member by name in the member table. *)
Definition enum_getitem {A} (members : list (string * A)) (key : string) : result A :=
  match List.find (fun m => String.eqb (fst m) key) members with
  | Some m => Ok (snd m)
  | None => Err (KeyError key)
  end.

(** ** Range lookup (both variants: [look_up_range] / [lookUpRange]) *)

Section RangeLookup.
(** [list(enums.ULRange)], in definition order. *)
Variable ULRange : list ulrange.

(** One pass of the [for] loop over the remaining members. *)
Fixpoint look_up_range_from (members : list ulrange) (rang polarity : pyval)
  : result (option ulrange) :=
  match members with
  | [] => Ok None
  | ulr :: rest =>
      match py_upper polarity with
      | Ok up =>
          if String.prefix (substring 0 2 up) (name ulr) then
            if py_eq (VNum (range_max ulr)) rang then Ok (Some ulr)
            else look_up_range_from rest rang polarity
          else look_up_range_from rest rang polarity
      | Err e => Err e
      end
  end.

Definition look_up_range (rang polarity : pyval) : result (option ulrange) :=
  look_up_range_from ULRange rang polarity.

(** The test of the loop body on one member:
    [ulr.name.startswith(polarity.upper()[:2]) and ulr.range_max == rang]. *)
Definition range_matches (rang : pyval) (polarity : string) (d : ulrange) : bool :=
  String.prefix (substring 0 2 (upper polarity)) (name d)
  && py_eq (VNum (range_max d)) rang.

End RangeLookup.

(** *** The matching condition in the words of the specification

    "The polarity tag is prefix-equal (case-insensitive, first two
    characters) to the requested polarity and the declared max voltage
    equals the requested value exactly."  Case is folded here letter by
    letter, on both sides, and voltages are compared as rationals. *)

Definition lower_letters : string := "abcdefghijklmnopqrstuvwxyz".
Definition upper_letters : string := "ABCDEFGHIJKLMNOPQRSTUVWXYZ".

(** The character of [to] at the place [c] has in [from]. *)
Fixpoint letter_at (c : ascii) (from to : string) : option ascii :=
  match from, to with
  | String a from', String b to' =>
      if Ascii.eqb c a then Some b else letter_at c from' to'
  | _, _ => None
  end.

Definition letter_upper (c : ascii) : ascii :=
  match letter_at c lower_letters upper_letters with
  | Some u => u
  | None => c
  end.

Fixpoint fold_case (s : string) : string :=
  match s with
  | EmptyString => EmptyString
  | String c r => String (letter_upper c) (fold_case r)
  end.

(** The strings on which [str.upper] changes the letters a-z and
    nothing else. *)
Fixpoint is_ascii (s : string) : bool :=
  match s with
  | EmptyString => true
  | String c r => (nat_of_ascii c <? 128)%nat && is_ascii r
  end.

(** The polarity tag of a descriptor: the first two characters of its
    name. *)
Definition polarity_tag (d : ulrange) : string := substring 0 2 (name d).

Definition spec_range_matches (q : Q) (polarity : string) (d : ulrange) : bool :=
  String.eqb (fold_case (polarity_tag d)) (fold_case (substring 0 2 polarity))
  && Qeq_bool (range_max d) q.

(** The specification's resolver: the first descriptor in table order
    that satisfies the matching condition. *)
Definition resolveRange_spec (table : list ulrange) (q : Q) (polarity : string)
  : option ulrange :=
  List.find (spec_range_matches q polarity) table.

(** A table whose polarity tags are in upper case, as those of the
    vendor's enumeration are. *)
Definition upper_case_tags (table : list ulrange) : bool :=
  forallb (fun d => String.eqb (fold_case (polarity_tag d)) (polarity_tag d)) table.

(** ** Configuration objects *)

(** The object [hjsonconfig.merge] returns: a mapping, and what calling
    the object does when its class defines [__call__] ([None] for a
    plain mapping). *)
Record cfgobj := {
  items : gmap string pyval;
  call : option (string -> result pyval)
}.

(** [cfg[key]] *)
Definition getitem (cfg : cfgobj) (key : string) : result pyval :=
  match items cfg !! key with
  | Some v => Ok v
  | None => Err (KeyError key)
  end.

(** [cfg(arg)] *)
Definition call_config (cfg : cfgobj) (arg : string) : result pyval :=
  match call cfg with
  | Some f => f arg
  | None => Err (TypeError "object is not callable")
  end.

Definition plain_mapping (cfg : cfgobj) : Prop := call cfg = None.

(** The string settings of a configuration are ASCII. *)
Definition ascii_settings (cfg : cfgobj) : bool :=
  forallb (fun kv => match snd kv with VStr s => is_ascii s | _ => true end)
    (map_to_list (items cfg)).

(** The settings [_apply_config] reads, in the order it reads them. *)
Definition required_keys : list string :=
  ["DACrange"; "ADCmode"; "ADCrange"; "ADCpolarity"; "DOutPort"; "DInPort";
   "sleep_time"]%string.

(** ** The hardware and its scripted backend *)

Inductive scan_status := IDLE | RUNNING.

Definition scan_status_eqb (a b : scan_status) : bool :=
  match a, b with
  | IDLE, IDLE | RUNNING, RUNNING => true
  | _, _ => false
  end.

(** Commands that reach the vendor library, as the trace records them. *)
Inductive event :=
| EvAIn (channel : Z)
| EvAlloc (count : Z)
| EvStartScan (low high count : Z)
| EvStatus
| EvSleep
| EvStopScan
| EvFree
| EvConfigPort (port : Z)
| EvBitOut (port channel data : Z).

Definition is_stop (e : event) : bool :=
  match e with EvStopScan => true | _ => false end.
Definition is_free (e : event) : bool :=
  match e with EvFree => true | _ => false end.
Definition is_alloc (e : event) : bool :=
  match e with EvAlloc _ => true | _ => false end.
Definition is_status (e : event) : bool :=
  match e with EvStatus => true | _ => false end.

Definition is_poll (e : event) : bool :=
  match e with EvStatus | EvSleep => true | _ => false end.

(** Number of events of a kind in a trace. *)
Definition count (p : event -> bool) (t : list event) : nat :=
  length (List.filter p t).

(** The world outside the object: the commands issued so far, oldest
    first, and how many status queries have been made. *)
Record world := { trace : list event; queries : nat }.

Definition emit (e : event) : M world unit :=
  modify (fun w => {| trace := trace w ++ [e]; queries := queries w |}).

(** A scripted backend, as a test double would be: what each vendor call
    answers.  Status queries are answered in order, [status_reply n]
    being the answer to query number [n] (status, sample count, index);
    [elapsed n] is the value of [time.time() - start_time] computed
    after [n] queries; [cell n i] is what buffer cell [i] holds after
    [n] queries. *)
Record backend := {
  a_in_reply : Z -> result Q;
  alloc_reply : result unit;
  start_reply : result unit;
  status_reply : nat -> result (scan_status * Z * Z);
  stop_reply : result unit;
  free_reply : result unit;
  config_port_reply : result unit;
  bit_out_reply : result unit;
  elapsed : nat -> Q;
  cell : nat -> nat -> Q
}.

(** What a reply becomes once the call that asked for it returns. *)
Definition answered {A} (r : result A) : outcome A :=
  match r with
  | Ok a => Return a
  | Err e => Raise e
  end.

(** The world once one more command has been issued. *)
Definition after (e : event) (w : world) : world :=
  {| trace := trace w ++ [e]; queries := queries w |}.

(** [w'] is [w] after some status queries and sleeps, and nothing else. *)
Definition polled (w w' : world) : Prop :=
  exists t, trace w' = trace w ++ t /\ forallb is_poll t = true.

(** A vendor call: recorded, then answered. *)
Definition vendor {A} (e : event) (reply : result A) : M world A :=
  (emit e ;;; lift reply)%py.

Definition query_status (b : backend) : M world (scan_status * Z * Z) :=
  fun w =>
    lift (status_reply b (queries w))
      {| trace := trace w ++ [EvStatus]; queries := S (queries w) |}.

(** [sleep(t)] of the [time] module.  The interval is first converted
    to a signed 64-bit count of nanoseconds, rounded away from zero,
    which fails when the count does not fit; a negative count is then
    refused. *)
Definition sleep_limit_ns : Z := 9223372036854775807.

Definition sleep_ns (q : Q) : Z :=
  if Qle_bool 0 q then Qceiling (q * 1000000000)
  else Qfloor (q * 1000000000).

Definition sleep_in_range (q : Q) : bool :=
  (- sleep_limit_ns - 1 <=? sleep_ns q) && (sleep_ns q <=? sleep_limit_ns).

Definition py_sleep (t : pyval) : M world unit :=
  match t with
  | VNum q =>
      if sleep_in_range q then
        if Qle_bool 0 q then emit EvSleep
        else raise (ValueError "sleep length must be non-negative")
      else raise (OverflowError "timestamp too large to convert to C PyTime_t")
  | _ => raise (TypeError "a number is required")
  end.

(** The cells of a buffer of [total] samples, as read back. *)
Definition read_buffer (b : backend) (total : Z) : M world (list Q) :=
  fun w => (Return (List.map (cell b (queries w)) (seq 0 (Z.to_nat total))), w).

(** ** Row-major reshaping ([numpy.ndarray.reshape], C order) *)

Fixpoint rows_of {A} (n cols : nat) (l : list A) : list (list A) :=
  match n with
  | O => []
  | S n' => firstn cols l :: rows_of n' cols (skipn cols l)
  end.


Definition has_shape {A} (d : list (list A)) (rows cols : nat) : Prop :=
  length d = rows /\ Forall (fun r => length r = cols) d.

Section Reshape.
(** What numpy does with a requested shape that has a negative entry
    (an inferred dimension, or an error). *)
Variable np_reshape_negative : list Q -> Z -> Z -> result (list (list Q)).

Definition np_reshape (l : list Q) (rows cols : Z) : result (list (list Q)) :=
  if (rows <? 0) || (cols <? 0) then np_reshape_negative l rows cols
  else if Z.of_nat (length l) =? rows * cols
       then Ok (rows_of (Z.to_nat rows) (Z.to_nat cols) l)
       else Err (ValueError "cannot reshape array")%string.
End Reshape.

(** [Enum[v.upper()]], the body of [look_up_mode] and [look_up_dio_port]. *)
Definition enum_by_upper_name (members : list (string * Z)) (v : pyval) : result Z :=
  match py_upper v with
  | Ok up => enum_getitem members up
  | Err e => Err e
  end.

(** [self.config[key]]; [self.config] is [None] until the first merge. *)
Definition config_getitem (cfg : option cfgobj) (key : string) : result pyval :=
  match cfg with
  | Some c => getitem c key
  | None => Err (TypeError "'NoneType' object is not subscriptable")
  end.

(** A method over the world run with a frame of locals around it. *)
Definition in_world {L A} (m : M world A) : M (world * L) A :=
  fun f =>
    match m (fst f) with
    | (o, w') => (o, (w', snd f))
    end.

(** ** The Linux variant ([daq_linux.py]) *)

Module Linux.

(** The attributes of a [DAQ] object that the methods below use.  An
    attribute that holds [None] or has not been assigned yet is [None];
    [has_pacer] is the answer of [self.AiInfo.has_pacer()], absent while
    [AiInfo] is; [configfile] is the name [read_config] was last given. *)
Record daq := {
  config : option cfgobj;
  ao_range : option ulrange;
  ai_mode : option Z;
  ai_range : option ulrange;
  do_port : option Z;
  di_port : option Z;
  sleep_time : pyval;
  daq_device : option Z;
  number_of_channels : option Z;
  has_pacer : option bool;
  configfile : option string
}.

Definition blank : daq :=
  {| config := None; ao_range := None; ai_mode := None; ai_range := None;
     do_port := None; di_port := None; sleep_time := VNone;
     daq_device := None; number_of_channels := None; has_pacer := None;
     configfile := None |}.

Definition with_config (c : option cfgobj) (s : daq) : daq :=
  {| config := c; ao_range := ao_range s; ai_mode := ai_mode s;
     ai_range := ai_range s; do_port := do_port s; di_port := di_port s;
     sleep_time := sleep_time s; daq_device := daq_device s;
     number_of_channels := number_of_channels s; has_pacer := has_pacer s;
     configfile := configfile s |}.
Definition with_ao_range (r : option ulrange) (s : daq) : daq :=
  {| config := config s; ao_range := r; ai_mode := ai_mode s;
     ai_range := ai_range s; do_port := do_port s; di_port := di_port s;
     sleep_time := sleep_time s; daq_device := daq_device s;
     number_of_channels := number_of_channels s; has_pacer := has_pacer s;
     configfile := configfile s |}.
Definition with_ai_mode (m : option Z) (s : daq) : daq :=
  {| config := config s; ao_range := ao_range s; ai_mode := m;
     ai_range := ai_range s; do_port := do_port s; di_port := di_port s;
     sleep_time := sleep_time s; daq_device := daq_device s;
     number_of_channels := number_of_channels s; has_pacer := has_pacer s;
     configfile := configfile s |}.
Definition with_ai_range (r : option ulrange) (s : daq) : daq :=
  {| config := config s; ao_range := ao_range s; ai_mode := ai_mode s;
     ai_range := r; do_port := do_port s; di_port := di_port s;
     sleep_time := sleep_time s; daq_device := daq_device s;
     number_of_channels := number_of_channels s; has_pacer := has_pacer s;
     configfile := configfile s |}.
Definition with_do_port (p : option Z) (s : daq) : daq :=
  {| config := config s; ao_range := ao_range s; ai_mode := ai_mode s;
     ai_range := ai_range s; do_port := p; di_port := di_port s;
     sleep_time := sleep_time s; daq_device := daq_device s;
     number_of_channels := number_of_channels s; has_pacer := has_pacer s;
     configfile := configfile s |}.
Definition with_di_port (p : option Z) (s : daq) : daq :=
  {| config := config s; ao_range := ao_range s; ai_mode := ai_mode s;
     ai_range := ai_range s; do_port := do_port s; di_port := p;
     sleep_time := sleep_time s; daq_device := daq_device s;
     number_of_channels := number_of_channels s; has_pacer := has_pacer s;
     configfile := configfile s |}.
Definition with_sleep_time (t : pyval) (s : daq) : daq :=
  {| config := config s; ao_range := ao_range s; ai_mode := ai_mode s;
     ai_range := ai_range s; do_port := do_port s; di_port := di_port s;
     sleep_time := t; daq_device := daq_device s;
     number_of_channels := number_of_channels s; has_pacer := has_pacer s;
     configfile := configfile s |}.

Definition with_daq_device (d : option Z) (s : daq) : daq :=
  {| config := config s; ao_range := ao_range s; ai_mode := ai_mode s;
     ai_range := ai_range s; do_port := do_port s; di_port := di_port s;
     sleep_time := sleep_time s; daq_device := d;
     number_of_channels := number_of_channels s; has_pacer := has_pacer s;
     configfile := configfile s |}.

Definition with_configfile (f : option string) (s : daq) : daq :=
  {| config := config s; ao_range := ao_range s; ai_mode := ai_mode s;
     ai_range := ai_range s; do_port := do_port s; di_port := di_port s;
     sleep_time := sleep_time s; daq_device := daq_device s;
     number_of_channels := number_of_channels s; has_pacer := has_pacer s;
     configfile := f |}.

Section Config.
(** The vendor's enumerations and the configuration library. *)
Variable ULRange : list ulrange.
Variable AnalogInputMode : list (string * Z).
Variable DigitalPortType : list (string * Z).
Variable merge : option cfgobj -> cfgobj -> result cfgobj.
Variable load : string -> result cfgobj.
Variable connect : pyval -> M daq unit.

Definition look_up_mode (mode : pyval) : result Z :=
  enum_by_upper_name AnalogInputMode mode.

Definition look_up_dio_port (port_name : pyval) : result Z :=
  enum_by_upper_name DigitalPortType port_name.

(** The five assignments of [_apply_config] that come before the poll
    interval. *)
Definition apply_lookups : M daq unit :=
  (self <- get ;;
   v <- lift (config_getitem (config self) "DACrange") ;;
   r <- lift (look_up_range ULRange v (VStr "unipolar")) ;;
   modify (with_ao_range r) ;;;
   v <- lift (config_getitem (config self) "ADCmode") ;;
   m <- lift (look_up_mode v) ;;
   modify (with_ai_mode (Some m)) ;;;
   v <- lift (config_getitem (config self) "ADCrange") ;;
   p <- lift (config_getitem (config self) "ADCpolarity") ;;
   r <- lift (look_up_range ULRange v p) ;;
   modify (with_ai_range r) ;;;
   v <- lift (config_getitem (config self) "DOutPort") ;;
   p <- lift (look_up_dio_port v) ;;
   modify (with_do_port (Some p)) ;;;
   v <- lift (config_getitem (config self) "DInPort") ;;
   p <- lift (look_up_dio_port v) ;;
   modify (with_di_port (Some p)))%py.

(** [self.sleep_time = self.config("sleep_time")]: the configuration
    object is called, not indexed. *)
Definition apply_sleep_time : M daq unit :=
  (self <- get ;;
   v <- lift (match config self with
              | Some c => call_config c "sleep_time"
              | None => Err (TypeError "'NoneType' object is not callable")
              end) ;;
   modify (with_sleep_time v))%py.

Definition _apply_config : M daq unit :=
  (apply_lookups ;;; apply_sleep_time)%py.

Definition set_config (new : cfgobj) : M daq unit :=
  (self <- get ;;
   merged <- lift (merge (config self) new) ;;
   modify (with_config (Some merged)) ;;;
   _apply_config)%py.

(** [try: ... except OSError:] around the load and [set_config]. *)
Definition except_OSError (body : M daq unit) : M daq unit :=
  fun s =>
    match body s with
    | (Raise (OSError _), s') => (Return tt, s')
    | r => r
    end.

(** [read_config]: the name is recorded, then an [OSError] of the load
    or of [set_config] is swallowed. *)
Definition read_config (filename : string) : M daq unit :=
  (modify (with_configfile (Some filename)) ;;;
   except_OSError (new <- lift (load filename) ;; set_config new))%py.

(** [DAQ(config, configfile, autoconnect=...)] on a fresh object. *)
Definition __init__ (default_config : cfgobj) (cfg : option cfgobj)
    (configfile : option string) (autoconnect : bool) : M daq unit :=
  (modify (with_configfile None) ;;;
   modify (with_config None) ;;;
   set_config default_config ;;;
   modify (with_daq_device None) ;;;
   match configfile with Some f => read_config f | None => ret tt end ;;;
   match cfg with Some c => set_config c | None => ret tt end ;;;
   if autoconnect
   then (self <- get ;;
         boardnum <- lift (config_getitem (config self) "boardnum") ;;
         connect boardnum)
   else ret tt)%py.

End Config.

Section IO.
Variable np_reshape_negative : list Q -> Z -> Z -> result (list (list Q)).
Variable b : backend.
Variable self : daq.

Definition AIn (channel : Z) : M world Q :=
  match daq_device self with
  | None => raise (RuntimeError "DAQ device is not connected")
  | Some _ =>
      match number_of_channels self with
      | None => raise (TypeError "'>' not supported between 'int' and 'NoneType'")
      | Some n =>
          if channel >? n then
            raise (ValueError "channel index requested is higher than number of channels")
          else if channel <? 0 then
            raise (ValueError "channel index must be 0 or positive")
          else vendor (EvAIn channel) (a_in_reply b channel)
      end
  end.

(** The locals of [AInScan] that outlive the [try] block: [status]. *)
Definition frame : Type := world * option scan_status.

Definition set_status (st : scan_status) : M frame unit :=
  modify (fun f => (fst f, Some st)).

Section Scan.
Variable samples_per_channel : Z.
Variable scan_time : Q.

(** The [while] loop, observed for at most [fuel] tests of its guard. *)
Fixpoint poll_loop (fuel : nat) : M frame unit :=
  match fuel with
  | O => polling
  | S fuel' =>
      (f <- get ;;
       if Qle_bool (elapsed b (queries (fst f))) scan_time then
         r <- in_world (query_status b) ;;
         set_status (fst (fst r)) ;;;
         if snd (fst r) >=? samples_per_channel then ret tt
         else (in_world (py_sleep (sleep_time self)) ;;; poll_loop fuel')
       else ret tt)%py
  end.

(** The [finally] block. *)
Definition stop_if_running : M frame unit :=
  match daq_device self with
  | None => ret tt
  | Some _ =>
      (f <- get ;;
       match snd f with
       | None => raise (UnboundLocalError "status")
       | Some st =>
           if scan_status_eqb st RUNNING
           then in_world (vendor EvStopScan (stop_reply b))
           else ret tt
       end)%py
  end.
End Scan.

Definition default_scan_time : Q := 500000%Q.

(** The [try]/[finally] statement of [AInScan], run on the frame in which
    [status] is still unbound. *)
Definition acquire (fuel : nat) (low_channel high_channel samples_per_channel : Z)
    (scan_time : option Q) : M frame unit :=
  try_finally
    (in_world
       (vendor (EvStartScan low_channel high_channel samples_per_channel)
          (start_reply b)) ;;;
     let scan_time :=
       match scan_time with Some t => t | None => default_scan_time end in
     poll_loop samples_per_channel scan_time fuel)%py
    stop_if_running.

Definition AInScan (fuel : nat) (low_channel high_channel : Z) (rate : Q)
    (samples_per_channel : Z) (scan_time : option Q) : M world (list (list Q)) :=
  match has_pacer self with
  | None => raise (AttributeError "AiInfo")
  | Some false =>
      raise (PyException
        "Error: The specified DAQ device does not support hardware paced analog input")
  | Some true =>
      match number_of_channels self with
      | None => raise (TypeError "'>=' not supported between 'int' and 'NoneType'")
      | Some n =>
          let high_channel := if high_channel >=? n then n - 1 else high_channel in
          let channel_count := high_channel - low_channel + 1 in
          (vendor (EvAlloc (channel_count * samples_per_channel)) (alloc_reply b) ;;;
           (fun w =>
              match acquire fuel low_channel high_channel samples_per_channel
                      scan_time (w, None) with
              | (o, f) => (o, fst f)
              end) ;;;
           data <- read_buffer b (channel_count * samples_per_channel) ;;
           lift (np_reshape np_reshape_negative data samples_per_channel channel_count))%py
      end
  end.

End IO.
End Linux.

(** ** The Windows variant ([daq_windows.py]) *)

Module Windows.

(** The attributes the methods below use; [supports_scan] is
    [self.AiInfo.supports_scan] and [port_info] the [type] of each entry
    of [self.DioInfo.port_info], both absent until the device
    information has been read. *)
Record daq := {
  config : option cfgobj;
  AoRange : option ulrange;
  AiMode : option Z;
  AiRange : option ulrange;
  DoPort : option Z;
  DiPort : option Z;
  sleepTime : pyval;
  daq_device : option Z;
  number_of_channels : option Z;
  supports_scan : option bool;
  port_info : option (list Z)
}.

(** What a successful [connect] leaves behind: the device descriptor and
    the digital port information read from it. *)
Definition connected (s : daq) : Prop :=
  is_Some (daq_device s) /\ is_Some (port_info s).

Definition with_config (c : option cfgobj) (s : daq) : daq :=
  {| config := c; AoRange := AoRange s; AiMode := AiMode s;
     AiRange := AiRange s; DoPort := DoPort s; DiPort := DiPort s;
     sleepTime := sleepTime s; daq_device := daq_device s;
     number_of_channels := number_of_channels s;
     supports_scan := supports_scan s; port_info := port_info s |}.
Definition with_AoRange (r : option ulrange) (s : daq) : daq :=
  {| config := config s; AoRange := r; AiMode := AiMode s;
     AiRange := AiRange s; DoPort := DoPort s; DiPort := DiPort s;
     sleepTime := sleepTime s; daq_device := daq_device s;
     number_of_channels := number_of_channels s;
     supports_scan := supports_scan s; port_info := port_info s |}.
Definition with_AiMode (m : option Z) (s : daq) : daq :=
  {| config := config s; AoRange := AoRange s; AiMode := m;
     AiRange := AiRange s; DoPort := DoPort s; DiPort := DiPort s;
     sleepTime := sleepTime s; daq_device := daq_device s;
     number_of_channels := number_of_channels s;
     supports_scan := supports_scan s; port_info := port_info s |}.
Definition with_AiRange (r : option ulrange) (s : daq) : daq :=
  {| config := config s; AoRange := AoRange s; AiMode := AiMode s;
     AiRange := r; DoPort := DoPort s; DiPort := DiPort s;
     sleepTime := sleepTime s; daq_device := daq_device s;
     number_of_channels := number_of_channels s;
     supports_scan := supports_scan s; port_info := port_info s |}.
Definition with_DoPort (p : option Z) (s : daq) : daq :=
  {| config := config s; AoRange := AoRange s; AiMode := AiMode s;
     AiRange := AiRange s; DoPort := p; DiPort := DiPort s;
     sleepTime := sleepTime s; daq_device := daq_device s;
     number_of_channels := number_of_channels s;
     supports_scan := supports_scan s; port_info := port_info s |}.
Definition with_DiPort (p : option Z) (s : daq) : daq :=
  {| config := config s; AoRange := AoRange s; AiMode := AiMode s;
     AiRange := AiRange s; DoPort := DoPort s; DiPort := p;
     sleepTime := sleepTime s; daq_device := daq_device s;
     number_of_channels := number_of_channels s;
     supports_scan := supports_scan s; port_info := port_info s |}.
Definition with_sleepTime (t : pyval) (s : daq) : daq :=
  {| config := config s; AoRange := AoRange s; AiMode := AiMode s;
     AiRange := AiRange s; DoPort := DoPort s; DiPort := DiPort s;
     sleepTime := t; daq_device := daq_device s;
     number_of_channels := number_of_channels s;
     supports_scan := supports_scan s; port_info := port_info s |}.

Section Config.
Variable ULRange : list ulrange.
Variable AnalogInputMode : list (string * Z).
Variable DigitalPortType : list (string * Z).
Variable merge : option cfgobj -> cfgobj -> result cfgobj.

Definition lookUpMode (mode : pyval) : result Z :=
  enum_by_upper_name AnalogInputMode mode.

Definition lookUpDioPort (portName : pyval) : result Z :=
  enum_by_upper_name DigitalPortType portName.

(** [except KeyError: ...; raise]: the handler reports and re-raises. *)
Definition except_KeyError_reraise {A} (m : M daq A) : M daq A :=
  fun s =>
    match m s with
    | (Raise (KeyError k), s') => (Raise (KeyError k), s')
    | r => r
    end.

Definition _applyConfig : M daq unit :=
  except_KeyError_reraise
  (self <- get ;;
   v <- lift (config_getitem (config self) "DACrange") ;;
   r <- lift (look_up_range ULRange v (VStr "unipolar")) ;;
   modify (with_AoRange r) ;;;
   v <- lift (config_getitem (config self) "ADCmode") ;;
   m <- lift (lookUpMode v) ;;
   modify (with_AiMode (Some m)) ;;;
   v <- lift (config_getitem (config self) "ADCrange") ;;
   p <- lift (config_getitem (config self) "ADCpolarity") ;;
   r <- lift (look_up_range ULRange v p) ;;
   modify (with_AiRange r) ;;;
   v <- lift (config_getitem (config self) "DOutPort") ;;
   p <- lift (lookUpDioPort v) ;;
   modify (with_DoPort (Some p)) ;;;
   v <- lift (config_getitem (config self) "DInPort") ;;
   p <- lift (lookUpDioPort v) ;;
   modify (with_DiPort (Some p)) ;;;
   v <- lift (config_getitem (config self) "sleep_time") ;;
   modify (with_sleepTime v))%py.

Definition setConfig (new : cfgobj) : M daq unit :=
  (self <- get ;;
   merged <- lift (merge (config self) new) ;;
   modify (with_config (Some merged)) ;;;
   _applyConfig)%py.

End Config.

Section IO.
Variable np_reshape_negative : list Q -> Z -> Z -> result (list (list Q)).
(** The members of [enums.DigitalPortType] that [DOut] names. *)
Variable FIRSTPORTA FIRSTPORTB AUXPORT : Z.
Variable b : backend.
Variable self : daq.

Definition AIn (channel : Z) : M world Q :=
  match daq_device self with
  | None => raise (RuntimeError "DAQ device is not connected")
  | Some _ =>
      match number_of_channels self with
      | None => raise (TypeError "'>' not supported between 'int' and 'NoneType'")
      | Some n =>
          if channel >? n then
            raise (ValueError "channel index requested is higher than number of channels")
          else if channel <? 0 then
            raise (ValueError "channel index must be 0 or positive")
          else vendor (EvAIn channel) (a_in_reply b channel)
      end
  end.

(** [port == member], for a port that may be [None]. *)
Definition port_is (port : option Z) (member : Z) : bool :=
  match port with
  | Some p => p =? member
  | None => false
  end.

(** The [if]/[elif] chain of [DOut]: the local [port_n], bound or not. *)
Definition port_index (port : option Z) : option nat :=
  if port_is port FIRSTPORTA then Some 0%nat
  else if port_is port FIRSTPORTB then Some 1%nat
  else if port_is port AUXPORT then Some 0%nat
  else None.

Definition DOut (data channel : Z) (port : option Z) : M world unit :=
  match daq_device self with
  | None => raise (RuntimeError "DAQ device is not connected")
  | Some _ =>
      let port := match port with None => DoPort self | Some p => Some p end in
      let port_n := port_index port in
      match port_info self with
      | None => raise (AttributeError "DioInfo")
      | Some infos =>
          match port_n with
          | None => raise (UnboundLocalError "port_n")
          | Some n =>
              match nth_error infos n with
              | None => raise (IndexError "list index out of range")
              | Some ty =>
                  (vendor (EvConfigPort ty) (config_port_reply b) ;;;
                   vendor (EvBitOut ty channel data) (bit_out_reply b))%py
              end
          end
      end
  end.

Section Scan.
Variable total_count : Z.

(** The [while status != IDLE] loop, observed for at most [fuel]
    passes through its body. *)
Fixpoint poll_loop (fuel : nat) (status : scan_status) : M world unit :=
  if scan_status_eqb status IDLE then ret tt
  else
    match fuel with
    | O => polling
    | S fuel' =>
        (py_sleep (sleepTime self) ;;;
         r <- query_status b ;;
         if snd (fst r) >=? total_count then ret tt
         else poll_loop fuel' (fst (fst r)))%py
    end.
End Scan.

Definition AInScan (fuel : nat) (low_channel high_channel : Z) (rate : Q)
    (samples_per_channel : Z) (scan_time : option Q) : M world (list (list Q)) :=
  match supports_scan self with
  | None => raise (AttributeError "AiInfo")
  | Some false =>
      raise (PyException
        "Error: The specified DAQ device does not support scanning analog inputs")
  | Some true =>
      match number_of_channels self with
      | None => raise (TypeError "'>=' not supported between 'int' and 'NoneType'")
      | Some n =>
          let high_channel := if high_channel >=? n then n - 1 else high_channel in
          let low_channel := if low_channel <? 0 then 0 else low_channel in
          let channel_count := high_channel - low_channel + 1 in
          let total_count := samples_per_channel * channel_count in
          (vendor (EvAlloc total_count) (alloc_reply b) ;;;
           try_finally
             (vendor (EvStartScan low_channel high_channel total_count) (start_reply b) ;;;
              r <- query_status b ;;
              poll_loop total_count fuel (fst (fst r)))
             (vendor EvStopScan (stop_reply b)) ;;;
           eng_values <- read_buffer b total_count ;;
           d <- lift (np_reshape np_reshape_negative eng_values
                        samples_per_channel channel_count) ;;
           vendor EvFree (free_reply b) ;;;
           ret d)%py
      end
  end.

End IO.
End Windows.

(** ** When the polling loops stop *)

(** The answer to status query [q] ends the Windows loop: an error, an
    idle device, or a sample count that has reached [total]. *)
Definition windows_exit (b : backend) (total : Z) (q : nat) : bool :=
  match status_reply b q with
  | Ok r => scan_status_eqb (fst (fst r)) IDLE || (snd (fst r) >=? total)
  | Err _ => true
  end.


(** ** Settings that resolve *)

Definition is_ok {A} (r : result A) : bool :=
  match r with Ok _ => true | Err _ => false end.

Section Resolves.
Variable ULRange : list ulrange.
Variable AnalogInputMode : list (string * Z).
Variable DigitalPortType : list (string * Z).

(** The setting under [key] is present and the lookup that
    [_apply_config] makes with it succeeds. *)
Definition resolves (cfg : cfgobj) (key : string) : bool :=
  match items cfg !! key with
  | None => false
  | Some v =>
      if String.eqb key "ADCmode" then
        is_ok (enum_by_upper_name AnalogInputMode v)
      else if String.eqb key "ADCpolarity" then
        match items cfg !! "ADCrange"%string with
        | Some r => is_ok (look_up_range ULRange r v)
        | None => false
        end
      else if String.eqb key "DOutPort" || String.eqb key "DInPort" then
        is_ok (enum_by_upper_name DigitalPortType v)
      else true
  end.

Definition error_of {A} (r : result A) : option exn :=
  match r with Ok _ => None | Err e => Some e end.

(** What reading the setting under [key] raises once the settings before
    it have been read: [KeyError key] when it is absent, the exception
    of the lookup made with its value when that lookup fails, nothing
    when it resolves. *)
Definition setting_error (cfg : cfgobj) (key : string) : option exn :=
  match items cfg !! key with
  | None => Some (KeyError key)
  | Some v =>
      if String.eqb key "ADCmode" then
        error_of (enum_by_upper_name AnalogInputMode v)
      else if String.eqb key "ADCpolarity" then
        match items cfg !! "ADCrange"%string with
        | Some r => error_of (look_up_range ULRange r v)
        | None => Some (KeyError "ADCrange")
        end
      else if String.eqb key "DOutPort" || String.eqb key "DInPort" then
        error_of (enum_by_upper_name DigitalPortType v)
      else None
  end.

(** The claim that a missing setting is reported by name: the outcome is
    a [KeyError] whose key is a required setting absent from [cfg]. *)
Definition names_missing_key (cfg : cfgobj) (o : outcome unit) : Prop :=
  exists k, In k required_keys /\ items cfg !! k = None /\ o = Raise (KeyError k).
End Resolves.

(** ** Fixtures: sample enumerations, a default configuration, test doubles *)

Definition ULRange_sample : list ulrange :=
  [ {| name := "BIP10VOLTS"; range_max := 10; range_value := 1 |};
    {| name := "BIP5VOLTS"; range_max := 5; range_value := 0 |};
    {| name := "UNI10VOLTS"; range_max := 10; range_value := 100 |};
    {| name := "UNI5VOLTS"; range_max := 5; range_value := 101 |} ].

Definition AnalogInputMode_sample : list (string * Z) :=
  [ ("DIFFERENTIAL", 1); ("SINGLE_ENDED", 2) ]%string.

Definition DigitalPortType_sample : list (string * Z) :=
  [ ("AUXPORT", 1); ("FIRSTPORTA", 10); ("FIRSTPORTB", 11);
    ("FIRSTPORTCL", 12) ]%string.

Definition default_items : gmap string pyval :=
  <["boardnum" := VNum 0]>
  (<["DACrange" := VNum 10]>
  (<["ADCmode" := VStr "single_ended"]>
  (<["ADCrange" := VNum 10]>
  (<["ADCpolarity" := VStr "unipolar"]>
  (<["DOutPort" := VStr "FirstPortA"]>
  (<["DInPort" := VStr "FirstPortB"]>
  (<["sleep_time" := VNum (1 # 100)]> ∅))))))).

(** A plain mapping holding every setting. *)
Definition default_config : cfgobj := {| items := default_items; call := None |}.

(** A mapping whose ADC mode is a number and whose ADC range is absent. *)
Definition numeric_mode_config : cfgobj :=
  {| items := <["DACrange" := VNum 10]> (<["ADCmode" := VNum 5]> ∅);
     call := None |}.

(** A mapping without its ADC mode. *)
Definition no_mode_config : cfgobj :=
  {| items := delete "ADCmode"%string default_items; call := None |}.

(** [merge] of a test: the overlay replaces the base. *)
Definition merge_overlay (base : option cfgobj) (new : cfgobj) : result cfgobj :=
  Ok new.

Definition reshape_negative_fails (l : list Q) (rows cols : Z)
  : result (list (list Q)) :=
  Err (ValueError "negative dimensions not allowed").

(** A device that acquires one scan per status query and fills cell [i]
    with [i]. *)
Definition counting_backend : backend :=
  {| a_in_reply := fun _ => Ok (5 # 2)%Q;
     alloc_reply := Ok tt;
     start_reply := Ok tt;
     status_reply := fun n => Ok (RUNNING, Z.of_nat n, Z.of_nat n);
     stop_reply := Ok tt;
     free_reply := Ok tt;
     config_port_reply := Ok tt;
     bit_out_reply := Ok tt;
     elapsed := fun n => inject_Z (Z.of_nat n);
     cell := fun _ i => inject_Z (Z.of_nat i) |}.

(** A device that stays [RUNNING] and never delivers a sample, while the
    clock advances one second per query. *)
Definition stalled_backend : backend :=
  {| a_in_reply := fun _ => Ok 0%Q;
     alloc_reply := Ok tt;
     start_reply := Ok tt;
     status_reply := fun _ => Ok (RUNNING, 0, 0);
     stop_reply := Ok tt;
     free_reply := Ok tt;
     config_port_reply := Ok tt;
     bit_out_reply := Ok tt;
     elapsed := fun n => inject_Z (Z.of_nat n);
     cell := fun _ _ => 0%Q |}.

(** A device whose start-scan command fails. *)
Definition refusing_backend : backend :=
  {| a_in_reply := fun _ => Ok 0%Q;
     alloc_reply := Ok tt;
     start_reply := Err (ULError 1);
     status_reply := fun _ => Ok (IDLE, 0, 0);
     stop_reply := Ok tt;
     free_reply := Ok tt;
     config_port_reply := Ok tt;
     bit_out_reply := Ok tt;
     elapsed := fun _ => 0%Q;
     cell := fun _ _ => 0%Q |}.

(** A device that reports the scan finished and idle at the first query
    inside the loop. *)
Definition idle_backend : backend :=
  {| a_in_reply := fun _ => Ok 0%Q;
     alloc_reply := Ok tt;
     start_reply := Ok tt;
     status_reply := fun _ => Ok (IDLE, 1000, 0);
     stop_reply := Ok tt;
     free_reply := Ok tt;
     config_port_reply := Ok tt;
     bit_out_reply := Ok tt;
     elapsed := fun _ => 0%Q;
     cell := fun _ _ => 0%Q |}.

Definition world0 : world := {| trace := []; queries := 0 |}.

(** A connected four-channel device, in each variant. *)
Definition linux_device : Linux.daq :=
  {| Linux.config := Some default_config;
     Linux.ao_range := None; Linux.ai_mode := Some 2; Linux.ai_range := None;
     Linux.do_port := Some 10; Linux.di_port := Some 11;
     Linux.sleep_time := VNum (1 # 100);
     Linux.daq_device := Some 0; Linux.number_of_channels := Some 4;
     Linux.has_pacer := Some true; Linux.configfile := None |}.

Definition windows_device : Windows.daq :=
  {| Windows.config := Some default_config;
     Windows.AoRange := None; Windows.AiMode := Some 2; Windows.AiRange := None;
     Windows.DoPort := Some 12; Windows.DiPort := Some 11;
     Windows.sleepTime := VNum (1 # 100);
     Windows.daq_device := Some 0; Windows.number_of_channels := Some 4;
     Windows.supports_scan := Some true; Windows.port_info := Some [10; 11] |}.

(** ** Further methods of the two variants *)

(** [l[i]] on a Python list: a negative index counts from the end. *)
Definition py_list_getitem {A} (l : list A) (i : Z) : result A :=
  let n := Z.of_nat (length l) in
  let j := if i <? 0 then n + i else i in
  if (j <? 0) || (n <=? j) then Err (IndexError "list index out of range")
  else
    match nth_error l (Z.to_nat j) with
    | Some x => Ok x
    | None => Err (IndexError "list index out of range")
    end.

(** [len(v)] and [v[i]] for a value that is a list or [None]. *)
Definition py_len {A} (v : option (list A)) : result Z :=
  match v with
  | Some l => Ok (Z.of_nat (length l))
  | None => Err (TypeError "object of type 'NoneType' has no len()")
  end.

Definition py_subscript {A} (v : option (list A)) (i : Z) : result A :=
  match v with
  | Some l => py_list_getitem l i
  | None => Err (TypeError "'NoneType' object is not subscriptable")
  end.

(** The writes that reach the analog-output device: channel, range and
    value, oldest first. *)
Definition ao_world : Type := list (Z * option ulrange * Q).

Definition emit_a_out (channel : Z) (range : option ulrange) (data : Q)
  : M ao_world unit :=
  modify (fun t => t ++ [(channel, range, data)]).

Module LinuxOther.

Section Output.
(** The answer of [a_out]; [self.ao_device] and [self.dio_device], which
    [connect] assigns ([None] before). *)
Variable a_out_reply : Z -> Q -> result unit.
Variable FIRSTPORTA : Z.
Variable b : backend.
Variable self : Linux.daq.
Variable ao_device dio_device : option Z.

Definition AOut (data : Q) (channel : Z) : M ao_world unit :=
  match Linux.daq_device self with
  | None => raise (RuntimeError "DAQ device is not connected")
  | Some _ =>
      if channel <? 0 then
        raise (ValueError "channel index must be 0 or positive")
      else
        match ao_device with
        | None => raise (AttributeError "ao_device")
        | Some _ =>
            (emit_a_out channel (Linux.ao_range self) data ;;;
             lift (a_out_reply channel data))%py
        end
  end.

(** [DOut(data, channel, port)]; [port] is [None] when the argument is
    left to its default. *)
Definition DOut (data channel : Z) (port : option Z) : M world unit :=
  let port := match port with Some p => p | None => FIRSTPORTA end in
  match dio_device with
  | None => raise (AttributeError "dio_device")
  | Some _ =>
      (vendor (EvConfigPort port) (config_port_reply b) ;;;
       vendor (EvBitOut port channel data) (bit_out_reply b))%py
  end.
End Output.

Section Ranges.
(** [self.AoInfo.get_ranges()]: absent while [AoInfo] is, else the
    vendor's answer. *)
Variable ao_get_ranges : option (result (list ulrange)).

(** The class body binds [getAiRanges] twice; the later binding, which
    is the method, calls [self.AoInfo.get_ranges()] and returns nothing. *)
Definition getAiRanges : M Linux.daq (option (list ulrange)) :=
  match ao_get_ranges with
  | None => raise (AttributeError "AoInfo")
  | Some reply => (_ <- lift reply ;; ret None)%py
  end.

Definition set_ai_range_index (r : Z) : M Linux.daq unit :=
  (ranges <- getAiRanges ;;
   n <- lift (py_len ranges) ;;
   if r <? n then
     (x <- lift (py_subscript ranges r) ;;
      modify (Linux.with_ai_range (Some x)))
   else raise (ValueError "Specified range index not found"))%py.
End Ranges.

End LinuxOther.

Module WindowsOther.

Definition with_daq_device (d : option Z) (s : Windows.daq) : Windows.daq :=
  {| Windows.config := Windows.config s; Windows.AoRange := Windows.AoRange s;
     Windows.AiMode := Windows.AiMode s; Windows.AiRange := Windows.AiRange s;
     Windows.DoPort := Windows.DoPort s; Windows.DiPort := Windows.DiPort s;
     Windows.sleepTime := Windows.sleepTime s; Windows.daq_device := d;
     Windows.number_of_channels := Windows.number_of_channels s;
     Windows.supports_scan := Windows.supports_scan s;
     Windows.port_info := Windows.port_info s |}.

Definition with_number_of_channels (n : option Z) (s : Windows.daq) : Windows.daq :=
  {| Windows.config := Windows.config s; Windows.AoRange := Windows.AoRange s;
     Windows.AiMode := Windows.AiMode s; Windows.AiRange := Windows.AiRange s;
     Windows.DoPort := Windows.DoPort s; Windows.DiPort := Windows.DiPort s;
     Windows.sleepTime := Windows.sleepTime s;
     Windows.daq_device := Windows.daq_device s;
     Windows.number_of_channels := n;
     Windows.supports_scan := Windows.supports_scan s;
     Windows.port_info := Windows.port_info s |}.

Section Output.
(** The answer of [v_out]. *)
Variable v_out_reply : Z -> Q -> result unit.
Variable self : Windows.daq.

Definition AOut (data : Q) (channel : Z) : M ao_world unit :=
  match Windows.daq_device self with
  | None => raise (RuntimeError "DAQ device is not connected")
  | Some _ =>
      if channel <? 0 then
        raise (ValueError "channel index must be 0 or positive")
      else
        (emit_a_out channel (Windows.AoRange self) data ;;;
         lift (v_out_reply channel data))%py
  end.
End Output.

Section Ranges.
(** [self.AiInfo.available_ranges]; [None] while [AiInfo] is absent. *)
Variable available_ranges : option (list ulrange).

Definition getAiRanges : M Windows.daq (list ulrange) :=
  match available_ranges with
  | Some l => ret l
  | None => raise (AttributeError "AiInfo")
  end.

Definition setAiRangeIndex (r : Z) : M Windows.daq unit :=
  (ranges <- getAiRanges ;;
   if r <? Z.of_nat (length ranges) then
     (x <- lift (py_list_getitem ranges r) ;;
      modify (Windows.with_AiRange (Some x)))
   else raise (ValueError "Specified Range Index not found"))%py.

(** [member == self.AiRange]: members of the enumeration compare by
    value, and none equals [None]. *)
Definition range_eqb (member : ulrange) (current : option ulrange) : bool :=
  match current with
  | Some c => range_value member =? range_value c
  | None => false
  end.

(** [l.index(x)]: the position of the first element equal to [x]. *)
Fixpoint list_index (l : list ulrange) (x : option ulrange) : option nat :=
  match l with
  | [] => None
  | m :: rest =>
      if range_eqb m x then Some 0%nat
      else match list_index rest x with
           | Some i => Some (S i)
           | None => None
           end
  end.

Definition getAiRangeIndex : M Windows.daq Z :=
  (ranges <- getAiRanges ;;
   self <- get ;;
   match list_index ranges (Windows.AiRange self) with
   | Some i => ret (Z.of_nat i)
   | None => raise (ValueError "x is not in list")
   end)%py.
End Ranges.

Section Disconnect.
(** [self.verbose]; the product names of [self.devices] ([None] before
    the devices are listed); the answers of [get_board_number] and of
    [release_daq_device]. *)
Variable verbose : bool.
Variable devices : option (list string).
Variable board_number_reply : result Z.
Variable release_reply : Z -> result unit.

(** The state [disconnect] touches: the object, and the board numbers
    released so far. *)
Definition released : Type := Windows.daq * list Z.

(** What the progress message needs: [self.devices[boardnum].product_name]. *)
Definition report (boardnum : Z) : M released unit :=
  if verbose then (_ <- lift (py_subscript devices boardnum) ;; ret tt)%py
  else ret tt.

Definition disconnect : M released unit :=
  (st <- get ;;
   match Windows.daq_device (fst st) with
   | Some _ =>
       boardnum <- lift board_number_reply ;;
       if boardnum >=? 0 then
         (modify (fun st => (fst st, snd st ++ [boardnum])) ;;;
          lift (release_reply boardnum) ;;;
          report boardnum)
       else report boardnum
   | None => ret tt
   end ;;;
   modify (fun st =>
     (with_number_of_channels None (with_daq_device None (fst st)), snd st)))%py.
End Disconnect.

(** The part of the object and of the vendor library that connecting
    touches: the object, [self.devices] (descriptors, [None] until the
    devices have been listed), [self.boardnum], how often the inventory
    has been asked for, and the boards registered with
    [create_daq_device]. *)
Record station := {
  object : Windows.daq;
  devices : option (list Z);
  boardnum : option Z;
  inventories : nat;
  created : list (Z * Z)
}.

Section Connect.
(** The answers of [get_daq_device_inventory] and of
    [create_daq_device], and the statements of [connect] after its
    [try] block ([getAiInfo] to [getAoRange]), which go through the
    vendor's property classes. *)
Variable inventory_reply : result (list Z).
Variable create_reply : Z -> Z -> result unit.
Variable configure : M station unit.

(** [except (KeyboardInterrupt, ValueError): print(...)] around a block;
    no [KeyboardInterrupt] arises in the model. *)
Definition except_ValueError (m : M station unit) : M station unit :=
  fun st =>
    match m st with
    | (Raise (ValueError _), st') => (Return tt, st')
    | r => r
    end.

Definition listDevices : M station unit :=
  except_ValueError
    (fun st =>
       let asked :=
         {| object := object st; devices := devices st; boardnum := boardnum st;
            inventories := S (inventories st); created := created st |} in
       match inventory_reply with
       | Err e => (Raise e, asked)
       | Ok found =>
           let listed :=
             {| object := object st; devices := Some found;
                boardnum := boardnum st; inventories := S (inventories st);
                created := created st |} in
           if Z.of_nat (length found) =? 0
           then (Raise (RuntimeError "Error: No DAQ devices found"), listed)
           else (Return tt, listed)
       end).

(** [create_daq_device(boardnum, descriptor)] inside its own [try]: the
    handler for [ULError] passes for the code "board number in use" and
    does nothing for any other code. *)
Definition register (number descriptor : Z) : M station unit :=
  fun st =>
    let logged :=
      {| object := object st; devices := devices st; boardnum := boardnum st;
         inventories := inventories st;
         created := created st ++ [(number, descriptor)] |} in
    match create_reply number descriptor with
    | Ok _ => (Return tt, logged)
    | Err (ULError _) => (Return tt, logged)
    | Err e => (Raise e, logged)
    end.

(** [connect(boardnum)] with a board number given. *)
Definition connect (number : Z) : M station unit :=
  (except_ValueError
     (st <- get ;;
      match devices st with None => listDevices | Some _ => ret tt end ;;;
      st <- get ;;
      descriptor <- lift (py_subscript (devices st) number) ;;
      register number descriptor ;;;
      st <- get ;;
      descriptor <- lift (py_subscript (devices st) number) ;;
      modify (fun st =>
        {| object := with_daq_device (Some descriptor) (object st);
           devices := devices st; boardnum := Some number;
           inventories := inventories st; created := created st |})) ;;;
   configure)%py.
End Connect.

End WindowsOther.

(** A test double for the analog output: it accepts every write. *)
Definition a_out_accepts (channel : Z) (data : Q) : result unit := Ok tt.

(** * Properties *)

(** ** Range lookup *)

Lemma look_up_range_from_find members rang polarity :
  look_up_range_from members rang (VStr polarity)
  = Ok (List.find (range_matches rang polarity) members).
Proof.
  induction members as [|ulr rest IH]; [reflexivity|].
  cbn [look_up_range_from py_upper List.find]. unfold range_matches at 1.
  destruct (String.prefix _ (name ulr)); cbn [andb]; [|exact IH].
  destruct (py_eq _ rang); [reflexivity|exact IH].
Qed.

Lemma find_first_split {A} (p : A -> bool) (l : list A) (d : A) :
  List.find p l = Some d ->
  exists pre post, l = pre ++ d :: post /\ p d = true
                   /\ Forall (fun x => p x = false) pre.
Proof.
  induction l as [|x l IH]; [discriminate|].
  cbn [List.find]. destruct (p x) eqn:Hx.
  - intros [= ->]. exists [], l. repeat split; [assumption|constructor].
  - intros H. destruct (IH H) as (pre & post & -> & Hd & Hpre).
    exists (x :: pre), post. repeat split; [assumption|].
    constructor; assumption.
Qed.

Lemma find_none_all {A} (p : A -> bool) (l : list A) :
  List.find p l = None -> Forall (fun x => p x = false) l.
Proof.
  induction l as [|x l IH]; [constructor|].
  cbn [List.find]. destruct (p x) eqn:Hx; [discriminate|].
  intros H. constructor; auto.
Qed.

(** The case folding of the code is the folding of the letters a-z. *)
Lemma upper_ascii_letter (c : ascii) : upper_ascii c = letter_upper c.
Proof. destruct c as [[] [] [] [] [] [] [] []]; reflexivity. Qed.

Lemma upper_fold_case (s : string) : upper s = fold_case s.
Proof.
  induction s as [|c s IH]; [reflexivity|].
  cbn [upper fold_case]. rewrite upper_ascii_letter, IH. reflexivity.
Qed.

Lemma fold_case_substring (n m : nat) (s : string) :
  fold_case (substring n m s) = substring n m (fold_case s).
Proof.
  revert n m. induction s as [|c s IH]; intros [|n] [|m]; cbn; try reflexivity.
  - rewrite IH. reflexivity.
  - apply IH.
  - apply IH.
Qed.

Lemma prefix_nil (s : string) : String.prefix "" s = true.
Proof. destruct s; reflexivity. Qed.

Lemma substring_0_0 (s : string) : substring 0 0 s = EmptyString.
Proof. destruct s; reflexivity. Qed.

(** [name.startswith(x)] for a two-character [x] compares the first two
    characters of the name with [x]. *)
Lemma prefix_two (x s : string) :
  String.length x = 2%nat ->
  String.prefix x s = String.eqb (substring 0 2 s) x.
Proof.
  destruct x as [|a [|b [|c x]]]; try discriminate. intros _.
  assert (Hdec : forall u v : ascii,
    Ascii.eqb v u = if Ascii.ascii_dec u v then true else false).
  { intros u v. destruct (Ascii.ascii_dec u v) as [->|Hne].
    - apply Ascii.eqb_refl.
    - apply Ascii.eqb_neq. congruence. }
  destruct s as [|a' [|b' s]]; cbn [String.prefix substring String.eqb].
  - reflexivity.
  - rewrite Hdec. destruct (Ascii.ascii_dec a a'); reflexivity.
  - rewrite substring_0_0, prefix_nil, !Hdec. cbn [String.eqb].
    destruct (Ascii.ascii_dec a a'), (Ascii.ascii_dec b b'); reflexivity.
Qed.

Lemma find_ext {A} (p p' : A -> bool) (l : list A) :
  Forall (fun x => p x = p' x) l -> List.find p l = List.find p' l.
Proof.
  induction 1 as [|x l Hx _ IH]; [reflexivity|].
  cbn [List.find]. rewrite Hx, IH. reflexivity.
Qed.

(** The loop of [look_up_range], with the test written out: the name
    starts with the first two characters of the folded request (all of
    it when it is shorter) and the maxima are equal as numbers. *)
Lemma look_up_range_find (table : list ulrange) (q : Q) (polarity : string) :
  look_up_range table (VNum q) (VStr polarity)
  = Ok (List.find
          (fun d => String.prefix (substring 0 2 (fold_case polarity)) (name d)
                    && Qeq_bool (range_max d) q)
          table).
Proof.
  unfold look_up_range. rewrite look_up_range_from_find. f_equal.
  apply find_ext, List.Forall_forall. intros d _.
  unfold range_matches. cbn [py_eq]. rewrite upper_fold_case. reflexivity.
Qed.

(** C6.  For every ordered range table, requested maximum voltage and
    ASCII polarity string, [look_up_range] does not raise and returns
    the first descriptor, in table order, whose name starts with the
    first two characters of the request folded to upper case (with the
    whole request when it has fewer than two) and whose declared maximum
    equals the requested voltage; it returns [None] exactly when no
    descriptor does.  Only the request is folded.  When the polarity
    tags of the table are in upper case and the request has at least two
    characters, that descriptor is the first one whose polarity tag
    equals the first two characters of the request without regard to
    case and whose maximum equals the requested voltage: the
    specification's resolver. *)
Theorem look_up_range_first_match (table : list ulrange) (q : Q)
    (polarity : string) :
  is_ascii polarity = true ->
  let starts d :=
    String.prefix (substring 0 2 (fold_case polarity)) (name d) = true
    /\ (range_max d == q)%Q in
  (exists r, look_up_range table (VNum q) (VStr polarity) = Ok r)
  /\ (forall d, look_up_range table (VNum q) (VStr polarity) = Ok (Some d) ->
        exists pre post,
          table = pre ++ d :: post /\ starts d
          /\ Forall (fun x => ~ starts x) pre)
  /\ (look_up_range table (VNum q) (VStr polarity) = Ok None
      <-> Forall (fun x => ~ starts x) table)
  /\ (forall polarity', is_ascii polarity' = true ->
        fold_case polarity' = fold_case polarity ->
        look_up_range table (VNum q) (VStr polarity')
        = look_up_range table (VNum q) (VStr polarity))
  /\ (upper_case_tags table = true -> (2 <= String.length polarity)%nat ->
        look_up_range table (VNum q) (VStr polarity)
        = Ok (resolveRange_spec table q polarity)).
Proof.
  intros _ starts.
  assert (Hstarts : forall d,
    String.prefix (substring 0 2 (fold_case polarity)) (name d)
    && Qeq_bool (range_max d) q = true <-> starts d).
  { intros d. unfold starts. rewrite andb_true_iff, Qeq_bool_iff. reflexivity. }
  assert (Hnot : forall l,
    Forall (fun x => String.prefix (substring 0 2 (fold_case polarity)) (name x)
                     && Qeq_bool (range_max x) q = false) l
    <-> Forall (fun x => ~ starts x) l).
  { intros l. rewrite !List.Forall_forall. split; intros H x Hx.
    - rewrite <- Hstarts, (H x Hx). discriminate.
    - specialize (H x Hx). rewrite <- Hstarts in H.
      destruct (_ && _); [destruct H|]; reflexivity. }
  rewrite look_up_range_find.
  split; [eexists; reflexivity|]. split; [|split; [|split]].
  - intros d [= H]. destruct (find_first_split _ _ _ H) as (pre & post & -> & Hd & Hpre).
    exists pre, post. split; [reflexivity|]. split; [apply Hstarts, Hd|].
    apply Hnot, Hpre.
  - rewrite <- Hnot. split.
    + intros [= H]. exact (find_none_all _ _ H).
    + intros H. f_equal.
      destruct (List.find _ table) as [d|] eqn:Hf; [|reflexivity].
      apply find_some in Hf as [Hin Hd].
      rewrite List.Forall_forall in H. rewrite (H d Hin) in Hd. discriminate.
  - intros p' _ Hp. rewrite look_up_range_find, Hp. reflexivity.
  - intros Htags Hlen. f_equal. unfold resolveRange_spec.
    apply find_ext, List.Forall_forall. intros d Hd.
    unfold spec_range_matches. f_equal.
    unfold upper_case_tags in Htags. rewrite forallb_forall in Htags.
    specialize (Htags d Hd). apply String.eqb_eq in Htags.
    rewrite Htags, fold_case_substring. unfold polarity_tag.
    apply prefix_two. rewrite <- fold_case_substring.
    clear -Hlen. revert Hlen.
    destruct polarity as [|a [|b s]]; cbn; try lia. intros _.
    destruct s; reflexivity.
Qed.

Lemma look_up_range_first_match_witness :
  is_ascii "unipolar" = true
  /\ upper_case_tags ULRange_sample = true
  /\ look_up_range ULRange_sample (VNum 10) (VStr "unipolar")
     = Ok (resolveRange_spec ULRange_sample 10 "unipolar")
  /\ resolveRange_spec ULRange_sample 10 "unipolar"
     = Some {| name := "UNI10VOLTS"; range_max := 10; range_value := 100 |}.
Proof.
  split; [reflexivity|]. split; [reflexivity|]. split; [|reflexivity].
  apply (look_up_range_first_match ULRange_sample 10 "unipolar");
    [reflexivity|reflexivity|vm_compute; lia].
Defined.

(** C6 as stated does not hold of every table: the code folds the case
    of the request only.  A descriptor whose name is in lower case has
    the polarity tag of the request "bipolar" and its maximum, so the
    specification's resolver returns it; [look_up_range] returns [None]. *)
Lemma look_up_range_lower_case_counterexample :
  let d := {| name := "bip10volts"; range_max := 10; range_value := 1 |} in
  is_ascii "bipolar" = true
  /\ spec_range_matches 10 "bipolar" d = true
  /\ resolveRange_spec [d] 10 "bipolar" = Some d
  /\ look_up_range [d] (VNum 10) (VStr "bipolar") = Ok None
  /\ look_up_range [d] (VNum 10) (VStr "bipolar")
     <> Ok (resolveRange_spec [d] 10 "bipolar").
Proof. cbv zeta. repeat split; try reflexivity. discriminate. Qed.

(** The default request (10 V, unipolar) picks the first unipolar 10 V
    entry; a voltage the table does not have picks nothing. *)
Example look_up_range_default :
  look_up_range ULRange_sample (VNum 10) (VStr "unipolar")
  = Ok (Some {| name := "UNI10VOLTS"; range_max := 10; range_value := 100 |})
  /\ look_up_range ULRange_sample (VNum 3) (VStr "Bipolar") = Ok None.
Proof. split; reflexivity. Qed.

(** ** Single-sample reads *)

Lemma vendor_run {A} (e : event) (r : result A) (w : world) :
  vendor e r w = (answered r, after e w).
Proof. unfold vendor, bind, emit, modify, lift. destruct r; reflexivity. Qed.

(** What the two guards of [AIn] let through, in the Linux variant. *)
Lemma Linux_AIn_cases (b : backend) (self : Linux.daq) (dev n channel : Z)
    (w : world) :
  Linux.daq_device self = Some dev ->
  Linux.number_of_channels self = Some n ->
  Linux.AIn b self channel w =
    if (channel >? n) || (channel <? 0)
    then (Raise (ValueError
                   (if channel >? n
                    then "channel index requested is higher than number of channels"
                    else "channel index must be 0 or positive")), w)
    else (answered (a_in_reply b channel), after (EvAIn channel) w).
Proof.
  intros Hd Hn. unfold Linux.AIn. rewrite Hd, Hn.
  destruct (channel >? n); [reflexivity|].
  destruct (channel <? 0); [reflexivity|]. apply vendor_run.
Qed.

Lemma Windows_AIn_cases (b : backend) (self : Windows.daq) (dev n channel : Z)
    (w : world) :
  Windows.daq_device self = Some dev ->
  Windows.number_of_channels self = Some n ->
  Windows.AIn b self channel w =
    if (channel >? n) || (channel <? 0)
    then (Raise (ValueError
                   (if channel >? n
                    then "channel index requested is higher than number of channels"
                    else "channel index must be 0 or positive")), w)
    else (answered (a_in_reply b channel), after (EvAIn channel) w).
Proof.
  intros Hd Hn. unfold Windows.AIn. rewrite Hd, Hn.
  destruct (channel >? n); [reflexivity|].
  destruct (channel <? 0); [reflexivity|]. apply vendor_run.
Qed.

(** The part of the bound that holds: a negative channel is refused before
    any vendor call, and every channel from 0 to the channel count
    minus one is read through the backend. *)
Lemma AIn_validated_range (b : backend) (self : Linux.daq) (dev n channel : Z)
    (w : world) :
  Linux.daq_device self = Some dev ->
  Linux.number_of_channels self = Some n ->
  (channel < 0 ->
   Linux.AIn b self channel w
   = (Raise (ValueError "channel index must be 0 or positive"), w)
   \/ Linux.AIn b self channel w
      = (Raise (ValueError
           "channel index requested is higher than number of channels"), w))
  /\ (0 <= channel <= n - 1 ->
      Linux.AIn b self channel w
      = (answered (a_in_reply b channel), after (EvAIn channel) w)).
Proof.
  intros Hd Hn. rewrite (Linux_AIn_cases b self dev n channel w Hd Hn). split.
  - intros Hc. destruct (channel >? n) eqn:Hgt; cbn [orb]; [right; reflexivity|].
    replace (channel <? 0) with true by (symmetry; apply Z.ltb_lt; lia).
    left; reflexivity.
  - intros Hc.
    replace (channel >? n) with false by (symmetry; rewrite Z.gtb_ltb; apply Z.ltb_ge; lia).
    replace (channel <? 0) with false by (symmetry; apply Z.ltb_ge; lia).
    reflexivity.
Qed.

(** C1.  The upper guard of [AIn] is [channel > number_of_channels]: the
    channel equal to the channel count passes both guards in both
    variants, so the call issues the vendor read for that channel and
    answers with whatever the backend gives, instead of raising
    [ValueError] before any backend call. *)
Theorem AIn_channel_count_reaches_backend (b : backend) (dev n : Z) (w : world) :
  0 <= n ->
  (forall self : Linux.daq,
      Linux.daq_device self = Some dev ->
      Linux.number_of_channels self = Some n ->
      Linux.AIn b self n w = (answered (a_in_reply b n), after (EvAIn n) w))
  /\ (forall self : Windows.daq,
      Windows.daq_device self = Some dev ->
      Windows.number_of_channels self = Some n ->
      Windows.AIn b self n w = (answered (a_in_reply b n), after (EvAIn n) w)).
Proof.
  intros Hn.
  assert (Hgt : (n >? n) = false) by (rewrite Z.gtb_ltb; apply Z.ltb_irrefl).
  assert (Hlt : (n <? 0) = false) by (apply Z.ltb_ge; exact Hn).
  split; intros self Hd Hc.
  - rewrite (Linux_AIn_cases b self dev n n w Hd Hc), Hgt, Hlt. reflexivity.
  - rewrite (Windows_AIn_cases b self dev n n w Hd Hc), Hgt, Hlt. reflexivity.
Qed.

Lemma AIn_channel_count_reaches_backend_witness :
  0 <= 4
  /\ Linux.AIn counting_backend linux_device 4 world0
     = (Return (5 # 2)%Q, {| trace := [EvAIn 4]; queries := 0 |})
  /\ Windows.AIn counting_backend windows_device 4 world0
     = (Return (5 # 2)%Q, {| trace := [EvAIn 4]; queries := 0 |}).
Proof.
  split; [lia|].
  destruct (AIn_channel_count_reaches_backend counting_backend 0 4 world0) as [HL HW];
    [lia|].
  split.
  - exact (HL linux_device eq_refl eq_refl).
  - exact (HW windows_device eq_refl eq_refl).
Defined.

(** ** Digital output (Windows) *)

Lemma port_is_true (port : option Z) (member : Z) :
  Windows.port_is port member = true <-> port = Some member.
Proof.
  destruct port as [p|]; cbn [Windows.port_is].
  - rewrite Z.eqb_eq. split; [intros ->; reflexivity|intros [= ->]; reflexivity].
  - split; discriminate.
Qed.

Lemma port_is_false (port : option Z) (member : Z) :
  port <> Some member -> Windows.port_is port member = false.
Proof.
  intros H. destruct (Windows.port_is port member) eqn:E; [|reflexivity].
  apply port_is_true in E. contradiction.
Qed.

(** C10.  [DOut] of the Windows variant binds [port_n] only when the
    resolved port (the argument, or the configured output port when the
    argument is [None]) equals FIRSTPORTA, FIRSTPORTB or AUXPORT; for
    every other resolved port on a connected device the call raises
    [UnboundLocalError] for [port_n] and leaves the world as it was: the
    port direction is not configured and no bit is written. *)
Theorem DOut_unmapped_port_unbound (FIRSTPORTA FIRSTPORTB AUXPORT : Z)
    (b : backend) (self : Windows.daq) (data channel : Z) (port : option Z)
    (w : world) :
  Windows.connected self ->
  let resolved :=
    match port with None => Windows.DoPort self | Some p => Some p end in
  (is_Some (Windows.port_index FIRSTPORTA FIRSTPORTB AUXPORT resolved)
   <-> resolved = Some FIRSTPORTA \/ resolved = Some FIRSTPORTB
       \/ resolved = Some AUXPORT)
  /\ (resolved <> Some FIRSTPORTA -> resolved <> Some FIRSTPORTB ->
      resolved <> Some AUXPORT ->
      Windows.DOut FIRSTPORTA FIRSTPORTB AUXPORT b self data channel port w
      = (Raise (UnboundLocalError "port_n"), w)).
Proof.
  intros [[dev Hdev] [infos Hinfo]] resolved. split.
  - unfold Windows.port_index. split.
    + destruct (Windows.port_is resolved FIRSTPORTA) eqn:Ha;
        [left; apply port_is_true; exact Ha|].
      destruct (Windows.port_is resolved FIRSTPORTB) eqn:Hb;
        [right; left; apply port_is_true; exact Hb|].
      destruct (Windows.port_is resolved AUXPORT) eqn:Hx;
        [right; right; apply port_is_true; exact Hx|].
      intros [n Hn]; discriminate.
    + intros [H|[H|H]]; apply port_is_true in H; rewrite H.
      * eexists; reflexivity.
      * destruct (Windows.port_is resolved FIRSTPORTA); eexists; reflexivity.
      * destruct (Windows.port_is resolved FIRSTPORTA);
          destruct (Windows.port_is resolved FIRSTPORTB); eexists; reflexivity.
  - intros Ha Hb Hx. unfold Windows.DOut. rewrite Hdev, Hinfo.
    fold resolved. unfold Windows.port_index.
    rewrite (port_is_false _ _ Ha), (port_is_false _ _ Hb), (port_is_false _ _ Hx).
    reflexivity.
Qed.

Lemma DOut_unmapped_port_unbound_witness :
  Windows.connected windows_device
  /\ Windows.DOut 10 11 1 counting_backend windows_device 1 0 None world0
     = (Raise (UnboundLocalError "port_n"), world0).
Proof.
  assert (Hc : Windows.connected windows_device)
    by (split; eexists; reflexivity).
  split; [exact Hc|].
  apply (DOut_unmapped_port_unbound 10 11 1 counting_backend windows_device
           1 0 None world0 Hc); discriminate.
Defined.

(** ** Applying a configuration *)

Section ConfigFacts.
Variable ULRange : list ulrange.
Variable AnalogInputMode : list (string * Z).
Variable DigitalPortType : list (string * Z).

Lemma required_keys_split (pre post : list string) (k : string) :
  required_keys = pre ++ k :: post ->
  (pre, k) = ([], "DACrange"%string)
  \/ (pre, k) = (["DACrange"], "ADCmode")%string
  \/ (pre, k) = (["DACrange"; "ADCmode"], "ADCrange")%string
  \/ (pre, k) = (["DACrange"; "ADCmode"; "ADCrange"], "ADCpolarity")%string
  \/ (pre, k)
     = (["DACrange"; "ADCmode"; "ADCrange"; "ADCpolarity"], "DOutPort")%string
  \/ (pre, k)
     = (["DACrange"; "ADCmode"; "ADCrange"; "ADCpolarity"; "DOutPort"],
        "DInPort")%string
  \/ (pre, k)
     = (["DACrange"; "ADCmode"; "ADCrange"; "ADCpolarity"; "DOutPort";
         "DInPort"], "sleep_time")%string.
Proof.
  unfold required_keys. intros H.
  do 7 (destruct pre as [|? pre]; cbn [app] in H;
        [injection H as <- _; tauto | injection H as <- H]).
  destruct pre; discriminate.
Qed.

Ltac use_resolves :=
  repeat match goal with
  | H : Forall _ (_ :: _) |- _ => inversion H; subst; clear H
  | H : Forall _ [] |- _ => clear H
  end;
  repeat match goal with
  | H : resolves _ _ _ ?cfg ?k = true |- _ =>
      let E := fresh "E" in
      destruct (items cfg !! k) eqn:E;
      [|unfold resolves in H; rewrite E in H; discriminate H];
      revert H
  end;
  intros;
  repeat match goal with
  | H : resolves _ _ _ _ _ = true |- _ =>
      unfold resolves in H;
      repeat match goal with
      | E : items _ !! _ = _ |- _ => rewrite E in H
      end;
      cbn [String.eqb Ascii.eqb Bool.eqb orb andb] in H
  end.

Ltac run_lookups :=
  repeat first
    [ progress cbv beta iota
    | match goal with
      | E : items _ !! _ = _ |- _ => rewrite E
      end
    | progress (unfold look_up_range at 1; rewrite look_up_range_from_find)
    | match goal with
      | H : is_ok ?r = true |- _ =>
          destruct r eqn:?; [clear H|discriminate H]
      | H : true = true |- _ => clear H
      end ].

Ltac use_error H :=
  unfold setting_error in H;
  match type of H with
  | context [items ?cfg !! ?k] => destruct (items cfg !! k) eqn:?
  end;
  cbn [String.eqb Ascii.eqb Bool.eqb orb andb] in H;
  repeat match goal with
  | E : items _ !! _ = _ |- _ => rewrite E in H
  end;
  lazymatch type of H with
  | error_of ?r = Some _ =>
      destruct r eqn:?; cbn [error_of] in H;
      [discriminate H | injection H as ->]
  | Some _ = Some _ => injection H as <-
  | None = Some _ => discriminate H
  end.

(** A setting resolves exactly when reading it raises nothing. *)
Lemma resolves_no_error (cfg : cfgobj) (k : string) :
  resolves ULRange AnalogInputMode DigitalPortType cfg k = true
  <-> setting_error ULRange AnalogInputMode DigitalPortType cfg k = None.
Proof.
  unfold resolves, setting_error.
  destruct (items cfg !! k); [|split; discriminate].
  repeat match goal with
  | |- context [if ?c then _ else _] => destruct c
  | |- context [match items cfg !! ?k' with _ => _ end] =>
      destruct (items cfg !! k')
  | |- context [is_ok ?r] => destruct r; cbn [is_ok error_of]
  end; split; (reflexivity || discriminate).
Qed.

Lemma Windows_first_failing_setting (cfg : cfgobj) (pre post : list string)
    (k : string) (e : exn) (s : Windows.daq) :
  required_keys = pre ++ k :: post ->
  Forall (fun k' => resolves ULRange AnalogInputMode DigitalPortType cfg k' = true) pre ->
  setting_error ULRange AnalogInputMode DigitalPortType cfg k = Some e ->
  Windows.config s = Some cfg ->
  exists s', Windows._applyConfig ULRange AnalogInputMode DigitalPortType s
             = (Raise e, s').
Proof.
  intros Hsplit Hpre Herr Hcfg.
  apply required_keys_split in Hsplit.
  unfold Windows._applyConfig, Windows.except_KeyError_reraise, bind, get,
    lift, modify, config_getitem, getitem, Windows.lookUpMode,
    Windows.lookUpDioPort.
  cbv beta iota. rewrite Hcfg.
  destruct Hsplit as [E|[E|[E|[E|[E|[E|E]]]]]]; injection E as -> ->;
    use_resolves; use_error Herr; run_lookups;
    try match goal with
    | |- context [Raise ?x] => is_var x; destruct x
    end;
    eexists; reflexivity.
Qed.

Lemma Linux_first_failing_setting (cfg : cfgobj) (pre post : list string)
    (k : string) (e : exn) (s : Linux.daq) :
  required_keys = pre ++ k :: post ->
  Forall (fun k' => resolves ULRange AnalogInputMode DigitalPortType cfg k' = true) pre ->
  setting_error ULRange AnalogInputMode DigitalPortType cfg k = Some e ->
  k <> "sleep_time"%string ->
  Linux.config s = Some cfg ->
  exists s', Linux._apply_config ULRange AnalogInputMode DigitalPortType s
             = (Raise e, s').
Proof.
  intros Hsplit Hpre Herr Hne Hcfg.
  apply required_keys_split in Hsplit.
  unfold Linux._apply_config, Linux.apply_lookups, bind, get,
    lift, modify, config_getitem, getitem, Linux.look_up_mode,
    Linux.look_up_dio_port.
  cbv beta iota. rewrite Hcfg.
  destruct Hsplit as [E|[E|[E|[E|[E|[E|E]]]]]]; injection E as -> ->;
    [| | | | | |congruence];
    use_resolves; use_error Herr; run_lookups; eexists; reflexivity.
Qed.

(** C8.  Applying a configuration whose string settings are ASCII
    reads the settings in the order DACrange, ADCmode, ADCrange,
    ADCpolarity, DOutPort, DInPort, sleep_time, and the first setting in
    that order that is absent or does not resolve decides the exception:
    when every setting before [k] is present and resolves and reading
    [k] raises [e], the call raises [e], handed to the caller of the
    configuration call.  [e] is
    [KeyError] with the key as its argument when the setting is absent,
    and the exception of the lookup made with its value otherwise.  This
    holds for every setting in the Windows variant and for every setting
    but the poll interval in the Linux variant. *)
Theorem apply_config_first_failing_setting (cfg : cfgobj)
    (pre post : list string) (k : string) (e : exn) :
  ascii_settings cfg = true ->
  required_keys = pre ++ k :: post ->
  Forall (fun k' => resolves ULRange AnalogInputMode DigitalPortType cfg k' = true) pre ->
  setting_error ULRange AnalogInputMode DigitalPortType cfg k = Some e ->
  (items cfg !! k = None -> e = KeyError k)
  /\ (forall v, items cfg !! k = Some v ->
        (k = "ADCmode"%string
         /\ enum_by_upper_name AnalogInputMode v = Err e)
        \/ (k = "ADCpolarity"%string
            /\ exists r, items cfg !! "ADCrange"%string = Some r
                         /\ look_up_range ULRange r v = Err e)
        \/ ((k = "DOutPort"%string \/ k = "DInPort"%string)
            /\ enum_by_upper_name DigitalPortType v = Err e))
  /\ (forall s : Windows.daq,
        Windows.config s = Some cfg ->
        exists s', Windows._applyConfig ULRange AnalogInputMode DigitalPortType s
                   = (Raise e, s'))
  /\ (k <> "sleep_time"%string ->
      forall s : Linux.daq,
        Linux.config s = Some cfg ->
        exists s', Linux._apply_config ULRange AnalogInputMode DigitalPortType s
                   = (Raise e, s')).
Proof.
  intros _ Hsplit Hpre Herr. split; [|split; [|split]].
  - intros Hk. unfold setting_error in Herr. rewrite Hk in Herr.
    injection Herr as <-. reflexivity.
  - intros v Hv.
    pose proof (required_keys_split _ _ _ Hsplit) as Hcase.
    destruct Hcase as [E|[E|[E|[E|[E|[E|E]]]]]]; injection E as -> ->;
      use_resolves; unfold setting_error in Herr; rewrite Hv in Herr;
      cbn [String.eqb Ascii.eqb Bool.eqb orb andb] in Herr;
      try discriminate Herr.
    + left. split; [reflexivity|].
      destruct (enum_by_upper_name AnalogInputMode v); [discriminate Herr|].
      injection Herr as ->. reflexivity.
    + right; left. split; [reflexivity|].
      match goal with
      | E : items cfg !! "ADCrange"%string = Some ?r |- _ =>
          exists r; split; [reflexivity|]; rewrite E in Herr
      end.
      destruct (look_up_range ULRange _ v); [discriminate Herr|].
      injection Herr as ->. reflexivity.
    + right; right. split; [left; reflexivity|].
      destruct (enum_by_upper_name DigitalPortType v); [discriminate Herr|].
      injection Herr as ->. reflexivity.
    + right; right. split; [right; reflexivity|].
      destruct (enum_by_upper_name DigitalPortType v); [discriminate Herr|].
      injection Herr as ->. reflexivity.
  - intros s Hs.
    exact (Windows_first_failing_setting cfg pre post k e s Hsplit Hpre Herr Hs).
  - intros Hne s Hs.
    exact (Linux_first_failing_setting cfg pre post k e s Hsplit Hpre Herr Hne Hs).
Qed.

Lemma apply_lookups_keeps_config (s s' : Linux.daq) (o : outcome unit) :
  Linux.apply_lookups ULRange AnalogInputMode DigitalPortType s = (o, s') ->
  Linux.config s' = Linux.config s.
Proof.
  unfold Linux.apply_lookups, bind, get, lift, modify. cbv beta iota.
  repeat match goal with
  | |- context [match ?r with Ok _ => _ | Err _ => _ end] => destruct r
  end; cbv beta iota; intros [= _ <-]; reflexivity.
Qed.

(** C9.  In the Linux variant, on a configuration object that is a plain
    (non-callable) mapping whose five lookups before the poll interval
    succeed (so that it holds their settings), [_apply_config] raises
    [TypeError] at the poll-interval step, where it calls the
    configuration object instead of indexing it; so [set_config], and
    the construction of a [DAQ] whose default configuration merges into
    that object, raise the same [TypeError] and do not complete. *)
Theorem Linux_apply_config_poll_interval_TypeError (cfg : cfgobj)
    (s s' : Linux.daq) :
  Linux.config s = Some cfg ->
  plain_mapping cfg ->
  Linux.apply_lookups ULRange AnalogInputMode DigitalPortType s = (Return tt, s') ->
  Linux._apply_config ULRange AnalogInputMode DigitalPortType s
  = (Raise (TypeError "object is not callable"), s')
  /\ (forall merge new s0,
        merge (Linux.config s0) new = Ok cfg ->
        s = Linux.with_config (Some cfg) s0 ->
        Linux.set_config ULRange AnalogInputMode DigitalPortType merge new s0
        = (Raise (TypeError "object is not callable"), s'))
  /\ (forall merge load connect default arg file auto s0,
        merge None default = Ok cfg ->
        s = Linux.with_config (Some cfg)
              (Linux.with_config None (Linux.with_configfile None s0)) ->
        Linux.__init__ ULRange AnalogInputMode DigitalPortType merge load
          connect default arg file auto s0
        = (Raise (TypeError "object is not callable"), s')).
Proof.
  intros Hcfg Hplain Hlook.
  assert (Happly :
    Linux._apply_config ULRange AnalogInputMode DigitalPortType s
    = (Raise (TypeError "object is not callable"), s')).
  { unfold Linux._apply_config, bind at 1. rewrite Hlook.
    unfold Linux.apply_sleep_time, bind, get, lift. cbv beta iota.
    rewrite (apply_lookups_keeps_config _ _ _ Hlook), Hcfg.
    unfold call_config. rewrite Hplain. reflexivity. }
  split; [exact Happly|]. split.
  - intros merge new s0 Hm ->.
    unfold Linux.set_config, bind, get, lift, modify. cbv beta iota.
    rewrite Hm. exact Happly.
  - intros merge load connect default arg file auto s0 Hm ->.
    unfold Linux.__init__, bind at 1. unfold modify at 1. cbv beta iota.
    unfold bind at 1. unfold modify at 1. cbv beta iota.
    unfold bind at 1.
    assert (Hset :
      Linux.set_config ULRange AnalogInputMode DigitalPortType merge default
        (Linux.with_config None (Linux.with_configfile None s0))
      = (Raise (TypeError "object is not callable"), s')).
    { unfold Linux.set_config, bind, get, lift, modify. cbv beta iota.
      cbn [Linux.config Linux.with_config]. rewrite Hm. exact Happly. }
    rewrite Hset. reflexivity.
Qed.

(** Whatever the lookups do, [_apply_config] on a plain mapping does not
    return. *)
Lemma Linux_apply_config_never_returns (cfg : cfgobj) (s : Linux.daq) :
  Linux.config s = Some cfg ->
  plain_mapping cfg ->
  exists e s', Linux._apply_config ULRange AnalogInputMode DigitalPortType s
               = (Raise e, s').
Proof.
  intros Hcfg Hplain. unfold Linux._apply_config, bind at 1.
  destruct (Linux.apply_lookups _ _ _ s) as [o s1] eqn:Hlook.
  pose proof (apply_lookups_keeps_config _ _ _ Hlook) as Hkeep.
  destruct o as [[]|e|].
  - unfold Linux.apply_sleep_time, bind, get, lift. cbv beta iota.
    rewrite Hkeep, Hcfg. unfold call_config. rewrite Hplain.
    eexists _, _; reflexivity.
  - eexists _, _; reflexivity.
  - exfalso. revert Hlook.
    unfold Linux.apply_lookups, bind, get, lift, modify. cbv beta iota.
    repeat match goal with
    | |- context [match ?r with Ok _ => _ | Err _ => _ end] => destruct r
    end; cbv beta iota; discriminate.
Qed.

End ConfigFacts.

Lemma apply_config_first_failing_setting_witness :
  ascii_settings no_mode_config = true
  /\ ascii_settings numeric_mode_config = true
  /\ setting_error ULRange_sample AnalogInputMode_sample DigitalPortType_sample
    no_mode_config "ADCmode" = Some (KeyError "ADCmode")
  /\ (exists s',
        Windows._applyConfig ULRange_sample AnalogInputMode_sample
          DigitalPortType_sample
          (Windows.with_config (Some no_mode_config) windows_device)
        = (Raise (KeyError "ADCmode"), s'))
  /\ (exists s',
        Linux._apply_config ULRange_sample AnalogInputMode_sample
          DigitalPortType_sample
          (Linux.with_config (Some no_mode_config) linux_device)
        = (Raise (KeyError "ADCmode"), s'))
  /\ setting_error ULRange_sample AnalogInputMode_sample DigitalPortType_sample
       numeric_mode_config "ADCmode" = Some (AttributeError "upper")
  /\ (exists s',
        Linux._apply_config ULRange_sample AnalogInputMode_sample
          DigitalPortType_sample
          (Linux.with_config (Some numeric_mode_config) linux_device)
        = (Raise (AttributeError "upper"), s')).
Proof.
  assert (Hk : setting_error ULRange_sample AnalogInputMode_sample
                 DigitalPortType_sample no_mode_config "ADCmode"
               = Some (KeyError "ADCmode"))
    by (vm_compute; reflexivity).
  assert (Hn : setting_error ULRange_sample AnalogInputMode_sample
                 DigitalPortType_sample numeric_mode_config "ADCmode"
               = Some (AttributeError "upper"))
    by (vm_compute; reflexivity).
  split; [vm_compute; reflexivity|]. split; [vm_compute; reflexivity|].
  split; [exact Hk|].
  destruct (apply_config_first_failing_setting ULRange_sample
              AnalogInputMode_sample DigitalPortType_sample no_mode_config
              ["DACrange"%string]
              ["ADCrange"; "ADCpolarity"; "DOutPort"; "DInPort"; "sleep_time"]%string
              "ADCmode"%string (KeyError "ADCmode")) as (_ & _ & HW & HL).
  - vm_compute; reflexivity.
  - reflexivity.
  - repeat constructor.
  - exact Hk.
  - split; [apply HW; reflexivity|].
    split; [apply HL; [discriminate|reflexivity]|].
    split; [exact Hn|].
    destruct (apply_config_first_failing_setting ULRange_sample
                AnalogInputMode_sample DigitalPortType_sample numeric_mode_config
                ["DACrange"%string]
                ["ADCrange"; "ADCpolarity"; "DOutPort"; "DInPort"; "sleep_time"]%string
                "ADCmode"%string (AttributeError "upper")) as (_ & _ & _ & HL').
    + vm_compute; reflexivity.
    + reflexivity.
    + repeat constructor.
    + exact Hn.
    + apply HL'; [discriminate|reflexivity].
Defined.

(** C8 as stated does not hold: with the ADC range absent and the ADC
    mode a number, applying the configuration raises [AttributeError]
    from the mode lookup, which names no absent setting. *)
Lemma apply_config_missing_key_counterexample :
  (exists k, In k required_keys /\ items numeric_mode_config !! k = None)
  /\ Windows._applyConfig ULRange_sample AnalogInputMode_sample
       DigitalPortType_sample
       (Windows.with_config (Some numeric_mode_config) windows_device)
     = (Raise (AttributeError "upper"),
        Windows.with_AoRange
          (Some {| name := "UNI10VOLTS"; range_max := 10; range_value := 100 |})
          (Windows.with_config (Some numeric_mode_config) windows_device))
  /\ ~ names_missing_key numeric_mode_config
        (fst (Windows._applyConfig ULRange_sample AnalogInputMode_sample
                DigitalPortType_sample
                (Windows.with_config (Some numeric_mode_config) windows_device)))
  /\ ~ names_missing_key numeric_mode_config
        (fst (Linux._apply_config ULRange_sample AnalogInputMode_sample
                DigitalPortType_sample
                (Linux.with_config (Some numeric_mode_config) linux_device))).
Proof.
  split; [|split; [|split]].
  - exists "ADCrange"%string. split; [cbn; tauto|vm_compute; reflexivity].
  - vm_compute. reflexivity.
  - intros (k & _ & _ & H). vm_compute in H. discriminate H.
  - intros (k & _ & _ & H). vm_compute in H. discriminate H.
Qed.

Lemma Linux_apply_config_poll_interval_TypeError_witness :
  plain_mapping default_config
  /\ exists s',
      Linux.apply_lookups ULRange_sample AnalogInputMode_sample
        DigitalPortType_sample
        (Linux.with_config (Some default_config) (Linux.with_config None Linux.blank))
      = (Return tt, s')
      /\ Linux._apply_config ULRange_sample AnalogInputMode_sample
           DigitalPortType_sample
           (Linux.with_config (Some default_config) (Linux.with_config None Linux.blank))
         = (Raise (TypeError "object is not callable"), s')
      /\ Linux.__init__ ULRange_sample AnalogInputMode_sample
           DigitalPortType_sample merge_overlay (fun _ => Err (OSError "no file"))
           (fun _ => ret tt) default_config None None true Linux.blank
         = (Raise (TypeError "object is not callable"), s').
Proof.
  split; [reflexivity|].
  eexists. split; [vm_compute; reflexivity|].
  match goal with
  | |- _ = (_, ?s') /\ _ =>
      destruct (Linux_apply_config_poll_interval_TypeError ULRange_sample
                  AnalogInputMode_sample DigitalPortType_sample default_config
                  (Linux.with_config (Some default_config)
                     (Linux.with_config None Linux.blank)) s')
        as (Ha & _ & Hi)
  end.
  - reflexivity.
  - reflexivity.
  - vm_compute; reflexivity.
  - split; [exact Ha|]. apply Hi; reflexivity.
Defined.


(** ** The scan: what reaches the backend *)

Lemma polled_refl (w : world) : polled w w.
Proof. exists []. split; [symmetry; apply app_nil_r|reflexivity]. Qed.

Lemma polled_trans (w1 w2 w3 : world) : polled w1 w2 -> polled w2 w3 -> polled w1 w3.
Proof.
  intros (t1 & H1 & F1) (t2 & H2 & F2). exists (t1 ++ t2). split.
  - rewrite H2, H1. symmetry. apply app_assoc.
  - rewrite forallb_app, F1, F2. reflexivity.
Qed.

Lemma query_status_run (b : backend) (w : world) :
  query_status b w
  = (answered (status_reply b (queries w)),
     {| trace := trace w ++ [EvStatus]; queries := S (queries w) |}).
Proof. unfold query_status, lift. destruct (status_reply b (queries w)); reflexivity. Qed.

Lemma query_status_polled (b : backend) (w w' : world) o :
  query_status b w = (o, w') -> polled w w'.
Proof.
  rewrite query_status_run. intros [= _ <-]. exists [EvStatus]. split; reflexivity.
Qed.

Lemma py_sleep_polled (t : pyval) (w w' : world) o :
  py_sleep t w = (o, w') -> polled w w'.
Proof.
  unfold py_sleep. destruct t as [|q|s]; try (intros [= _ <-]; apply polled_refl).
  destruct (sleep_in_range q); [destruct (Qle_bool 0 q)|].
  - intros [= _ <-]. exists [EvSleep]. split; reflexivity.
  - intros [= _ <-]. apply polled_refl.
  - intros [= _ <-]. apply polled_refl.
Qed.

Lemma Windows_poll_loop_polled (b : backend) (self : Windows.daq) (total : Z)
    (fuel : nat) :
  forall status w o w',
    Windows.poll_loop b self total fuel status w = (o, w') -> polled w w'.
Proof.
  induction fuel as [|fuel IH]; intros status w o w'; cbn [Windows.poll_loop];
    destruct (scan_status_eqb status IDLE);
    try (intros [= _ <-]; apply polled_refl).
  unfold bind.
  destruct (py_sleep (Windows.sleepTime self) w) as [o1 w1] eqn:Hs.
  apply py_sleep_polled in Hs.
  destruct o1 as [[]|e|]; try (intros [= _ <-]; exact Hs).
  destruct (query_status b w1) as [o2 w2] eqn:Hq.
  apply query_status_polled in Hq.
  pose proof (polled_trans _ _ _ Hs Hq) as H12.
  destruct o2 as [r|e|]; try (intros [= _ <-]; exact H12).
  destruct (snd (fst r) >=? total).
  - intros [= _ <-]; exact H12.
  - intros H. apply IH in H. exact (polled_trans _ _ _ H12 H).
Qed.

Lemma count_app (p : event -> bool) (t1 t2 : list event) :
  count p (t1 ++ t2) = (count p t1 + count p t2)%nat.
Proof. unfold count. rewrite List.filter_app, length_app. reflexivity. Qed.

Lemma count_polls (t : list event) :
  forallb is_poll t = true ->
  count is_stop t = 0%nat /\ count is_free t = 0%nat /\ count is_alloc t = 0%nat.
Proof.
  induction t as [|e t IH]; [intros _; repeat split|].
  cbn [forallb]. intros [He Ht]%andb_true_iff.
  destruct (IH Ht) as (H1 & H2 & H3). unfold count in *.
  destruct e; try discriminate He; cbn; auto.
Qed.

(** The commands one call of the Windows [AInScan] issues once the
    buffer is allocated. *)
Lemma Windows_AInScan_trace np (b : backend) (self : Windows.daq) (fuel : nat)
    (low high : Z) (rate : Q) (spc : Z) (scan_time : option Q) (n : Z)
    (w w' : world) (o : outcome (list (list Q))) :
  Windows.supports_scan self = Some true ->
  Windows.number_of_channels self = Some n ->
  alloc_reply b = Ok tt ->
  Windows.AInScan np b self fuel low high rate spc scan_time w = (o, w') ->
  o <> Polling ->
  let high' := if high >=? n then n - 1 else high in
  let low' := if low <? 0 then 0 else low in
  let total := spc * (high' - low' + 1) in
  exists t tail,
    trace w' = trace w ++ EvAlloc total :: EvStartScan low' high' total
                            :: t ++ EvStopScan :: tail
    /\ forallb is_poll t = true
    /\ ((exists d, o = Return d /\ tail = [EvFree])
        \/ (exists e, o = Raise e
                      /\ (tail = [] \/ tail = [EvFree] /\ free_reply b = Err e))).
Proof.
  intros Hs Hn Ha Hrun Ho high' low' total. revert Hrun.
  unfold Windows.AInScan. rewrite Hs, Hn.
  fold high' low' total.
  unfold bind at 1. rewrite vendor_run, Ha. cbn [answered].
  unfold bind at 1. unfold try_finally.
  unfold bind at 1. rewrite vendor_run.
  set (w1 := after (EvStartScan low' high' total) (after (EvAlloc total) w)).
  assert (Hw1 : trace w1 = trace w ++ [EvAlloc total; EvStartScan low' high' total]).
  { unfold w1, after. cbn [trace]. rewrite <- app_assoc. reflexivity. }
  match goal with
  | |- (let (_, _) := (let (_, _) := ?body in _) in _) = _ -> _ =>
      destruct body as [o0 w2] eqn:Hbody
  end.
  assert (Hp : polled w1 w2).
  { destruct (start_reply b) as [[]|e]; cbn [answered] in Hbody.
    - unfold bind in Hbody.
      destruct (query_status b w1) as [o1 wq] eqn:Hq.
      pose proof (query_status_polled _ _ _ _ Hq) as Hpq.
      destruct o1 as [r|e|]; try (injection Hbody as _ <-; exact Hpq).
      apply Windows_poll_loop_polled in Hbody.
      exact (polled_trans _ _ _ Hpq Hbody).
    - injection Hbody as _ <-. apply polled_refl. }
  destruct Hp as (t & Ht & Ft).
  assert (Hstop : forall tail,
    trace w ++ EvAlloc total :: EvStartScan low' high' total
                 :: t ++ EvStopScan :: tail
    = (trace w2 ++ [EvStopScan]) ++ tail).
  { intros tail. rewrite Ht, Hw1, <- !app_assoc. reflexivity. }
  rewrite vendor_run.
  destruct o0 as [[]|e0|].
  - destruct (stop_reply b) as [[]|e]; cbn [answered].
    + unfold bind, read_buffer, lift.
      destruct (np_reshape np _ spc (high' - low' + 1)) as [d|e].
      * rewrite vendor_run. unfold ret.
        destruct (free_reply b) as [[]|e] eqn:Hfree; cbn [answered];
          intros [= <- <-]; exists t, [EvFree]; cbn [after trace];
          (split; [rewrite Hstop; reflexivity|split; [exact Ft|]]).
        -- left. eexists; split; reflexivity.
        -- right. eexists; split; [reflexivity|right; split; reflexivity].
      * intros [= <- <-]. exists t, []. cbn [after trace].
        split; [rewrite Hstop, app_nil_r; reflexivity|split; [exact Ft|]].
        right. eexists; split; [reflexivity|left; reflexivity].
    + intros [= <- <-]. exists t, []. cbn [after trace].
      split; [rewrite Hstop, app_nil_r; reflexivity|split; [exact Ft|]].
      right. eexists; split; [reflexivity|left; reflexivity].
  - destruct (stop_reply b) as [[]|e]; cbn [answered];
      intros [= <- <-]; exists t, []; cbn [after trace];
      (split; [rewrite Hstop, app_nil_r; reflexivity|split; [exact Ft|]]);
      right; eexists; split; try reflexivity; left; reflexivity.
  - intros [= <- _]. contradiction Ho. reflexivity.
Qed.

Lemma in_world_run {L A} (m : M world A) (w : world) (l : L) :
  in_world m (w, l) = (fst (m w), (snd (m w), l)).
Proof. unfold in_world. cbn [fst snd]. destruct (m w); reflexivity. Qed.

Lemma Linux_poll_loop_polled (b : backend) (self : Linux.daq) (spc : Z) (T : Q)
    (fuel : nat) :
  forall (f f' : Linux.frame) o,
    Linux.poll_loop b self spc T fuel f = (o, f') -> polled (fst f) (fst f').
Proof.
  induction fuel as [|fuel IH]; intros [w st] f' o; cbn [Linux.poll_loop fst].
  - intros [= _ <-]. apply polled_refl.
  - unfold bind at 1, get. cbv beta iota. cbn [fst].
    destruct (Qle_bool (elapsed b (queries w)) T);
      [|intros [= _ <-]; apply polled_refl].
    unfold bind at 1. rewrite in_world_run, query_status_run. cbn [fst snd].
    set (w1 := {| trace := trace w ++ [EvStatus]; queries := S (queries w) |}).
    assert (H1 : polled w w1) by (exists [EvStatus]; split; reflexivity).
    destruct (status_reply b (queries w)) as [r|e]; cbn [answered];
      [|intros [= _ <-]; exact H1].
    unfold bind at 1, Linux.set_status, modify. cbv beta iota. cbn [fst].
    destruct (snd (fst r) >=? spc); [intros [= _ <-]; exact H1|].
    unfold bind at 1. rewrite in_world_run. cbn [fst snd].
    destruct (py_sleep (Linux.sleep_time self) w1) as [o2 w2] eqn:Hs.
    apply py_sleep_polled in Hs. pose proof (polled_trans _ _ _ H1 Hs) as H12.
    cbn [fst snd].
    destruct o2 as [[]|e|]; try (intros [= _ <-]; exact H12).
    intros H. apply IH in H. cbn [fst] in H. exact (polled_trans _ _ _ H12 H).
Qed.

(** The commands the [try]/[finally] statement of the Linux [AInScan]
    issues, and the stop command among them. *)
Lemma Linux_acquire_trace (b : backend) (self : Linux.daq) (fuel : nat)
    (low high spc : Z) (scan_time : option Q) (w : world) (f' : Linux.frame)
    (o : outcome unit) :
  Linux.acquire b self fuel low high spc scan_time (w, None) = (o, f') ->
  o <> Polling ->
  exists t tail,
    trace (fst f') = trace w ++ EvStartScan low high spc :: t ++ tail
    /\ forallb is_poll t = true
    /\ (tail = [EvStopScan] /\ is_Some (Linux.daq_device self)
                           /\ snd f' = Some RUNNING
        \/ tail = [] /\ ~ (is_Some (Linux.daq_device self)
                           /\ snd f' = Some RUNNING))
    /\ (forall e, start_reply b = Err e -> t = [] /\ tail = [] /\ snd f' = None).
Proof.
  unfold Linux.acquire, try_finally. intros Hrun Ho. revert Hrun.
  unfold bind at 1. rewrite in_world_run, vendor_run. cbn [fst snd].
  set (w1 := after (EvStartScan low high spc) w).
  match goal with
  | |- (let (_, _) := ?body in _) = _ -> _ => destruct body as [o0 f2] eqn:Hbody
  end.
  assert (Hp : polled w1 (fst f2)
               /\ (forall e, start_reply b = Err e -> f2 = (w1, None))).
  { destruct (start_reply b) as [[]|e]; cbn [answered] in Hbody.
    - apply Linux_poll_loop_polled in Hbody. split; [exact Hbody|discriminate].
    - injection Hbody as _ <-. split; [apply polled_refl|reflexivity]. }
  destruct Hp as [(t & Ht & Ft) Hfail]. destruct f2 as [w2 st2]. cbn [fst] in Ht.
  assert (Hcleanup : forall (o1 : outcome unit) f3,
    Linux.stop_if_running b self (w2, st2) = (o1, f3) ->
    exists tail,
      trace (fst f3) = trace w ++ EvStartScan low high spc :: t ++ tail
      /\ snd f3 = st2
      /\ (tail = [EvStopScan] /\ is_Some (Linux.daq_device self)
                             /\ st2 = Some RUNNING
          \/ tail = [] /\ ~ (is_Some (Linux.daq_device self)
                             /\ st2 = Some RUNNING))).
  { intros o1 f3. unfold Linux.stop_if_running.
    destruct (Linux.daq_device self) as [dev|].
    - unfold bind, get. cbv beta iota. cbn [snd].
      destruct st2 as [[]|].
      + cbn [scan_status_eqb]. intros [= _ <-]. exists []. cbn [fst snd].
        rewrite Ht, app_nil_r. unfold w1, after. cbn [trace].
        rewrite <- app_assoc. split; [reflexivity|split; [reflexivity|]].
        right. split; [reflexivity|]. intros [_ [=]].
      + cbn [scan_status_eqb]. rewrite in_world_run, vendor_run. cbn [fst snd].
        intros [= _ <-]. exists [EvStopScan]. cbn [fst snd after trace].
        rewrite Ht. unfold w1, after. cbn [trace]. rewrite <- !app_assoc.
        split; [reflexivity|split; [reflexivity|]].
        left. split; [reflexivity|split; [eexists; reflexivity|reflexivity]].
      + intros [= _ <-]. exists []. cbn [fst snd].
        rewrite Ht, app_nil_r. unfold w1, after. cbn [trace].
        rewrite <- app_assoc. split; [reflexivity|split; [reflexivity|]].
        right. split; [reflexivity|]. intros [_ [=]].
    - intros [= _ <-]. exists []. cbn [fst snd].
      rewrite Ht, app_nil_r. unfold w1, after. cbn [trace].
      rewrite <- app_assoc. split; [reflexivity|split; [reflexivity|]].
      right. split; [reflexivity|]. intros [[? [=]] _]. }
  destruct (Linux.stop_if_running b self (w2, st2)) as [o1 f3] eqn:Hstop.
  destruct (Hcleanup _ _ eq_refl) as (tail & Htr & Hst & Htail).
  assert (Hgoal : exists t0 tail0,
    trace (fst f3) = trace w ++ EvStartScan low high spc :: t0 ++ tail0
    /\ forallb is_poll t0 = true
    /\ (tail0 = [EvStopScan] /\ is_Some (Linux.daq_device self)
                            /\ snd f3 = Some RUNNING
        \/ tail0 = [] /\ ~ (is_Some (Linux.daq_device self)
                            /\ snd f3 = Some RUNNING))
    /\ (forall e, start_reply b = Err e -> t0 = [] /\ tail0 = [] /\ snd f3 = None)).
  { exists t, tail. rewrite Hst. split; [exact Htr|split; [exact Ft|split; [exact Htail|]]].
    intros e He. specialize (Hfail e He). injection Hfail as -> ->.
    unfold w1, after in Ht. cbn [trace] in Ht.
    assert (t = []) as ->.
    { apply (f_equal (@length event)) in Ht. rewrite !length_app in Ht.
      destruct t; [reflexivity|cbn in Ht; lia]. }
    split; [reflexivity|]. split; [|reflexivity].
    destruct Htail as [(_ & _ & [=])|[-> _]]. reflexivity. }
  destruct o0 as [[]|e0|].
  - destruct o1 as [[]|e1|]; intros [= <- <-]; exact Hgoal.
  - destruct o1 as [[]|e1|]; intros [= <- <-]; exact Hgoal.
  - intros [= <- _]. contradiction Ho; reflexivity.
Qed.

(** ** The scan: the polling loops stop *)

Lemma py_sleep_cases (t : pyval) (w : world) :
  py_sleep t w = (Return tt, after EvSleep w)
  \/ exists e, py_sleep t w = (Raise e, w).
Proof.
  unfold py_sleep. destruct t as [|q|s]; try (right; eexists; reflexivity).
  destruct (sleep_in_range q); [destruct (Qle_bool 0 q)|];
    [left; reflexivity|right; eexists; reflexivity..].
Qed.

Lemma Windows_poll_loop_exits (b : backend) (self : Windows.daq) (total : Z) :
  forall (k fuel : nat) status w,
    windows_exit b total (queries w + k) = true ->
    (k < fuel)%nat ->
    fst (Windows.poll_loop b self total fuel status w) <> Polling.
Proof.
  induction k as [|k IH]; intros fuel status w Hexit Hfuel;
    (destruct fuel as [|fuel]; [lia|]); cbn [Windows.poll_loop];
    (destruct (scan_status_eqb status IDLE); [discriminate|]);
    unfold bind at 1;
    (destruct (py_sleep_cases (Windows.sleepTime self) w) as [->|[e ->]];
     [|discriminate]);
    unfold bind at 1; rewrite query_status_run; cbn [after queries];
    unfold windows_exit in Hexit.
  - rewrite Nat.add_0_r in Hexit.
    destruct (status_reply b (queries w)) as [r|e]; cbn [answered];
      [|discriminate].
    destruct (snd (fst r) >=? total); [discriminate|].
    rewrite orb_false_r in Hexit.
    destruct fuel; cbn [Windows.poll_loop]; rewrite Hexit; discriminate.
  - destruct (status_reply b (queries w)) as [r|e]; cbn [answered];
      [|discriminate].
    destruct (snd (fst r) >=? total); [discriminate|].
    apply IH; [|lia]. cbn [queries]. unfold windows_exit.
    replace (S (queries w) + k)%nat with (queries w + S k)%nat by lia.
    exact Hexit.
Qed.

Lemma Linux_poll_loop_timeout (b : backend) (self : Linux.daq) (spc : Z) (T : Q)
    (fuel : nat) (f : Linux.frame) :
  Qle_bool (elapsed b (queries (fst f))) T = false ->
  Linux.poll_loop b self spc T (S fuel) f = (Return tt, f).
Proof.
  intros H. cbn [Linux.poll_loop]. unfold bind, get. cbv beta iota.
  rewrite H. reflexivity.
Qed.

Lemma Windows_AInScan_exits np (b : backend) (self : Windows.daq) (fuel k : nat)
    (low high : Z) (rate : Q) (spc : Z) (scan_time : option Q) (n : Z)
    (w : world) :
  Windows.supports_scan self = Some true ->
  Windows.number_of_channels self = Some n ->
  windows_exit b
    (spc * ((if high >=? n then n - 1 else high)
            - (if low <? 0 then 0 else low) + 1))
    (S (queries w) + k) = true ->
  (k < fuel)%nat ->
  fst (Windows.AInScan np b self fuel low high rate spc scan_time w) <> Polling.
Proof.
  intros Hs Hn Hexit Hfuel. unfold Windows.AInScan. rewrite Hs, Hn.
  set (total := spc * _) in *.
  unfold bind at 1. rewrite vendor_run.
  destruct (alloc_reply b) as [[]|e]; cbn [answered]; [|discriminate].
  unfold bind at 1, try_finally. unfold bind at 1. rewrite vendor_run.
  set (w1 := after _ (after _ w)).
  assert (Hbody : forall o0 w2,
    match answered (start_reply b) with
    | Return _ =>
        (r <- query_status b ;; Windows.poll_loop b self total fuel (fst (fst r)))%py w1
    | Raise e => (Raise e, w1)
    | Polling => (Polling, w1)
    end = (o0, w2) -> o0 <> Polling).
  { intros o0 w2. destruct (start_reply b) as [[]|e]; cbn [answered];
      [|intros [= <- _]; discriminate].
    unfold bind. rewrite query_status_run.
    destruct (status_reply b (queries w1)) as [r|e]; cbn [answered];
      [|intros [= <- _]; discriminate].
    intros H.
    pose proof (Windows_poll_loop_exits b self total k fuel (fst (fst r))
                  {| trace := trace w1 ++ [EvStatus]; queries := S (queries w1) |})
      as Hx.
    rewrite H in Hx. apply Hx; [exact Hexit|exact Hfuel]. }
  match goal with
  | |- fst (let (_, _) := (let (_, _) := ?body in _) in _) <> _ =>
      destruct body as [o0 w2] eqn:Hb
  end.
  specialize (Hbody _ _ eq_refl). rewrite vendor_run.
  destruct o0 as [[]|e0|]; [| |contradiction Hbody; reflexivity];
    (destruct (stop_reply b) as [[]|e]; cbn [answered]; [|discriminate]);
    [|discriminate].
  unfold bind, read_buffer, lift.
  destruct (np_reshape np _ spc _); [|discriminate].
  rewrite vendor_run. destruct (free_reply b) as [[]|e]; discriminate.
Qed.


(** ** Reshaping *)

Lemma rows_of_length {A} (cols : nat) (n : nat) (l : list A) :
  length (rows_of n cols l) = n.
Proof.
  revert l. induction n as [|n IH]; intros l; cbn [rows_of length];
    [reflexivity|]. rewrite IH. reflexivity.
Qed.

Lemma rows_of_row_length {A} (cols : nat) (n : nat) (l : list A) :
  length l = (n * cols)%nat ->
  Forall (fun r => length r = cols) (rows_of n cols l).
Proof.
  revert l. induction n as [|n IH]; intros l Hl; cbn [rows_of]; constructor.
  - rewrite List.length_firstn. lia.
  - apply IH. rewrite List.length_skipn. lia.
Qed.




(** ** The scan as a whole *)

(** The commands one call of the Linux [AInScan] issues once the buffer
    is allocated. *)
Lemma Linux_AInScan_trace np (b : backend) (self : Linux.daq) (fuel : nat)
    (low high : Z) (rate : Q) (spc : Z) (scan_time : option Q) (n : Z)
    (w w' : world) (o : outcome (list (list Q))) :
  Linux.has_pacer self = Some true ->
  Linux.number_of_channels self = Some n ->
  alloc_reply b = Ok tt ->
  Linux.AInScan np b self fuel low high rate spc scan_time w = (o, w') ->
  o <> Polling ->
  let high' := if high >=? n then n - 1 else high in
  exists t tail,
    trace w' = trace w ++ EvAlloc ((high' - low + 1) * spc)
                 :: EvStartScan low high' spc :: t ++ tail
    /\ forallb is_poll t = true
    /\ (tail = [] \/ tail = [EvStopScan])
    /\ (forall e, start_reply b = Err e -> t = [] /\ tail = []).
Proof.
  intros Hp Hn Ha Hrun Ho high'. revert Hrun.
  unfold Linux.AInScan. rewrite Hp, Hn. fold high'.
  unfold bind at 1. rewrite vendor_run, Ha. cbn [answered].
  unfold bind at 1.
  set (w0 := after (EvAlloc ((high' - low + 1) * spc)) w).
  destruct (Linux.acquire b self fuel low high' spc scan_time (w0, None))
    as [o0 f'] eqn:Hacq.
  assert (Hshape : o0 <> Polling ->
    exists t tail,
      trace (fst f') = trace w ++ EvAlloc ((high' - low + 1) * spc)
                         :: EvStartScan low high' spc :: t ++ tail
      /\ forallb is_poll t = true
      /\ (tail = [] \/ tail = [EvStopScan])
      /\ (forall e, start_reply b = Err e -> t = [] /\ tail = [])).
  { intros Ho0.
    destruct (Linux_acquire_trace _ _ _ _ _ _ _ _ _ _ Hacq Ho0)
      as (t & tail & Htr & Ft & Htail & Hfail).
    exists t, tail. split.
    - rewrite Htr. unfold w0, after. cbn [trace]. rewrite <- app_assoc. reflexivity.
    - split; [exact Ft|]. split.
      + destruct Htail as [(-> & _)|(-> & _)]; [right|left]; reflexivity.
      + intros e He. destruct (Hfail e He) as (-> & -> & _). split; reflexivity. }
  destruct o0 as [[]|e0|].
  - unfold bind, read_buffer, lift.
    destruct (np_reshape np _ spc _); intros [= <- <-]; apply Hshape; discriminate.
  - intros [= <- <-]. apply Hshape; discriminate.
  - intros [= <- _]. contradiction Ho; reflexivity.
Qed.

(** What a completed scan returns: the reshaped buffer as it stands when
    the call ends. *)
Lemma Windows_AInScan_returns np (b : backend) (self : Windows.daq) (fuel : nat)
    (low high : Z) (rate : Q) (spc : Z) (scan_time : option Q) (n : Z)
    (w w' : world) (d : list (list Q)) :
  Windows.number_of_channels self = Some n ->
  Windows.AInScan np b self fuel low high rate spc scan_time w = (Return d, w') ->
  let cc := (if high >=? n then n - 1 else high)
            - (if low <? 0 then 0 else low) + 1 in
  np_reshape np (List.map (cell b (queries w')) (seq 0 (Z.to_nat (spc * cc))))
    spc cc = Ok d.
Proof.
  intros Hn Hrun cc. revert Hrun. unfold Windows.AInScan.
  destruct (Windows.supports_scan self) as [[]|]; try discriminate.
  rewrite Hn. fold cc.
  unfold bind at 1. rewrite vendor_run.
  destruct (alloc_reply b) as [[]|e]; cbn [answered]; [|discriminate].
  unfold bind at 1.
  match goal with
  | |- (let (_, _) := ?run in _) = _ -> _ => destruct run as [o0 w3]
  end.
  destruct o0 as [[]|e0|]; try discriminate.
  unfold bind, read_buffer, lift.
  destruct (np_reshape np _ spc cc) as [d0|e] eqn:Hre; [|discriminate].
  rewrite vendor_run. unfold ret.
  destruct (free_reply b) as [[]|e]; cbn [answered]; [|discriminate].
  intros [= <- <-]. cbn [after queries]. exact Hre.
Qed.


(** ** The stop command *)

(** A failed start-scan command ends the call. *)
Lemma Windows_AInScan_failed_start_exits np (b : backend) (self : Windows.daq)
    (fuel : nat) (low high : Z) (rate : Q) (spc : Z) (scan_time : option Q)
    (n : Z) (w : world) (e : exn) :
  Windows.supports_scan self = Some true ->
  Windows.number_of_channels self = Some n ->
  start_reply b = Err e ->
  fst (Windows.AInScan np b self fuel low high rate spc scan_time w) <> Polling.
Proof.
  intros Hs Hn Hst. unfold Windows.AInScan. rewrite Hs, Hn.
  unfold bind at 1. rewrite vendor_run.
  destruct (alloc_reply b) as [[]|e0]; cbn [answered]; [|discriminate].
  unfold bind at 1, try_finally. unfold bind at 1. rewrite vendor_run, Hst.
  cbn [answered]. rewrite vendor_run.
  destruct (stop_reply b) as [[]|e']; discriminate.
Qed.

(** C2.  The Windows variant issues its stop command in a plain
    [finally]: every call that allocates its buffer and leaves the
    [try] block, by sample-count completion, by an idle device, by an
    exception raised while polling or by a failed start-scan command,
    issues it exactly once.  A call whose start-scan command fails does
    leave, with one stop command issued; and the call leaves once a
    status answer is an error, idle, or a full sample count. *)
Theorem Windows_scan_stop_count np (b : backend) (self : Windows.daq)
    (fuel : nat) (low high : Z) (rate : Q) (spc : Z) (scan_time : option Q)
    (n : Z) (w : world) :
  Windows.supports_scan self = Some true ->
  Windows.number_of_channels self = Some n ->
  alloc_reply b = Ok tt ->
  let run := Windows.AInScan np b self fuel low high rate spc scan_time w in
  (fst run <> Polling ->
   count is_stop (trace (snd run)) = S (count is_stop (trace w)))
  /\ (forall e, start_reply b = Err e ->
        fst run <> Polling
        /\ count is_stop (trace (snd run)) = S (count is_stop (trace w)))
  /\ (forall k,
        windows_exit b
          (spc * ((if high >=? n then n - 1 else high)
                  - (if low <? 0 then 0 else low) + 1))
          (S (queries w) + k) = true ->
        (k < fuel)%nat -> fst run <> Polling).
Proof.
  intros Hs Hn Ha run.
  assert (Hcount : fst run <> Polling ->
    count is_stop (trace (snd run)) = S (count is_stop (trace w))).
  { intros Ho.
    destruct (Windows_AInScan_trace np b self fuel low high rate spc scan_time
                n w (snd run) (fst run) Hs Hn Ha (surjective_pairing run) Ho)
      as (t & tail & Htr & Ft & Htail).
    rewrite Htr. destruct (count_polls t Ft) as (Hc & _ & _).
    assert (Htl : count is_stop tail = 0%nat)
      by (destruct Htail as [(? & _ & ->)|(? & _ & [->|[-> _]])]; reflexivity).
    change (EvAlloc ?a :: EvStartScan ?x ?y ?z :: t ++ EvStopScan :: tail)
      with ([EvAlloc a; EvStartScan x y z] ++ t ++ [EvStopScan] ++ tail).
    rewrite !count_app, Hc, Htl. cbn. lia. }
  split; [exact Hcount|]. split.
  - intros e He.
    assert (Ho : fst run <> Polling)
      by exact (Windows_AInScan_failed_start_exits np b self fuel low high rate
                  spc scan_time n w e Hs Hn He).
    split; [exact Ho|exact (Hcount Ho)].
  - intros k Hexit Hfuel.
    exact (Windows_AInScan_exits np b self fuel k low high rate spc scan_time
             n w Hs Hn Hexit Hfuel).
Qed.

Lemma Windows_scan_stop_count_witness :
  count is_stop
    (trace (snd (Windows.AInScan reshape_negative_fails counting_backend
                   windows_device 20 0 1 10000 3 None world0))) = 1%nat
  /\ count is_stop
       (trace (snd (Windows.AInScan reshape_negative_fails idle_backend
                      windows_device 20 0 1 10000 3 None world0))) = 1%nat
  /\ count is_stop
       (trace (snd (Windows.AInScan reshape_negative_fails refusing_backend
                      windows_device 20 0 1 10000 3 None world0))) = 1%nat.
Proof.
  split; [|split].
  - destruct (Windows_scan_stop_count reshape_negative_fails counting_backend
                windows_device 20%nat 0 1 10000%Q 3 None 4 world0
                eq_refl eq_refl eq_refl) as (Hcount & _).
    apply Hcount. vm_compute. discriminate.
  - destruct (Windows_scan_stop_count reshape_negative_fails idle_backend
                windows_device 20%nat 0 1 10000%Q 3 None 4 world0
                eq_refl eq_refl eq_refl) as (Hcount & _).
    apply Hcount. vm_compute. discriminate.
  - destruct (Windows_scan_stop_count reshape_negative_fails refusing_backend
                windows_device 20%nat 0 1 10000%Q 3 None 4 world0
                eq_refl eq_refl eq_refl) as (_ & Hfail & _).
    exact (proj2 (Hfail (ULError 1) eq_refl)).
Defined.

(** C2 as stated does not hold: in the Windows variant a failed
    start-scan command is followed by one stop command, not none. *)
Lemma Windows_scan_stop_counterexample :
  start_reply refusing_backend = Err (ULError 1)
  /\ Windows.AInScan reshape_negative_fails refusing_backend windows_device
       20 0 1 10000 3 None world0
     = (Raise (ULError 1),
        {| trace := [EvAlloc 6; EvStartScan 0 1 6; EvStopScan]; queries := 0 |})
  /\ count is_stop
       (trace (snd (Windows.AInScan reshape_negative_fails refusing_backend
                      windows_device 20 0 1 10000 3 None world0))) <> 0%nat.
Proof.
  split; [reflexivity|]. split; [vm_compute; reflexivity|].
  vm_compute; discriminate.
Qed.

(** ** The timeout *)

Lemma Windows_stalled_loop (fuel : nat) :
  forall w,
    Windows.poll_loop stalled_backend windows_device 2000 fuel RUNNING w
    = (Polling,
       {| trace := trace w ++ concat (repeat [EvSleep; EvStatus] fuel);
          queries := (queries w + fuel)%nat |}).
Proof.
  induction fuel as [|fuel IH]; intros w; cbn [Windows.poll_loop scan_status_eqb].
  - unfold polling. cbn [repeat concat]. rewrite app_nil_r, Nat.add_0_r.
    destruct w; reflexivity.
  - unfold bind at 1. change (Windows.sleepTime windows_device) with (VNum (1 # 100)).
    change (py_sleep (VNum (1 # 100)) w) with (Return tt, after EvSleep w).
    cbv beta iota. unfold bind at 1. rewrite query_status_run.
    change (status_reply stalled_backend _) with (@Ok (scan_status * Z * Z) (RUNNING, 0, 0)).
    cbn [answered fst snd after trace queries].
    change (0 >=? 2000) with false. cbv iota.
    rewrite IH. cbn [trace queries repeat concat]. f_equal. f_equal.
    + rewrite <- !app_assoc. reflexivity.
    + lia.
Qed.

(** C3.  The Windows variant never reads [scan_time]: two calls that
    differ only in the timeout do the same thing, and on a device that
    stays RUNNING without delivering a sample the call
    [AInScan(0, 1, 10000, 1000, scan_time)] is still polling after any
    number of passes through the loop, whatever the timeout and however
    far the clock has advanced. *)
Theorem Windows_AInScan_ignores_scan_time np :
  (forall b self fuel low high rate spc w (t1 t2 : option Q),
      Windows.AInScan np b self fuel low high rate spc t1 w
      = Windows.AInScan np b self fuel low high rate spc t2 w)
  /\ (forall (fuel : nat) (scan_time : option Q),
        Windows.AInScan np stalled_backend windows_device fuel 0 1 10000 1000
          scan_time world0
        = (Polling,
           {| trace := [EvAlloc 2000; EvStartScan 0 1 2000; EvStatus]
                         ++ concat (repeat [EvSleep; EvStatus] fuel);
              queries := S fuel |})).
Proof.
  split; [reflexivity|].
  intros fuel scan_time. unfold Windows.AInScan.
  change (Windows.supports_scan windows_device) with (Some true).
  change (Windows.number_of_channels windows_device) with (Some 4).
  cbv beta iota zeta.
  change (1 >=? 4) with false. change (0 <? 0) with false. cbv iota.
  change (1000 * (1 - 0 + 1)) with 2000.
  unfold bind at 1. rewrite vendor_run.
  change (alloc_reply stalled_backend) with (Ok tt). cbn [answered].
  unfold bind at 1, try_finally. unfold bind at 1. rewrite vendor_run.
  change (start_reply stalled_backend) with (Ok tt). cbn [answered].
  unfold bind at 1. rewrite query_status_run.
  change (status_reply stalled_backend _) with (@Ok (scan_status * Z * Z) (RUNNING, 0, 0)).
  cbn [answered fst snd]. rewrite Windows_stalled_loop.
  cbn [trace queries after world0 app]. reflexivity.
Qed.


(** ** Channel clamping *)

(** The Windows variant clamps both ends of the channel range before it
    counts the channels. *)
Lemma Windows_AInScan_clamps np (b : backend) (self : Windows.daq) (fuel : nat)
    (low high : Z) (rate : Q) (spc : Z) (scan_time : option Q) (n : Z) (w : world) :
  Windows.supports_scan self = Some true ->
  Windows.number_of_channels self = Some n ->
  alloc_reply b = Ok tt ->
  let run := Windows.AInScan np b self fuel low high rate spc scan_time w in
  fst run <> Polling ->
  let high' := if high >=? n then n - 1 else high in
  let low' := if low <? 0 then 0 else low in
  exists rest,
    trace (snd run)
    = trace w ++ EvAlloc (spc * (high' - low' + 1))
        :: EvStartScan low' high' (spc * (high' - low' + 1)) :: rest.
Proof.
  intros Hs Hn Ha run Ho high' low'.
  destruct (Windows_AInScan_trace np b self fuel low high rate spc scan_time
              n w (snd run) (fst run) Hs Hn Ha (surjective_pairing run) Ho)
    as (t & tail & Htr & _).
  eexists. exact Htr.
Qed.

(** The request (low=0, high=99) on four channels runs with high channel
    3 and four channels, in both variants. *)
Lemma AInScan_clamps_high_99 :
  (exists rest,
     trace (snd (Windows.AInScan reshape_negative_fails counting_backend
                   windows_device 20 0 99 10000 3 None world0))
     = EvAlloc (3 * 4) :: EvStartScan 0 3 (3 * 4) :: rest)
  /\ (exists rest,
        trace (snd (Linux.AInScan reshape_negative_fails counting_backend
                      linux_device 20 0 99 10000 3 None world0))
        = EvAlloc (4 * 3) :: EvStartScan 0 3 3 :: rest).
Proof. split; eexists; vm_compute; reflexivity. Qed.

(** C4.  The Linux variant clamps only the high channel.  A negative low
    channel reaches the backend as it was given: the buffer is sized for
    [high - low + 1] channels counted from the negative low channel, and
    the start-scan command carries that low channel. *)
Theorem Linux_AInScan_negative_low_unclamped np (b : backend) (self : Linux.daq)
    (fuel : nat) (low high : Z) (rate : Q) (spc : Z) (scan_time : option Q)
    (n : Z) (w : world) :
  Linux.has_pacer self = Some true ->
  Linux.number_of_channels self = Some n ->
  alloc_reply b = Ok tt ->
  low < 0 ->
  let run := Linux.AInScan np b self fuel low high rate spc scan_time w in
  fst run <> Polling ->
  let high' := if high >=? n then n - 1 else high in
  high' - low + 1 > high' - 0 + 1
  /\ exists rest,
       trace (snd run)
       = trace w ++ EvAlloc ((high' - low + 1) * spc)
           :: EvStartScan low high' spc :: rest.
Proof.
  intros Hp Hn Ha Hlow run Ho high'. split; [lia|].
  destruct (Linux_AInScan_trace np b self fuel low high rate spc scan_time
              n w (snd run) (fst run) Hp Hn Ha (surjective_pairing run) Ho)
    as (t & tail & Htr & _).
  eexists. exact Htr.
Qed.

Lemma Linux_AInScan_negative_low_unclamped_witness :
  -1 < 0
  /\ Linux.AInScan reshape_negative_fails counting_backend linux_device
       20 (-1) 1 10000 3 None world0
     = (Return [[0; 1; 2]; [3; 4; 5]; [6; 7; 8]]%Q,
        {| trace := [EvAlloc 9; EvStartScan (-1) 1 3; EvStatus; EvSleep;
                     EvStatus; EvSleep; EvStatus; EvSleep; EvStatus;
                     EvStopScan];
           queries := 4 |})
  /\ exists rest,
       trace (snd (Linux.AInScan reshape_negative_fails counting_backend
                     linux_device 20 (-1) 1 10000 3 None world0))
       = trace world0 ++ EvAlloc ((1 - -1 + 1) * 3) :: EvStartScan (-1) 1 3 :: rest.
Proof.
  split; [lia|]. split; [vm_compute; reflexivity|].
  apply (Linux_AInScan_negative_low_unclamped reshape_negative_fails
           counting_backend linux_device 20%nat (-1) 1 10000%Q 3 None 4 world0
           eq_refl eq_refl eq_refl).
  - lia.
  - vm_compute. discriminate.
Defined.

(** ** The scan buffer *)

(** C5.  The Windows variant frees the scan buffer only on the path that
    returns the matrix.  When the call raises (a failed start-scan
    command, an exception while polling, a failed stop command or a
    failed reshape) and the free command itself is not what failed, the
    buffer has been allocated and no free command has been issued; a
    call that returns has issued exactly one. *)
Theorem Windows_AInScan_error_keeps_buffer np (b : backend) (self : Windows.daq)
    (fuel : nat) (low high : Z) (rate : Q) (spc : Z) (scan_time : option Q)
    (n : Z) (w w' : world) (o : outcome (list (list Q))) :
  Windows.supports_scan self = Some true ->
  Windows.number_of_channels self = Some n ->
  alloc_reply b = Ok tt ->
  free_reply b = Ok tt ->
  Windows.AInScan np b self fuel low high rate spc scan_time w = (o, w') ->
  count is_alloc (trace w') = S (count is_alloc (trace w))
  /\ (forall e, o = Raise e -> count is_free (trace w') = count is_free (trace w))
  /\ (forall d, o = Return d -> count is_free (trace w') = S (count is_free (trace w))).
Proof.
  intros Hs Hn Ha Hf Hrun.
  destruct o as [d|e|].
  - destruct (Windows_AInScan_trace np b self fuel low high rate spc scan_time
                n w w' _ Hs Hn Ha Hrun ltac:(discriminate))
      as (t & tail & Htr & Ft & Htail).
    destruct (count_polls t Ft) as (_ & Hfr & Hal).
    destruct Htail as [(d' & _ & ->)|(e & [=] & _)].
    rewrite Htr.
    change (EvAlloc ?a :: EvStartScan ?x ?y ?z :: t ++ [EvStopScan; EvFree])
      with ([EvAlloc a; EvStartScan x y z] ++ t ++ [EvStopScan; EvFree]).
    rewrite !count_app, Hfr, Hal. cbn.
    split; [lia|]. split; [discriminate|intros _ _; lia].
  - destruct (Windows_AInScan_trace np b self fuel low high rate spc scan_time
                n w w' _ Hs Hn Ha Hrun ltac:(discriminate))
      as (t & tail & Htr & Ft & Htail).
    destruct (count_polls t Ft) as (_ & Hfr & Hal).
    assert (tail = []) as ->.
    { destruct Htail as [(d' & [=] & _)|(e' & _ & [->|[_ He]])]; [reflexivity|].
      rewrite Hf in He. discriminate He. }
    rewrite Htr.
    change (EvAlloc ?a :: EvStartScan ?x ?y ?z :: t ++ [EvStopScan])
      with ([EvAlloc a; EvStartScan x y z] ++ t ++ [EvStopScan]).
    rewrite !count_app, Hfr, Hal. cbn.
    split; [lia|]. split; [intros _ _; lia|discriminate].
  - revert Hrun. unfold Windows.AInScan. rewrite Hs, Hn.
    unfold bind at 1. rewrite vendor_run, Ha. cbn [answered].
    unfold bind at 1.
    match goal with
    | |- (let (_, _) := ?body in _) = _ -> _ =>
        destruct body as [o0 w2] eqn:Hbody
    end.
    assert (Hw2 : exists t, trace w2 = trace w ++ EvAlloc
      (spc * ((if high >=? n then n - 1 else high)
              - (if low <? 0 then 0 else low) + 1)) :: t
      /\ count is_alloc t = 0%nat /\ count is_free t = 0%nat).
    { revert Hbody. unfold try_finally. unfold bind at 1. rewrite vendor_run.
      set (w1 := after _ (after _ w)).
      match goal with
      | |- (let (_, _) := ?body in _) = _ -> _ =>
          destruct body as [o1 w3] eqn:Hb1
      end.
      assert (Hp : polled w1 w3).
      { destruct (start_reply b) as [[]|e]; cbn [answered] in Hb1.
        - unfold bind in Hb1.
          destruct (query_status b w1) as [oq wq] eqn:Hq.
          pose proof (query_status_polled _ _ _ _ Hq) as Hpq.
          destruct oq as [r|e|]; try (injection Hb1 as _ <-; exact Hpq).
          apply Windows_poll_loop_polled in Hb1.
          exact (polled_trans _ _ _ Hpq Hb1).
        - injection Hb1 as _ <-. apply polled_refl. }
      destruct Hp as (t & Ht & Ft). destruct (count_polls t Ft) as (_ & Hfr & Hal).
      rewrite vendor_run.
      assert (Hw1 : forall tl, (trace w1 ++ t) ++ tl
        = trace w ++ EvAlloc (spc * ((if high >=? n then n - 1 else high)
                                   - (if low <? 0 then 0 else low) + 1))
            :: (EvStartScan (if low <? 0 then 0 else low)
                  (if high >=? n then n - 1 else high)
                  (spc * ((if high >=? n then n - 1 else high)
                          - (if low <? 0 then 0 else low) + 1)) :: t ++ tl)).
      { intros tl. unfold w1, after. cbn [trace]. rewrite <- !app_assoc. reflexivity. }
      destruct o1 as [[]|e1|].
      + destruct (stop_reply b) as [[]|e]; cbn [answered]; intros [= _ <-];
          cbn [after trace]; rewrite Ht, Hw1; eexists; (split; [reflexivity|]);
          change (EvStartScan ?x ?y ?z :: t ++ [EvStopScan])
            with ([EvStartScan x y z] ++ t ++ [EvStopScan]);
          rewrite !count_app, Hfr, Hal; split; reflexivity.
      + destruct (stop_reply b) as [[]|e]; cbn [answered]; intros [= _ <-];
          cbn [after trace]; rewrite Ht, Hw1; eexists; (split; [reflexivity|]);
          change (EvStartScan ?x ?y ?z :: t ++ [EvStopScan])
            with ([EvStartScan x y z] ++ t ++ [EvStopScan]);
          rewrite !count_app, Hfr, Hal; split; reflexivity.
      + intros [= _ <-]. rewrite Ht. rewrite <- (app_nil_r (trace w1 ++ t)), Hw1.
        eexists; split; [reflexivity|].
        change (EvStartScan ?x ?y ?z :: t ++ [])
          with ([EvStartScan x y z] ++ t ++ []).
        rewrite !count_app, Hfr, Hal; split; reflexivity. }
    destruct Hw2 as (t & Ht & Hal & Hfr).
    destruct o0 as [[]|e0|].
    + unfold bind, read_buffer, lift.
      destruct (np_reshape np _ spc _); [|discriminate].
      rewrite vendor_run, Hf. discriminate.
    + discriminate.
    + intros [= <-]. rewrite Ht.
      change (EvAlloc ?a :: t) with ([EvAlloc a] ++ t).
      rewrite !count_app, Hal. cbn. split; [lia|]. split; discriminate.
Qed.

Lemma Windows_AInScan_error_keeps_buffer_witness :
  Windows.AInScan reshape_negative_fails refusing_backend windows_device
    20 0 1 10000 3 None world0
  = (Raise (ULError 1),
     {| trace := [EvAlloc 6; EvStartScan 0 1 6; EvStopScan]; queries := 0 |})
  /\ count is_alloc [EvAlloc 6; EvStartScan 0 1 6; EvStopScan] = 1%nat
  /\ count is_free [EvAlloc 6; EvStartScan 0 1 6; EvStopScan] = 0%nat.
Proof.
  assert (Hrun :
    Windows.AInScan reshape_negative_fails refusing_backend windows_device
      20 0 1 10000 3 None world0
    = (Raise (ULError 1),
       {| trace := [EvAlloc 6; EvStartScan 0 1 6; EvStopScan]; queries := 0 |}))
    by (vm_compute; reflexivity).
  split; [exact Hrun|].
  destruct (Windows_AInScan_error_keeps_buffer reshape_negative_fails
              refusing_backend windows_device 20%nat 0 1 10000%Q 3 None 4
              world0 _ _ eq_refl eq_refl eq_refl eq_refl Hrun)
    as (Ha & He & _).
  split; [exact Ha|]. exact (He _ eq_refl).
Defined.

(** ** A scan on a backend that does not fail *)

Lemma py_sleep_accepts (t : Q) (w : world) :
  Qle_bool 0 t = true -> sleep_in_range t = true ->
  py_sleep (VNum t) w = (Return tt, after EvSleep w).
Proof. intros H1 H2. cbn [py_sleep]. rewrite H2, H1. reflexivity. Qed.

Lemma np_reshape_buffer np (b : backend) (q : nat) (spc cc total : Z) :
  0 <= spc -> 0 <= cc -> total = spc * cc ->
  np_reshape np (List.map (cell b q) (seq 0 (Z.to_nat total))) spc cc
  = Ok (rows_of (Z.to_nat spc) (Z.to_nat cc)
          (List.map (cell b q) (seq 0 (Z.to_nat total)))).
Proof.
  intros Hs Hc ->. unfold np_reshape.
  replace (spc <? 0) with false by (symmetry; apply Z.ltb_ge; exact Hs).
  replace (cc <? 0) with false by (symmetry; apply Z.ltb_ge; exact Hc).
  cbn [orb]. rewrite length_map, length_seq.
  replace (Z.of_nat (Z.to_nat (spc * cc)) =? spc * cc) with true; [reflexivity|].
  symmetry. apply Z.eqb_eq. nia.
Qed.

Section Steady.
Variable b : backend.
Hypothesis status_answers : forall j, exists r, status_reply b j = Ok r.

Lemma Windows_poll_loop_no_raise (self : Windows.daq) (total : Z) (t : Q) :
  Windows.sleepTime self = VNum t ->
  Qle_bool 0 t = true -> sleep_in_range t = true ->
  forall (fuel : nat) status w e,
    fst (Windows.poll_loop b self total fuel status w) <> Raise e.
Proof using status_answers.
  intros Ht Hpos Hrange. induction fuel as [|fuel IH]; intros status w e;
    cbn [Windows.poll_loop]; destruct (scan_status_eqb status IDLE);
    try discriminate.
  unfold bind at 1. rewrite Ht, (py_sleep_accepts t w Hpos Hrange).
  unfold bind at 1. rewrite query_status_run. cbn [after queries].
  destruct (status_answers (queries w)) as [r ->]. cbn [answered].
  destruct (snd (fst r) >=? total); [discriminate|]. apply IH.
Qed.

End Steady.

(** On a backend whose commands succeed and whose status queries are
    all answered, with a poll interval [time.sleep] accepts, the Windows
    scan returns the buffer, as it stands when the call ends, cut into
    rows, once a status answer inside the loop is idle or reports the
    full sample count. *)
Lemma Windows_AInScan_steady_run np (b : backend) (self : Windows.daq)
    (fuel k : nat) (low high : Z) (rate : Q) (spc : Z) (scan_time : option Q)
    (n : Z) (t : Q) (w : world) :
  Windows.supports_scan self = Some true ->
  Windows.number_of_channels self = Some n ->
  alloc_reply b = Ok tt -> start_reply b = Ok tt ->
  stop_reply b = Ok tt -> free_reply b = Ok tt ->
  (forall j, exists r, status_reply b j = Ok r) ->
  Windows.sleepTime self = VNum t ->
  Qle_bool 0 t = true -> sleep_in_range t = true ->
  let channel_count :=
    (if high >=? n then n - 1 else high) - (if low <? 0 then 0 else low) + 1 in
  0 <= spc -> 0 <= channel_count ->
  windows_exit b (spc * channel_count) (S (queries w) + k) = true ->
  (k < fuel)%nat ->
  exists w',
    Windows.AInScan np b self fuel low high rate spc scan_time w
    = (Return (rows_of (Z.to_nat spc) (Z.to_nat channel_count)
                 (List.map (cell b (queries w'))
                    (seq 0 (Z.to_nat (spc * channel_count))))), w').
Proof.
  intros Hs Hn Ha Hst Hstop Hfree Hans Ht Hpos Hrange cc Hspc Hcc Hexit Hfuel.
  unfold Windows.AInScan. rewrite Hs, Hn. fold cc.
  unfold bind at 1. rewrite vendor_run, Ha. cbn [answered].
  unfold bind at 1, try_finally. unfold bind at 1. rewrite vendor_run, Hst.
  cbn [answered]. unfold bind at 1. rewrite query_status_run.
  cbn [after queries]. destruct (Hans (queries w)) as [r ->]. cbn [answered].
  match goal with
  | |- context [Windows.poll_loop b self ?tot fuel ?s0 ?w1] =>
      pose proof (Windows_poll_loop_exits b self tot k fuel s0 w1 Hexit Hfuel) as Hnp;
      pose proof (fun e => Windows_poll_loop_no_raise b Hans self tot t Ht Hpos
                             Hrange fuel s0 w1 e) as Hnr;
      destruct (Windows.poll_loop b self tot fuel s0 w1) as [o0 w2]
  end.
  cbn [fst] in Hnp, Hnr.
  destruct o0 as [[]|e|]; [|destruct (Hnr e eq_refl)|destruct (Hnp eq_refl)].
  rewrite vendor_run, Hstop. cbn [answered].
  unfold bind at 1, read_buffer. unfold bind at 1, lift.
  rewrite (np_reshape_buffer np b _ spc cc (spc * cc) Hspc Hcc eq_refl).
  unfold bind. rewrite vendor_run, Hfree. cbn [answered]. unfold ret.
  exists (after EvFree (after EvStopScan w2)). reflexivity.
Qed.

(** ** The returned matrix *)




(** * Further properties *)

(** ** Guards of the single-sample calls *)

(** X1.  [AIn] on an object without a device raises [RuntimeError]; with
    a device and a channel count, a negative channel and a channel
    greater than the count raise [ValueError]; all three leave the
    world untouched.  Every other channel causes exactly one vendor
    read, whose answer, value or exception, is the call's. *)
Theorem AIn_guards (b : backend) (channel : Z) (w : world) :
  (forall self : Linux.daq,
      (Linux.daq_device self = None ->
       Linux.AIn b self channel w
       = (Raise (RuntimeError "DAQ device is not connected"), w))
      /\ (forall dev n,
            Linux.daq_device self = Some dev ->
            Linux.number_of_channels self = Some n ->
            (channel < 0 \/ n < channel ->
             exists msg, Linux.AIn b self channel w = (Raise (ValueError msg), w))
            /\ (0 <= channel <= n ->
                Linux.AIn b self channel w
                = (answered (a_in_reply b channel), after (EvAIn channel) w))))
  /\ (forall self : Windows.daq,
      (Windows.daq_device self = None ->
       Windows.AIn b self channel w
       = (Raise (RuntimeError "DAQ device is not connected"), w))
      /\ (forall dev n,
            Windows.daq_device self = Some dev ->
            Windows.number_of_channels self = Some n ->
            (channel < 0 \/ n < channel ->
             exists msg, Windows.AIn b self channel w = (Raise (ValueError msg), w))
            /\ (0 <= channel <= n ->
                Windows.AIn b self channel w
                = (answered (a_in_reply b channel), after (EvAIn channel) w)))).
Proof.
  split; intros self; (split; [intros Hd|intros dev n Hd Hn]).
  - unfold Linux.AIn. rewrite Hd. reflexivity.
  - rewrite (Linux_AIn_cases b self dev n channel w Hd Hn). split.
    + intros Hc. eexists.
      replace ((channel >? n) || (channel <? 0)) with true; [reflexivity|].
      symmetry. apply orb_true_iff. rewrite Z.gtb_ltb, !Z.ltb_lt. lia.
    + intros Hc.
      replace ((channel >? n) || (channel <? 0)) with false; [reflexivity|].
      symmetry. apply orb_false_iff. rewrite Z.gtb_ltb, !Z.ltb_ge. lia.
  - unfold Windows.AIn. rewrite Hd. reflexivity.
  - rewrite (Windows_AIn_cases b self dev n channel w Hd Hn). split.
    + intros Hc. eexists.
      replace ((channel >? n) || (channel <? 0)) with true; [reflexivity|].
      symmetry. apply orb_true_iff. rewrite Z.gtb_ltb, !Z.ltb_lt. lia.
    + intros Hc.
      replace ((channel >? n) || (channel <? 0)) with false; [reflexivity|].
      symmetry. apply orb_false_iff. rewrite Z.gtb_ltb, !Z.ltb_ge. lia.
Qed.

Lemma AIn_guards_witness :
  Linux.AIn counting_backend linux_device (-1) world0
  = (Raise (ValueError "channel index must be 0 or positive"), world0)
  /\ Windows.AIn counting_backend windows_device 3 world0
     = (Return (5 # 2)%Q, after (EvAIn 3) world0).
Proof.
  split.
  - destruct (AIn_guards counting_backend (-1) world0) as [HL _].
    destruct (HL linux_device) as [_ H].
    destruct (H 0 4 eq_refl eq_refl) as [Hbad _].
    destruct Hbad as [msg Hmsg]; [lia|].
    reflexivity.
  - destruct (AIn_guards counting_backend 3 world0) as [_ HW].
    destruct (HW windows_device) as [_ H].
    destruct (H 0 4 eq_refl eq_refl) as [_ Hok].
    apply Hok. lia.
Defined.

(** ** Analog output *)

(** X2.  [AOut] raises [RuntimeError] without a device and [ValueError]
    for a negative channel, in both cases before any write; every
    channel that is not negative, however large, is written once with
    the configured output range, and the vendor's answer is the call's. *)
Theorem AOut_guards (reply : Z -> Q -> result unit) (data : Q) (channel : Z)
    (t : ao_world) :
  (forall self : Windows.daq,
      (Windows.daq_device self = None ->
       WindowsOther.AOut reply self data channel t
       = (Raise (RuntimeError "DAQ device is not connected"), t))
      /\ (forall dev, Windows.daq_device self = Some dev ->
            (channel < 0 ->
             WindowsOther.AOut reply self data channel t
             = (Raise (ValueError "channel index must be 0 or positive"), t))
            /\ (0 <= channel ->
                WindowsOther.AOut reply self data channel t
                = (answered (reply channel data),
                   t ++ [(channel, Windows.AoRange self, data)]))))
  /\ (forall (self : Linux.daq) (ao_device : option Z),
      (Linux.daq_device self = None ->
       LinuxOther.AOut reply self ao_device data channel t
       = (Raise (RuntimeError "DAQ device is not connected"), t))
      /\ (forall dev, Linux.daq_device self = Some dev ->
            (channel < 0 ->
             LinuxOther.AOut reply self ao_device data channel t
             = (Raise (ValueError "channel index must be 0 or positive"), t))
            /\ (forall h, ao_device = Some h -> 0 <= channel ->
                LinuxOther.AOut reply self ao_device data channel t
                = (answered (reply channel data),
                   t ++ [(channel, Linux.ao_range self, data)])))).
Proof.
  split.
  - intros self. unfold WindowsOther.AOut. split.
    + intros ->. reflexivity.
    + intros dev ->. split; intros Hc.
      * replace (channel <? 0) with true by (symmetry; apply Z.ltb_lt; lia).
        reflexivity.
      * replace (channel <? 0) with false by (symmetry; apply Z.ltb_ge; lia).
        unfold bind, emit_a_out, modify, lift. destruct (reply channel data); reflexivity.
  - intros self ao_device. unfold LinuxOther.AOut. split.
    + intros ->. reflexivity.
    + intros dev ->. split.
      * intros Hc.
        replace (channel <? 0) with true by (symmetry; apply Z.ltb_lt; lia).
        reflexivity.
      * intros h -> Hc.
        replace (channel <? 0) with false by (symmetry; apply Z.ltb_ge; lia).
        unfold bind, emit_a_out, modify, lift. destruct (reply channel data); reflexivity.
Qed.

Lemma AOut_guards_witness :
  WindowsOther.AOut a_out_accepts windows_device (3 # 2) 99 []
  = (Return tt, [(99, None, (3 # 2)%Q)])
  /\ LinuxOther.AOut a_out_accepts linux_device (Some 0) (3 # 2) (-1) []
     = (Raise (ValueError "channel index must be 0 or positive"), []).
Proof.
  destruct (AOut_guards a_out_accepts (3 # 2) 99 []) as [HW _].
  destruct (AOut_guards a_out_accepts (3 # 2) (-1) []) as [_ HL].
  split.
  - destruct (HW windows_device) as [_ H]. destruct (H 0 eq_refl) as [_ Hok].
    apply Hok. lia.
  - destruct (HL linux_device (Some 0)) as [_ H]. destruct (H 0 eq_refl) as [Hbad _].
    apply Hbad. lia.
Defined.


(** ** Failures around the scan *)

Lemma after_after_trace (e1 e2 : event) (w : world) :
  trace (after e2 (after e1 w)) = trace w ++ [e1; e2].
Proof. unfold after. cbn [trace]. rewrite <- app_assoc. reflexivity. Qed.

(** X3.  Without hardware pacing [AInScan] raises before it touches the
    hardware: no buffer is allocated and no command is issued, in both
    variants. *)
Theorem AInScan_unpaced np (b : backend) (fuel : nat) (low high : Z) (rate : Q)
    (spc : Z) (scan_time : option Q) (w : world) :
  (forall self : Linux.daq,
      Linux.has_pacer self = Some false ->
      exists msg,
        Linux.AInScan np b self fuel low high rate spc scan_time w
        = (Raise (PyException msg), w))
  /\ (forall self : Windows.daq,
      Windows.supports_scan self = Some false ->
      exists msg,
        Windows.AInScan np b self fuel low high rate spc scan_time w
        = (Raise (PyException msg), w)).
Proof.
  split; intros self H; eexists.
  - unfold Linux.AInScan. rewrite H. reflexivity.
  - unfold Windows.AInScan. rewrite H. reflexivity.
Qed.

Lemma AInScan_unpaced_witness :
  exists msg,
    Windows.AInScan reshape_negative_fails counting_backend
      {| Windows.config := None; Windows.AoRange := None; Windows.AiMode := None;
         Windows.AiRange := None; Windows.DoPort := None; Windows.DiPort := None;
         Windows.sleepTime := VNum (1 # 100); Windows.daq_device := Some 0;
         Windows.number_of_channels := Some 4;
         Windows.supports_scan := Some false; Windows.port_info := None |}
      20 0 1 10000 3 None world0
    = (Raise (PyException msg), world0).
Proof.
  destruct (AInScan_unpaced reshape_negative_fails counting_backend 20%nat 0 1
              10000%Q 3 None world0) as [_ HW].
  apply HW. reflexivity.
Defined.

(** X4.  In the Linux variant an exception that comes before the first
    status answer is lost: when the start-scan command fails, or the
    first status query does, on an object with a device, the [finally]
    block reads the unbound local [status] and the call raises
    [UnboundLocalError] instead of the backend's exception; no stop
    command is issued. *)
Theorem Linux_AInScan_masks_early_failure np (b : backend) (self : Linux.daq)
    (fuel : nat) (low high : Z) (rate : Q) (spc : Z) (scan_time : option Q)
    (n dev : Z) (w : world) (e : exn) :
  Linux.has_pacer self = Some true ->
  Linux.number_of_channels self = Some n ->
  Linux.daq_device self = Some dev ->
  alloc_reply b = Ok tt ->
  let high' := if high >=? n then n - 1 else high in
  let issued := [EvAlloc ((high' - low + 1) * spc); EvStartScan low high' spc] in
  (start_reply b = Err e ->
   Linux.AInScan np b self fuel low high rate spc scan_time w
   = (Raise (UnboundLocalError "status"),
      {| trace := trace w ++ issued; queries := queries w |}))
  /\ (start_reply b = Ok tt ->
      Qle_bool (elapsed b (queries w))
        (match scan_time with Some t => t | None => Linux.default_scan_time end)
      = true ->
      status_reply b (queries w) = Err e ->
      Linux.AInScan np b self (S fuel) low high rate spc scan_time w
      = (Raise (UnboundLocalError "status"),
         {| trace := trace w ++ issued ++ [EvStatus]; queries := S (queries w) |})).
Proof.
  intros Hp Hn Hd Ha high' issued. unfold issued.
  split.
  - intros Hs. unfold Linux.AInScan. rewrite Hp, Hn. fold high'.
    unfold bind at 1. rewrite vendor_run, Ha. cbn [answered].
    unfold bind at 1. unfold Linux.acquire, try_finally.
    unfold bind at 1. rewrite in_world_run, vendor_run, Hs. cbn [answered fst snd].
    unfold Linux.stop_if_running. rewrite Hd. unfold bind, get, raise. cbn [fst snd].
    f_equal. unfold after. cbn [trace queries]. rewrite <- app_assoc. reflexivity.
  - intros Hs Hg Hq. unfold Linux.AInScan. rewrite Hp, Hn. fold high'.
    unfold bind at 1. rewrite vendor_run, Ha. cbn [answered].
    unfold bind at 1. unfold Linux.acquire, try_finally.
    unfold bind at 1. rewrite in_world_run, vendor_run, Hs. cbn [answered fst snd].
    cbn [Linux.poll_loop]. unfold bind at 1, get. cbv beta iota. cbn [fst after queries].
    rewrite Hg. unfold bind at 1. rewrite in_world_run, query_status_run.
    cbn [fst snd after queries]. rewrite Hq. cbn [answered].
    unfold Linux.stop_if_running. rewrite Hd. unfold bind, get, raise. cbn [fst snd].
    rewrite after_after_trace, <- app_assoc. reflexivity.
Qed.

Lemma Linux_AInScan_masks_early_failure_witness :
  Linux.AInScan reshape_negative_fails refusing_backend linux_device
    20 0 1 10000 3 None world0
  = (Raise (UnboundLocalError "status"),
     {| trace := [EvAlloc 6; EvStartScan 0 1 3]; queries := 0 |}).
Proof.
  destruct (Linux_AInScan_masks_early_failure reshape_negative_fails
              refusing_backend linux_device 20%nat 0 1 10000%Q 3 None 4 0 world0
              (ULError 1) eq_refl eq_refl eq_refl eq_refl) as [H _].
  exact (H eq_refl).
Defined.

(** X5.  In the Linux variant a timeout that has already passed at the
    first test of the loop guard (a negative [scan_time], say) ends the
    scan before any status query; on an object with a device the call
    then raises [UnboundLocalError] for [status] instead of returning
    data, and the scan it started is not stopped. *)
Theorem Linux_AInScan_timeout_before_first_query np (b : backend)
    (self : Linux.daq) (fuel : nat) (low high : Z) (rate : Q) (spc : Z)
    (scan_time : option Q) (n dev : Z) (w : world) :
  Linux.has_pacer self = Some true ->
  Linux.number_of_channels self = Some n ->
  Linux.daq_device self = Some dev ->
  alloc_reply b = Ok tt ->
  start_reply b = Ok tt ->
  Qle_bool (elapsed b (queries w))
    (match scan_time with Some t => t | None => Linux.default_scan_time end)
  = false ->
  let high' := if high >=? n then n - 1 else high in
  Linux.AInScan np b self (S fuel) low high rate spc scan_time w
  = (Raise (UnboundLocalError "status"),
     {| trace := trace w ++ [EvAlloc ((high' - low + 1) * spc);
                             EvStartScan low high' spc];
        queries := queries w |}).
Proof.
  intros Hp Hn Hd Ha Hs Hg high'. unfold Linux.AInScan. rewrite Hp, Hn. fold high'.
  unfold bind at 1. rewrite vendor_run, Ha. cbn [answered].
  unfold bind at 1. unfold Linux.acquire, try_finally.
  unfold bind at 1. rewrite in_world_run, vendor_run, Hs. cbn [answered fst snd].
  rewrite Linux_poll_loop_timeout by exact Hg.
  unfold Linux.stop_if_running. rewrite Hd. unfold bind, get, raise. cbn [fst snd].
  f_equal. unfold after. cbn [trace queries]. rewrite <- app_assoc. reflexivity.
Qed.

Lemma Linux_AInScan_timeout_before_first_query_witness :
  Linux.AInScan reshape_negative_fails counting_backend linux_device
    20 0 1 10000 3 (Some (-1)%Q) world0
  = (Raise (UnboundLocalError "status"),
     {| trace := [EvAlloc 6; EvStartScan 0 1 3]; queries := 0 |}).
Proof.
  exact (Linux_AInScan_timeout_before_first_query reshape_negative_fails
           counting_backend linux_device 19%nat 0 1 10000%Q 3 (Some (-1)%Q) 4 0
           world0 eq_refl eq_refl eq_refl eq_refl eq_refl eq_refl).
Defined.

(** X6.  In the Windows variant a failed start-scan command is followed
    by the stop command and nothing else; the call raises the start
    command's exception, unless the stop command fails too, whose
    exception then replaces it. *)
Theorem Windows_AInScan_start_failure np (b : backend) (self : Windows.daq)
    (fuel : nat) (low high : Z) (rate : Q) (spc : Z) (scan_time : option Q)
    (n : Z) (w : world) (e : exn) :
  Windows.supports_scan self = Some true ->
  Windows.number_of_channels self = Some n ->
  alloc_reply b = Ok tt ->
  start_reply b = Err e ->
  let high' := if high >=? n then n - 1 else high in
  let low' := if low <? 0 then 0 else low in
  let total := spc * (high' - low' + 1) in
  Windows.AInScan np b self fuel low high rate spc scan_time w
  = (Raise (match stop_reply b with Ok _ => e | Err e' => e' end),
     {| trace := trace w ++ [EvAlloc total; EvStartScan low' high' total; EvStopScan];
        queries := queries w |}).
Proof.
  intros Hs Hn Ha Hst high' low' total. unfold Windows.AInScan. rewrite Hs, Hn.
  fold high' low' total.
  unfold bind at 1. rewrite vendor_run, Ha. cbn [answered].
  unfold bind at 1, try_finally. unfold bind at 1. rewrite vendor_run, Hst.
  cbn [answered]. rewrite vendor_run.
  assert (Hw : after EvStopScan
                 (after (EvStartScan low' high' total) (after (EvAlloc total) w))
               = {| trace := trace w ++ [EvAlloc total; EvStartScan low' high' total;
                                         EvStopScan];
                    queries := queries w |}).
  { unfold after. cbn [trace queries]. rewrite <- !app_assoc. reflexivity. }
  rewrite Hw. destruct (stop_reply b) as [[]|e']; reflexivity.
Qed.

Lemma Windows_AInScan_start_failure_witness :
  Windows.AInScan reshape_negative_fails refusing_backend windows_device
    20 0 1 10000 3 None world0
  = (Raise (ULError 1),
     {| trace := [EvAlloc 6; EvStartScan 0 1 6; EvStopScan]; queries := 0 |}).
Proof.
  exact (Windows_AInScan_start_failure reshape_negative_fails refusing_backend
           windows_device 20%nat 0 1 10000%Q 3 None 4 world0 (ULError 1)
           eq_refl eq_refl eq_refl eq_refl).
Defined.


(** ** Mode and port lookups *)

Lemma upper_ascii_idempotent (c : ascii) : upper_ascii (upper_ascii c) = upper_ascii c.
Proof. destruct c as [[] [] [] [] [] [] [] []]; reflexivity. Qed.

Lemma upper_idempotent (s : string) : upper (upper s) = upper s.
Proof.
  induction s as [|c s IH]; [reflexivity|].
  cbn [upper]. rewrite upper_ascii_idempotent, IH. reflexivity.
Qed.

Lemma enum_getitem_in {A} (members : list (string * A)) (key : string) (v : A) :
  enum_getitem members key = Ok v -> In (key, v) members.
Proof.
  unfold enum_getitem. destruct (List.find _ members) as [[k x]|] eqn:Hf; [|discriminate].
  intros [= <-]. apply find_some in Hf as [Hin Hk]. cbn [fst snd] in *.
  apply String.eqb_eq in Hk. subst k. exact Hin.
Qed.

Lemma enum_getitem_unique {A} (members : list (string * A)) (key : string) (v : A) :
  List.NoDup (List.map fst members) -> In (key, v) members ->
  enum_getitem members key = Ok v.
Proof.
  unfold enum_getitem. induction members as [|[k x] rest IH]; [intros _ []|].
  cbn [List.map fst]. intros Hnd Hin. inversion Hnd as [|? ? Hnotin Hnd']; subst.
  cbn [List.find fst]. destruct (String.eqb k key) eqn:Hk.
  - apply String.eqb_eq in Hk. subst k. destruct Hin as [[= ->]|Hin]; [reflexivity|].
    exfalso. apply Hnotin. apply (in_map fst) in Hin. exact Hin.
  - destruct Hin as [[= -> _]|Hin]; [rewrite String.eqb_refl in Hk; discriminate|].
    exact (IH Hnd' Hin).
Qed.

Lemma enum_getitem_missing {A} (members : list (string * A)) (key : string) :
  (forall v, ~ In (key, v) members) ->
  enum_getitem members key = Err (KeyError key).
Proof.
  intros H. unfold enum_getitem.
  destruct (List.find _ members) as [[k x]|] eqn:Hf; [|reflexivity].
  apply find_some in Hf as [Hin Hk]. cbn [fst] in Hk.
  apply String.eqb_eq in Hk. subst k. destruct (H x Hin).
Qed.

(** X7.  The mode and port lookups of both variants are one function of
    the member table.  On an ASCII string they look up its upper-cased form,
    so the case of the request does not matter; the answer is a member
    with that name, the member when names are unique, and [KeyError]
    with the upper-cased name when there is none; anything but a string
    raises [AttributeError]. *)
Theorem mode_and_port_lookup (members : list (string * Z)) (s : string) :
  is_ascii s = true ->
  (Linux.look_up_dio_port members = Linux.look_up_mode members
   /\ Windows.lookUpMode members = Linux.look_up_mode members
   /\ Windows.lookUpDioPort members = Linux.look_up_mode members)
  /\ Linux.look_up_mode members (VStr (upper s)) = Linux.look_up_mode members (VStr s)
  /\ (forall v, Linux.look_up_mode members (VStr s) = Ok v -> In (upper s, v) members)
  /\ (forall v, List.NoDup (List.map fst members) -> In (upper s, v) members ->
                Linux.look_up_mode members (VStr s) = Ok v)
  /\ ((forall v, ~ In (upper s, v) members) ->
      Linux.look_up_mode members (VStr s) = Err (KeyError (upper s)))
  /\ (forall q, Linux.look_up_mode members (VNum q) = Err (AttributeError "upper"))
  /\ Linux.look_up_mode members VNone = Err (AttributeError "upper").
Proof.
  intros _.
  unfold Linux.look_up_dio_port, Windows.lookUpMode, Windows.lookUpDioPort,
    Linux.look_up_mode, enum_by_upper_name. cbn [py_upper].
  split; [repeat split|]. split; [rewrite upper_idempotent; reflexivity|].
  split; [intros v; apply enum_getitem_in|].
  split; [intros v; apply enum_getitem_unique|].
  split; [apply enum_getitem_missing|]. split; reflexivity.
Qed.

Lemma mode_and_port_lookup_witness :
  is_ascii "Single_Ended" = true
  /\ is_ascii "bogus" = true
  /\ Linux.look_up_mode AnalogInputMode_sample (VStr "Single_Ended") = Ok 2
  /\ Linux.look_up_mode AnalogInputMode_sample (VStr "bogus")
     = Err (KeyError "BOGUS").
Proof.
  destruct (mode_and_port_lookup AnalogInputMode_sample "Single_Ended" eq_refl)
    as (_ & _ & _ & Hu & _).
  destruct (mode_and_port_lookup AnalogInputMode_sample "bogus" eq_refl)
    as (_ & _ & _ & _ & Hm & _).
  split; [reflexivity|]. split; [reflexivity|]. split.
  - apply Hu.
    + repeat constructor; cbn; intuition discriminate.
    + cbn. tauto.
  - apply Hm. intros v. cbn. intuition discriminate.
Defined.


(** ** What applying a configuration leaves behind *)

Section ApplyFacts.
Variable ULRange : list ulrange.
Variable AnalogInputMode : list (string * Z).
Variable DigitalPortType : list (string * Z).



End ApplyFacts.


(** ** Merging and reading a configuration *)

Section MergeFacts.
Variable ULRange : list ulrange.
Variable AnalogInputMode : list (string * Z).
Variable DigitalPortType : list (string * Z).
Variable merge : option cfgobj -> cfgobj -> result cfgobj.

Lemma Linux_apply_config_frame (s s' : Linux.daq) (o : outcome unit) :
  Linux._apply_config ULRange AnalogInputMode DigitalPortType s = (o, s') ->
  Linux.config s' = Linux.config s
  /\ Linux.daq_device s' = Linux.daq_device s
  /\ Linux.number_of_channels s' = Linux.number_of_channels s
  /\ Linux.has_pacer s' = Linux.has_pacer s.
Proof.
  unfold Linux._apply_config, Linux.apply_lookups, Linux.apply_sleep_time,
    bind, get, lift, modify. cbv beta iota.
  repeat match goal with
  | |- context [match ?r with Ok _ => _ | Err _ => _ end] =>
      destruct r; cbv beta iota
  end; intros [= _ <-]; repeat split.
Qed.

Lemma Windows_applyConfig_frame (s s' : Windows.daq) (o : outcome unit) :
  Windows._applyConfig ULRange AnalogInputMode DigitalPortType s = (o, s') ->
  Windows.config s' = Windows.config s
  /\ Windows.daq_device s' = Windows.daq_device s
  /\ Windows.number_of_channels s' = Windows.number_of_channels s
  /\ Windows.supports_scan s' = Windows.supports_scan s
  /\ Windows.port_info s' = Windows.port_info s.
Proof.
  unfold Windows._applyConfig, Windows.except_KeyError_reraise,
    bind, get, lift, modify. cbv beta iota.
  repeat match goal with
  | |- context [match ?r with Ok _ => _ | Err _ => _ end] =>
      destruct r; cbv beta iota
  | |- context [match ?e with KeyError _ => _ | _ => _ end] =>
      destruct e; cbv beta iota
  end; intros [= _ <-]; repeat split.
Qed.

(** X9.  [set_config] / [setConfig] stores the merged configuration
    before it applies it: when the merge fails the object is unchanged
    and the merge's exception is raised; when the merge succeeds the
    object holds the merged configuration afterwards whether or not
    applying it raised, and its device and channel count are as
    before. *)
Theorem set_config_stores_merge (new : cfgobj) :
  (forall s : Linux.daq,
      (forall e, merge (Linux.config s) new = Err e ->
         Linux.set_config ULRange AnalogInputMode DigitalPortType merge new s
         = (Raise e, s))
      /\ (forall merged, merge (Linux.config s) new = Ok merged ->
            let s' := snd (Linux.set_config ULRange AnalogInputMode
                             DigitalPortType merge new s) in
            Linux.config s' = Some merged
            /\ Linux.daq_device s' = Linux.daq_device s
            /\ Linux.number_of_channels s' = Linux.number_of_channels s))
  /\ (forall s : Windows.daq,
      (forall e, merge (Windows.config s) new = Err e ->
         Windows.setConfig ULRange AnalogInputMode DigitalPortType merge new s
         = (Raise e, s))
      /\ (forall merged, merge (Windows.config s) new = Ok merged ->
            let s' := snd (Windows.setConfig ULRange AnalogInputMode
                             DigitalPortType merge new s) in
            Windows.config s' = Some merged
            /\ Windows.daq_device s' = Windows.daq_device s
            /\ Windows.number_of_channels s' = Windows.number_of_channels s)).
Proof.
  split; intros s; split.
  - intros e He. unfold Linux.set_config, bind, get, lift. cbv beta iota.
    rewrite He. reflexivity.
  - intros merged Hm s'. subst s'.
    unfold Linux.set_config, bind, get, lift, modify. cbv beta iota. rewrite Hm.
    destruct (Linux._apply_config _ _ _ _) as [o s1] eqn:Ha.
    destruct (Linux_apply_config_frame _ _ _ Ha) as (Hc & Hd & Hn & _).
    cbn [snd]. rewrite Hc, Hd, Hn. repeat split.
  - intros e He. unfold Windows.setConfig, bind, get, lift. cbv beta iota.
    rewrite He. reflexivity.
  - intros merged Hm s'. subst s'.
    unfold Windows.setConfig, bind, get, lift, modify. cbv beta iota. rewrite Hm.
    destruct (Windows._applyConfig _ _ _ _) as [o s1] eqn:Ha.
    destruct (Windows_applyConfig_frame _ _ _ Ha) as (Hc & Hd & Hn & _).
    cbn [snd]. rewrite Hc, Hd, Hn. repeat split.
Qed.

(** X10.  [read_config] of the Linux variant records the file name in
    [configfile] and treats a file that cannot be opened as no file: an
    [OSError] from loading it, or from the merge, is swallowed, the call
    returns and the object's configuration is what it was; every other
    exception of the load is raised to the caller.  In each case nothing
    but [configfile] has changed. *)
Theorem Linux_read_config_missing_file (load : string -> result cfgobj)
    (filename : string) (s : Linux.daq) :
  (forall msg, load filename = Err (OSError msg) ->
     Linux.read_config ULRange AnalogInputMode DigitalPortType merge load filename s
     = (Return tt, Linux.with_configfile (Some filename) s))
  /\ (forall new msg, load filename = Ok new ->
        merge (Linux.config s) new = Err (OSError msg) ->
        Linux.read_config ULRange AnalogInputMode DigitalPortType merge load filename s
        = (Return tt, Linux.with_configfile (Some filename) s))
  /\ (forall e, load filename = Err e ->
        (forall msg, e <> OSError msg) ->
        Linux.read_config ULRange AnalogInputMode DigitalPortType merge load filename s
        = (Raise e, Linux.with_configfile (Some filename) s)).
Proof.
  split; [|split]; intros;
    unfold Linux.read_config; unfold bind at 1, modify at 1; cbv beta iota;
    unfold Linux.except_OSError; unfold bind at 1, lift at 1;
    match goal with H : load filename = _ |- _ => rewrite H end.
  - reflexivity.
  - unfold Linux.set_config, bind, get, lift. cbv beta iota.
    cbn [Linux.config Linux.with_configfile].
    match goal with H : merge _ _ = _ |- _ => rewrite H end. reflexivity.
  - match goal with H : forall msg, _ <> _ |- _ => rename H into Hne end.
    destruct e; try reflexivity. destruct (Hne msg eq_refl).
Qed.

End MergeFacts.

Lemma set_config_stores_merge_witness :
  Windows.config
    (snd (Windows.setConfig ULRange_sample AnalogInputMode_sample
            DigitalPortType_sample merge_overlay no_mode_config windows_device))
  = Some no_mode_config
  /\ fst (Windows.setConfig ULRange_sample AnalogInputMode_sample
            DigitalPortType_sample merge_overlay no_mode_config windows_device)
     = Raise (KeyError "ADCmode").
Proof.
  destruct (set_config_stores_merge ULRange_sample AnalogInputMode_sample
              DigitalPortType_sample merge_overlay no_mode_config) as [_ HW].
  destruct (HW windows_device) as [_ H].
  destruct (H no_mode_config eq_refl) as [Hc _].
  split; [exact Hc|vm_compute; reflexivity].
Defined.

Lemma Linux_read_config_missing_file_witness :
  Linux.read_config ULRange_sample AnalogInputMode_sample DigitalPortType_sample
    merge_overlay (fun _ => Err (OSError "no such file")) "daq.hjson" linux_device
  = (Return tt, Linux.with_configfile (Some "daq.hjson"%string) linux_device).
Proof.
  destruct (Linux_read_config_missing_file ULRange_sample AnalogInputMode_sample
              DigitalPortType_sample merge_overlay
              (fun _ => Err (OSError "no such file")) "daq.hjson" linux_device)
    as [H _].
  exact (H "no such file"%string eq_refl).
Defined.


(** ** Digital output *)

(** X11.  In the Windows variant [DOut] without a device raises
    [RuntimeError] before any command.  With a device, FIRSTPORTA and
    AUXPORT use the first entry of the port information and FIRSTPORTB
    the second; a missing entry raises [IndexError] before any command;
    otherwise the port is configured as output and then the bit is
    written, and a failed configuration leaves the bit unwritten. *)
Theorem Windows_DOut_mapped_port (FIRSTPORTA FIRSTPORTB AUXPORT : Z)
    (b : backend) (self : Windows.daq) (data channel : Z) (port : option Z)
    (w : world) :
  (Windows.daq_device self = None ->
   Windows.DOut FIRSTPORTA FIRSTPORTB AUXPORT b self data channel port w
   = (Raise (RuntimeError "DAQ device is not connected"), w))
  /\ (forall dev infos p,
        Windows.daq_device self = Some dev ->
        Windows.port_info self = Some infos ->
        match port with None => Windows.DoPort self | Some q => Some q end = Some p ->
        p = FIRSTPORTA \/ p = FIRSTPORTB \/ p = AUXPORT ->
        let index := if p =? FIRSTPORTA then 0%nat
                     else if p =? FIRSTPORTB then 1%nat else 0%nat in
        Windows.DOut FIRSTPORTA FIRSTPORTB AUXPORT b self data channel port w
        = match nth_error infos index with
          | None => (Raise (IndexError "list index out of range"), w)
          | Some ty =>
              match config_port_reply b with
              | Err e => (Raise e, after (EvConfigPort ty) w)
              | Ok _ =>
                  (answered (bit_out_reply b),
                   after (EvBitOut ty channel data) (after (EvConfigPort ty) w))
              end
          end).
Proof.
  split.
  - intros H. unfold Windows.DOut. rewrite H. reflexivity.
  - intros dev infos p Hd Hi Hp Hmem index. unfold Windows.DOut.
    rewrite Hd, Hi, Hp. unfold Windows.port_index, Windows.port_is. subst index.
    assert (Hidx :
      (if p =? FIRSTPORTA then Some 0%nat
       else if p =? FIRSTPORTB then Some 1%nat
       else if p =? AUXPORT then Some 0%nat else None)
      = Some (if p =? FIRSTPORTA then 0%nat
              else if p =? FIRSTPORTB then 1%nat else 0%nat)).
    { destruct (p =? FIRSTPORTA) eqn:Ea; [reflexivity|].
      destruct (p =? FIRSTPORTB) eqn:Eb; [reflexivity|].
      destruct (p =? AUXPORT) eqn:Ex; [reflexivity|].
      apply Z.eqb_neq in Ea, Eb, Ex. lia. }
    rewrite Hidx.
    destruct (nth_error infos _) as [ty|]; [|reflexivity].
    unfold bind. rewrite !vendor_run.
    destruct (config_port_reply b) as [[]|e]; reflexivity.
Qed.

Lemma Windows_DOut_mapped_port_witness :
  Windows.DOut 10 11 1 counting_backend windows_device 1 3 (Some 11) world0
  = (Return tt, after (EvBitOut 11 3 1) (after (EvConfigPort 11) world0)).
Proof.
  destruct (Windows_DOut_mapped_port 10 11 1 counting_backend windows_device
              1 3 (Some 11) world0) as [_ H].
  apply (H 0 [10; 11] 11 eq_refl eq_refl eq_refl). lia.
Defined.

(** X12.  [DOut] of the Linux variant looks neither at [daq_device] nor
    at the channel: whenever the digital device attribute is there, and
    so also on an object that has been disconnected, it configures the
    port (FIRSTPORTA unless one is given) as output and then writes the
    bit, for any channel; a failed configuration leaves the bit
    unwritten. *)
Theorem Linux_DOut_unguarded (FIRSTPORTA : Z) (b : backend) (dio : Z)
    (data channel : Z) (port : option Z) (w : world) :
  let p := match port with Some p => p | None => FIRSTPORTA end in
  LinuxOther.DOut FIRSTPORTA b (Some dio) data channel port w
  = match config_port_reply b with
    | Err e => (Raise e, after (EvConfigPort p) w)
    | Ok _ =>
        (answered (bit_out_reply b),
         after (EvBitOut p channel data) (after (EvConfigPort p) w))
    end.
Proof.
  intros p. unfold LinuxOther.DOut. fold p. unfold bind. rewrite !vendor_run.
  destruct (config_port_reply b) as [[]|e]; reflexivity.
Qed.

(** ** The matrix and the buffer *)

Lemma rows_of_concat {A} (cols n : nat) :
  forall l : list A, length l = (n * cols)%nat -> concat (rows_of n cols l) = l.
Proof.
  induction n as [|n IH]; intros l Hl; cbn [rows_of concat].
  - destruct l; [reflexivity|discriminate].
  - rewrite IH by (rewrite List.length_skipn; lia). apply firstn_skipn.
Qed.

(** X13.  The matrix a completed Windows scan returns holds the
    buffer's samples, all of them and in buffer order: its rows laid end
    to end are the raw buffer.  On a backend whose commands succeed and
    whose status queries are all answered, with a poll interval
    [time.sleep] accepts, the call does return such a matrix once a
    status answer inside the loop is idle or reports the full sample
    count. *)
Theorem Windows_AInScan_matrix_flattens_to_buffer np (b : backend)
    (self : Windows.daq) (fuel : nat) (low high : Z) (rate : Q) (spc : Z)
    (scan_time : option Q) (n : Z) (w : world) :
  Windows.number_of_channels self = Some n ->
  let channel_count :=
    (if high >=? n then n - 1 else high) - (if low <? 0 then 0 else low) + 1 in
  0 <= spc -> 0 <= channel_count ->
  let flat (d : list (list Q)) (w' : world) :=
    concat d = List.map (cell b (queries w'))
                 (seq 0 (Z.to_nat (spc * channel_count))) in
  (forall d w',
      Windows.AInScan np b self fuel low high rate spc scan_time w = (Return d, w') ->
      flat d w')
  /\ (forall (k : nat) (t : Q),
        Windows.supports_scan self = Some true ->
        alloc_reply b = Ok tt -> start_reply b = Ok tt ->
        stop_reply b = Ok tt -> free_reply b = Ok tt ->
        (forall j, exists r, status_reply b j = Ok r) ->
        Windows.sleepTime self = VNum t ->
        Qle_bool 0 t = true -> sleep_in_range t = true ->
        windows_exit b (spc * channel_count) (S (queries w) + k) = true ->
        (k < fuel)%nat ->
        exists d w',
          Windows.AInScan np b self fuel low high rate spc scan_time w
          = (Return d, w')
          /\ flat d w').
Proof.
  intros Hn cc Hspc Hcc flat.
  assert (Hall : forall d w',
    Windows.AInScan np b self fuel low high rate spc scan_time w = (Return d, w') ->
    flat d w').
  { intros d w' Hrun.
    pose proof (Windows_AInScan_returns np b self fuel low high rate spc
                  scan_time n w w' d Hn Hrun) as Hre.
    fold cc in Hre. revert Hre. unfold flat, np_reshape.
    replace (spc <? 0) with false by (symmetry; apply Z.ltb_ge; exact Hspc).
    replace (cc <? 0) with false by (symmetry; apply Z.ltb_ge; exact Hcc).
    cbn [orb].
    destruct (Z.of_nat (length _) =? spc * cc) eqn:Hlen; [|discriminate].
    intros [= <-]. apply Z.eqb_eq in Hlen. apply rows_of_concat. nia. }
  split; [exact Hall|].
  intros k t Hs Ha Hst Hstop Hfree Hans Ht Hpos Hrange Hexit Hfuel.
  destruct (Windows_AInScan_steady_run np b self fuel k low high rate spc
              scan_time n t w Hs Hn Ha Hst Hstop Hfree Hans Ht Hpos Hrange
              Hspc Hcc Hexit Hfuel) as (w' & Hrun).
  eexists _, w'. split; [exact Hrun|]. exact (Hall _ _ Hrun).
Qed.

Lemma Windows_AInScan_matrix_flattens_to_buffer_witness :
  exists d w',
    Windows.AInScan reshape_negative_fails counting_backend windows_device
      20 0 1 10000 3 None world0 = (Return d, w')
    /\ concat d = List.map (cell counting_backend (queries w')) (seq 0 6).
Proof.
  destruct (Windows_AInScan_matrix_flattens_to_buffer reshape_negative_fails
              counting_backend windows_device 20%nat 0 1 10000%Q 3 None 4 world0
              eq_refl ltac:(lia) ltac:(vm_compute; discriminate)) as [_ Hlive].
  destruct (Hlive 5%nat (1 # 100)%Q) as (d & w' & Hrun & Hflat);
    try reflexivity; try lia.
  - intros j. eexists. reflexivity.
  - exists d, w'. split; [exact Hrun|exact Hflat].
Defined.

(** ** The channel range a scan runs with *)

(** X14.  On a device with at least one channel, for a request with
    [low <= high], [0 <= high] and [low] below the channel count, the
    Windows variant starts the scan
    on a range within the device, [0 <= low' <= high' <= count - 1],
    with between one and [count] channels, and sizes the buffer for
    exactly that many; the Linux variant does the same when [low] is
    not negative. *)
Theorem AInScan_range_within_device np (b : backend) (fuel : nat)
    (low high : Z) (rate : Q) (spc : Z) (scan_time : option Q) (n : Z)
    (w : world) :
  1 <= n -> low <= high -> 0 <= high -> low < n ->
  alloc_reply b = Ok tt ->
  (forall self : Windows.daq,
      Windows.supports_scan self = Some true ->
      Windows.number_of_channels self = Some n ->
      let run := Windows.AInScan np b self fuel low high rate spc scan_time w in
      fst run <> Polling ->
      exists low' high' rest,
        trace (snd run)
        = trace w ++ EvAlloc (spc * (high' - low' + 1))
            :: EvStartScan low' high' (spc * (high' - low' + 1)) :: rest
        /\ 0 <= low' <= high' /\ high' <= n - 1
        /\ 1 <= high' - low' + 1 <= n)
  /\ (0 <= low ->
      forall self : Linux.daq,
        Linux.has_pacer self = Some true ->
        Linux.number_of_channels self = Some n ->
        let run := Linux.AInScan np b self fuel low high rate spc scan_time w in
        fst run <> Polling ->
        exists high' rest,
          trace (snd run)
          = trace w ++ EvAlloc ((high' - low + 1) * spc)
              :: EvStartScan low high' spc :: rest
          /\ low <= high' /\ high' <= n - 1
          /\ 1 <= high' - low + 1 <= n).
Proof.
  intros Hn1 Hlh Hh Hln Ha. split.
  - intros self Hs Hn run Ho.
    destruct (Windows_AInScan_clamps np b self fuel low high rate spc scan_time
                n w Hs Hn Ha Ho) as [rest Hrest].
    eexists _, _, rest. split; [exact Hrest|].
    rewrite Z.geb_leb.
    destruct (Z.leb_spec n high); destruct (Z.ltb_spec low 0); lia.
  - intros Hl self Hp Hn run Ho.
    destruct (Linux_AInScan_trace np b self fuel low high rate spc scan_time
                n w (snd run) (fst run) Hp Hn Ha (surjective_pairing run) Ho)
      as (t & tail & Htr & _).
    eexists _, _. split; [exact Htr|].
    rewrite Z.geb_leb. destruct (Z.leb_spec n high); lia.
Qed.

Lemma AInScan_range_within_device_witness :
  exists low' high' rest,
    trace (snd (Windows.AInScan reshape_negative_fails counting_backend
                  windows_device 30 (-2) 99 10000 3 None world0))
    = trace world0 ++ EvAlloc (3 * (high' - low' + 1))
        :: EvStartScan low' high' (3 * (high' - low' + 1)) :: rest
    /\ 0 <= low' <= high' /\ high' <= 4 - 1 /\ 1 <= high' - low' + 1 <= 4.
Proof.
  destruct (AInScan_range_within_device reshape_negative_fails counting_backend
              30%nat (-2) 99 10000%Q 3 None 4 world0) as [HW _];
    [lia|lia|lia|lia|reflexivity|].
  apply (HW windows_device eq_refl eq_refl). vm_compute. discriminate.
Defined.


(** ** The poll interval *)

Lemma py_sleep_rejects (t : pyval) :
  (forall q, t = VNum q -> Qle_bool 0 q = false) ->
  exists e, forall w, py_sleep t w = (Raise e, w).
Proof.
  intros H. destruct t as [|q|s]; cbn [py_sleep].
  - eexists; reflexivity.
  - rewrite (H q eq_refl). destruct (sleep_in_range q); eexists; reflexivity.
  - eexists; reflexivity.
Qed.

(** X15.  The poll interval is first used inside the scan.  In the
    Windows variant, when it is not a non-negative number and the device
    is RUNNING at the first status query, the first sleep of the loop
    raises; the stop command is issued, the buffer is not freed, and the
    call raises the sleep's exception, or the stop command's if that
    fails too. *)
Theorem Windows_AInScan_bad_poll_interval np (b : backend) (self : Windows.daq)
    (fuel : nat) (low high : Z) (rate : Q) (spc : Z) (scan_time : option Q)
    (n c i : Z) (w : world) :
  Windows.supports_scan self = Some true ->
  Windows.number_of_channels self = Some n ->
  alloc_reply b = Ok tt ->
  start_reply b = Ok tt ->
  status_reply b (queries w) = Ok (RUNNING, c, i) ->
  (forall q, Windows.sleepTime self = VNum q -> Qle_bool 0 q = false) ->
  let high' := if high >=? n then n - 1 else high in
  let low' := if low <? 0 then 0 else low in
  let total := spc * (high' - low' + 1) in
  exists e,
    (forall w0, py_sleep (Windows.sleepTime self) w0 = (Raise e, w0))
    /\ Windows.AInScan np b self (S fuel) low high rate spc scan_time w
       = (Raise (match stop_reply b with Ok _ => e | Err e' => e' end),
          {| trace := trace w ++ [EvAlloc total; EvStartScan low' high' total;
                                  EvStatus; EvStopScan];
             queries := S (queries w) |}).
Proof.
  intros Hs Hn Ha Hst Hq Hbad high' low' total.
  destruct (py_sleep_rejects _ Hbad) as [e He]. exists e. split; [exact He|].
  unfold Windows.AInScan. rewrite Hs, Hn. fold high' low' total.
  unfold bind at 1. rewrite vendor_run, Ha. cbn [answered].
  unfold bind at 1, try_finally. unfold bind at 1. rewrite vendor_run, Hst.
  cbn [answered]. unfold bind at 1. rewrite query_status_run.
  cbn [after queries]. rewrite Hq. cbn [answered fst snd].
  cbn [Windows.poll_loop scan_status_eqb]. unfold bind at 1. rewrite He.
  rewrite vendor_run.
  assert (Hw :
    after EvStopScan
      {| trace := trace (after (EvStartScan low' high' total)
                           (after (EvAlloc total) w)) ++ [EvStatus];
         queries := S (queries w) |}
    = {| trace := trace w ++ [EvAlloc total; EvStartScan low' high' total;
                              EvStatus; EvStopScan];
         queries := S (queries w) |}).
  { unfold after. cbn [trace queries]. rewrite <- !app_assoc. reflexivity. }
  rewrite Hw. destruct (stop_reply b) as [[]|e']; reflexivity.
Qed.

Lemma Windows_AInScan_bad_poll_interval_witness :
  exists e,
    Windows.AInScan reshape_negative_fails counting_backend
      (Windows.with_sleepTime (VStr "fast") windows_device)
      20 0 1 10000 3 None world0
    = (Raise e,
       {| trace := [EvAlloc 6; EvStartScan 0 1 6; EvStatus; EvStopScan];
          queries := 1 |}).
Proof.
  destruct (Windows_AInScan_bad_poll_interval reshape_negative_fails
              counting_backend (Windows.with_sleepTime (VStr "fast") windows_device)
              19%nat 0 1 10000%Q 3 None 4 0 0 world0
              eq_refl eq_refl eq_refl eq_refl eq_refl) as (e & _ & H).
  - intros q [=].
  - exists e. exact H.
Defined.

(** ** Choosing a range by index *)

Lemma py_list_getitem_nth {A} (l : list A) (r : nat) (x : A) :
  nth_error l r = Some x -> py_list_getitem l (Z.of_nat r) = Ok x.
Proof.
  intros H. unfold py_list_getitem.
  assert (Hlt : (r < length l)%nat) by (apply nth_error_Some; congruence).
  assert (E1 : (Z.of_nat r <? 0) = false) by (apply Z.ltb_ge; lia).
  assert (E2 : (Z.of_nat (length l) <=? Z.of_nat r) = false)
    by (apply Z.leb_gt; lia).
  cbv zeta. rewrite E1. cbv iota. rewrite E1, E2.
  cbn [orb]. rewrite Nat2Z.id, H. reflexivity.
Qed.

Lemma list_index_nth (l : list ulrange) :
  List.NoDup (List.map range_value l) ->
  forall (r : nat) (x : ulrange),
    nth_error l r = Some x -> WindowsOther.list_index l (Some x) = Some r.
Proof.
  induction l as [|m rest IH]; intros Hnd r x Hr; [destruct r; discriminate|].
  cbn [List.map] in Hnd. inversion Hnd as [|? ? Hnotin Hnd']; subst.
  cbn [WindowsOther.list_index WindowsOther.range_eqb].
  destruct r as [|r]; cbn [nth_error] in Hr.
  - injection Hr as ->. rewrite Z.eqb_refl. reflexivity.
  - destruct (range_value m =? range_value x) eqn:E.
    + exfalso. apply Hnotin. apply Z.eqb_eq in E. rewrite E.
      apply in_map. exact (nth_error_In _ _ Hr).
    + rewrite (IH Hnd' r x Hr). reflexivity.
Qed.

(** X16.  In the Windows variant, with the list of available ranges at
    hand and its members distinct, [setAiRangeIndex r] for
    [0 <= r < len] makes the [r]-th range the current one, and
    [getAiRangeIndex] then gives [r] back; an index [r >= len] raises
    [ValueError] and leaves the object as it was. *)
Theorem Windows_range_index_round_trip (ranges : list ulrange) (s : Windows.daq) :
  List.NoDup (List.map range_value ranges) ->
  (forall (r : nat) (x : ulrange),
      nth_error ranges r = Some x ->
      WindowsOther.setAiRangeIndex (Some ranges) (Z.of_nat r) s
      = (Return tt, Windows.with_AiRange (Some x) s)
      /\ WindowsOther.getAiRangeIndex (Some ranges)
           (Windows.with_AiRange (Some x) s)
         = (Return (Z.of_nat r), Windows.with_AiRange (Some x) s))
  /\ (forall r : Z,
        Z.of_nat (length ranges) <= r ->
        WindowsOther.setAiRangeIndex (Some ranges) r s
        = (Raise (ValueError "Specified Range Index not found"), s)).
Proof.
  intros Hnd. split.
  - intros r x Hr.
    assert (Hlt : (r < length ranges)%nat) by (apply nth_error_Some; congruence).
    split.
    + unfold WindowsOther.setAiRangeIndex, WindowsOther.getAiRanges, bind, ret.
      replace (Z.of_nat r <? Z.of_nat (length ranges)) with true
        by (symmetry; apply Z.ltb_lt; lia).
      unfold lift. rewrite (py_list_getitem_nth _ _ _ Hr). reflexivity.
    + unfold WindowsOther.getAiRangeIndex, WindowsOther.getAiRanges, bind, ret, get.
      cbn [Windows.AiRange Windows.with_AiRange].
      rewrite (list_index_nth ranges Hnd r x Hr). reflexivity.
  - intros r Hr.
    unfold WindowsOther.setAiRangeIndex, WindowsOther.getAiRanges, bind, ret.
    replace (r <? Z.of_nat (length ranges)) with false
      by (symmetry; apply Z.ltb_ge; lia).
    reflexivity.
Qed.

Lemma Windows_range_index_round_trip_witness :
  WindowsOther.setAiRangeIndex (Some ULRange_sample) 2 windows_device
  = (Return tt,
     Windows.with_AiRange
       (Some {| name := "UNI10VOLTS"; range_max := 10; range_value := 100 |})
       windows_device)
  /\ fst (WindowsOther.getAiRangeIndex (Some ULRange_sample)
            (Windows.with_AiRange
               (Some {| name := "UNI10VOLTS"; range_max := 10; range_value := 100 |})
               windows_device))
     = Return 2.
Proof.
  destruct (Windows_range_index_round_trip ULRange_sample windows_device) as [H _].
  - repeat constructor; cbn; intuition discriminate.
  - destruct (H 2%nat _ eq_refl) as [Hset Hget]. split; [exact Hset|].
    rewrite Hget. reflexivity.
Defined.

(** X17.  In the Linux variant [set_ai_range_index] cannot succeed: the
    [getAiRanges] it calls is the later of the two definitions of that
    name, which returns nothing, so taking the length of its result
    raises; the call raises for every index and every answer of the
    vendor and leaves the object as it was. *)
Theorem Linux_set_ai_range_index_always_raises
    (ao_get_ranges : option (result (list ulrange))) (r : Z) (s : Linux.daq) :
  exists e, LinuxOther.set_ai_range_index ao_get_ranges r s = (Raise e, s).
Proof.
  unfold LinuxOther.set_ai_range_index, LinuxOther.getAiRanges.
  destruct ao_get_ranges as [[l|e]|]; eexists; reflexivity.
Qed.

(** ** Disconnecting *)

(** X18.  [disconnect] of the Windows variant clears the device and the
    channel count only at its end.  If it returns, the object has no
    device, so [AIn] on it raises [RuntimeError] without a vendor call;
    if it raises, from the board-number query, from the release, or from
    composing the progress message after the board has been released,
    the object is unchanged and still counts as connected.  On an object
    without a device it returns without releasing anything. *)
Theorem Windows_disconnect (verbose : bool) (devices : option (list string))
    (board_number_reply : result Z) (release_reply : Z -> result unit)
    (st st' : WindowsOther.released) (o : outcome unit) :
  WindowsOther.disconnect verbose devices board_number_reply release_reply st
  = (o, st') ->
  (o = Return tt ->
   Windows.daq_device (fst st') = None
   /\ Windows.number_of_channels (fst st') = None
   /\ forall b channel w,
        Windows.AIn b (fst st') channel w
        = (Raise (RuntimeError "DAQ device is not connected"), w))
  /\ (forall e, o = Raise e -> fst st' = fst st)
  /\ (Windows.daq_device (fst st) = None -> o = Return tt /\ snd st' = snd st)
  /\ (forall e bn, board_number_reply = Ok bn -> 0 <= bn ->
        is_Some (Windows.daq_device (fst st)) ->
        release_reply bn = Ok tt -> verbose = true ->
        py_subscript devices bn = Err e ->
        o = Raise e /\ snd st' = snd st ++ [bn]).
Proof.
  unfold WindowsOther.disconnect, WindowsOther.report, bind, get, lift, modify, ret.
  cbv beta iota.
  destruct (Windows.daq_device (fst st)) as [dev|] eqn:Hdev;
    [destruct board_number_reply as [bn|e0] eqn:Hbn;
     [destruct (bn >=? 0) eqn:Hge;
      [destruct (release_reply bn) as [[]|e1] eqn:Hrel|];
      (destruct verbose eqn:Hv;
       [destruct (py_subscript devices bn) as [name|e2] eqn:Hsub|])|]|];
    cbv beta iota; intros [= <- <-]; cbn [fst snd];
    (split; [intros Ho; try discriminate Ho; repeat split|]);
    (split; [intros e He; try discriminate He; reflexivity|]);
    (split; [intros Hnone; try discriminate Hnone; split; reflexivity|]);
    intros e bn' Hb Hpos Hsome Hr Hverb Hname;
    try discriminate Hverb; try discriminate Hb;
    try (destruct Hsome as [? Hsome]; discriminate Hsome);
    injection Hb as <-;
    try (rewrite Hrel in Hr; discriminate Hr);
    try (rewrite Hsub in Hname; discriminate Hname);
    try (rewrite Z.geb_leb in Hge; apply Z.leb_gt in Hge; lia).
  rewrite Hsub in Hname. injection Hname as <-. split; reflexivity.
Qed.

Lemma Windows_disconnect_witness :
  WindowsOther.disconnect false None (Ok 0) (fun _ => Ok tt) (windows_device, [])
  = (Return tt,
     (WindowsOther.with_number_of_channels None
        (WindowsOther.with_daq_device None windows_device), [0]))
  /\ Windows.AIn counting_backend
       (WindowsOther.with_number_of_channels None
          (WindowsOther.with_daq_device None windows_device)) 0 world0
     = (Raise (RuntimeError "DAQ device is not connected"), world0).
Proof.
  assert (Hrun :
    WindowsOther.disconnect false None (Ok 0) (fun _ => Ok tt) (windows_device, [])
    = (Return tt,
       (WindowsOther.with_number_of_channels None
          (WindowsOther.with_daq_device None windows_device), [0])))
    by reflexivity.
  split; [exact Hrun|].
  destruct (Windows_disconnect false None (Ok 0) (fun _ => Ok tt) _ _ _ Hrun)
    as [H _].
  destruct (H eq_refl) as (_ & _ & Hain). apply Hain.
Defined.


(** ** A scan on a backend that does not fail *)

(** X19.  On a backend whose commands succeed and whose status queries
    are all answered, with a poll interval that is a non-negative number
    within the range [time.sleep] accepts and a shape without negative
    entries, the Windows [AInScan] returns a matrix of
    [samples_per_channel] rows of [channel_count] entries as soon as
    some status answer inside the loop is idle or reports the full
    sample count, given that many passes through the loop. *)
Theorem Windows_AInScan_completes np (b : backend) (self : Windows.daq)
    (fuel k : nat) (low high : Z) (rate : Q) (spc : Z) (scan_time : option Q)
    (n : Z) (t : Q) (w : world) :
  Windows.supports_scan self = Some true ->
  Windows.number_of_channels self = Some n ->
  alloc_reply b = Ok tt -> start_reply b = Ok tt ->
  stop_reply b = Ok tt -> free_reply b = Ok tt ->
  (forall j, exists r, status_reply b j = Ok r) ->
  Windows.sleepTime self = VNum t ->
  Qle_bool 0 t = true -> sleep_in_range t = true ->
  let channel_count :=
    (if high >=? n then n - 1 else high) - (if low <? 0 then 0 else low) + 1 in
  0 <= spc -> 0 <= channel_count ->
  windows_exit b (spc * channel_count) (S (queries w) + k) = true ->
  (k < fuel)%nat ->
  exists d w',
    Windows.AInScan np b self fuel low high rate spc scan_time w = (Return d, w')
    /\ has_shape d (Z.to_nat spc) (Z.to_nat channel_count).
Proof.
  intros Hs Hn Ha Hst Hstop Hfree Hans Ht Hpos Hrange cc Hspc Hcc Hexit Hfuel.
  destruct (Windows_AInScan_steady_run np b self fuel k low high rate spc
              scan_time n t w Hs Hn Ha Hst Hstop Hfree Hans Ht Hpos Hrange
              Hspc Hcc Hexit Hfuel) as (w' & Hrun).
  eexists _, w'. split; [exact Hrun|]. split.
  - apply rows_of_length.
  - apply rows_of_row_length. rewrite length_map, length_seq. fold cc. nia.
Qed.

Lemma Windows_AInScan_completes_witness :
  exists d w',
    Windows.AInScan reshape_negative_fails counting_backend windows_device
      20 0 1 10000 3 None world0 = (Return d, w')
    /\ has_shape d 3 2.
Proof.
  apply (Windows_AInScan_completes reshape_negative_fails counting_backend
           windows_device 20%nat 5%nat 0 1 10000%Q 3 None 4 (1 # 100) world0);
    try reflexivity; try lia; try discriminate.
  intros j. eexists. reflexivity.
Defined.


(** ** Connecting (Windows) *)

Lemma py_list_getitem_empty {A} (i : Z) :
  py_list_getitem (@nil A) i = Err (IndexError "list index out of range").
Proof.
  unfold py_list_getitem. cbn [length]. cbv zeta.
  change (Z.of_nat 0) with 0.
  destruct (i <? 0) eqn:Hi.
  - replace (0 + i <? 0) with true by (symmetry; apply Z.ltb_lt; apply Z.ltb_lt in Hi; lia).
    reflexivity.
  - rewrite Hi. cbn [orb].
    replace (0 <=? i) with true by (symmetry; apply Z.leb_le; apply Z.ltb_ge in Hi; lia).
    reflexivity.
Qed.

(** X21.  [connect] lists the devices only while [self.devices] is
    [None].  When the first listing finds no device, [connect] raises
    [RuntimeError], no device is recorded and [self.devices] is left as
    the empty list; every later [connect] on that object, whatever has
    been plugged in since, skips the listing and raises [IndexError]
    without asking for the inventory again. *)
Theorem Windows_connect_empty_inventory (create_reply : Z -> Z -> result unit)
    (configure : M WindowsOther.station unit) (number : Z)
    (st : WindowsOther.station) :
  WindowsOther.devices st = None ->
  let stuck :=
    {| WindowsOther.object := WindowsOther.object st;
       WindowsOther.devices := Some [];
       WindowsOther.boardnum := WindowsOther.boardnum st;
       WindowsOther.inventories := S (WindowsOther.inventories st);
       WindowsOther.created := WindowsOther.created st |} in
  WindowsOther.connect (Ok []) create_reply configure number st
  = (Raise (RuntimeError "Error: No DAQ devices found"), stuck)
  /\ forall inventory_reply' create_reply' configure' number',
       WindowsOther.connect inventory_reply' create_reply' configure' number' stuck
       = (Raise (IndexError "list index out of range"), stuck).
Proof.
  intros Hd stuck. split.
  - unfold WindowsOther.connect. unfold bind at 1.
    unfold WindowsOther.except_ValueError at 1.
    unfold bind at 1, get. cbv beta iota. rewrite Hd.
    unfold bind at 1. unfold WindowsOther.listDevices, WindowsOther.except_ValueError.
    cbn [length Z.of_nat Z.eqb]. reflexivity.
  - intros inv cr cf num. unfold WindowsOther.connect. unfold bind at 1.
    unfold WindowsOther.except_ValueError at 1.
    unfold bind at 1, get. cbv beta iota. cbn [WindowsOther.devices stuck].
    unfold bind at 1, ret. unfold bind at 1. cbv beta iota.
    unfold bind at 1, lift, py_subscript. cbn [WindowsOther.devices stuck].
    rewrite py_list_getitem_empty. reflexivity.
Qed.

Lemma Windows_connect_empty_inventory_witness :
  WindowsOther.connect (Ok []) (fun _ _ => Ok tt) (ret tt) 0
    {| WindowsOther.object := windows_device; WindowsOther.devices := None;
       WindowsOther.boardnum := None; WindowsOther.inventories := 0;
       WindowsOther.created := [] |}
  = (Raise (RuntimeError "Error: No DAQ devices found"),
     {| WindowsOther.object := windows_device; WindowsOther.devices := Some [];
        WindowsOther.boardnum := None; WindowsOther.inventories := 1;
        WindowsOther.created := [] |})
  /\ WindowsOther.connect (Ok [7]) (fun _ _ => Ok tt) (ret tt) 0
       {| WindowsOther.object := windows_device; WindowsOther.devices := Some [];
          WindowsOther.boardnum := None; WindowsOther.inventories := 1;
          WindowsOther.created := [] |}
     = (Raise (IndexError "list index out of range"),
        {| WindowsOther.object := windows_device; WindowsOther.devices := Some [];
           WindowsOther.boardnum := None; WindowsOther.inventories := 1;
           WindowsOther.created := [] |}).
Proof.
  destruct (Windows_connect_empty_inventory (fun _ _ => Ok tt) (ret tt) 0
              {| WindowsOther.object := windows_device;
                 WindowsOther.devices := None;
                 WindowsOther.boardnum := None; WindowsOther.inventories := 0;
                 WindowsOther.created := [] |} eq_refl) as [H1 H2].
  split; [exact H1|]. exact (H2 (Ok [7]) (fun _ _ => Ok tt) (ret tt) 0).
Defined.

(** X22.  [connect] goes on after any [ULError] of [create_daq_device],
    not only after "board number in use": with the devices listed and
    the board number within the list, the device at that position is
    recorded as connected and the rest of [connect] runs, whether the
    registration succeeded or failed with a [ULError] of any code. *)
Theorem Windows_connect_ignores_ULError (inventory_reply : result (list Z))
    (create_reply : Z -> Z -> result unit)
    (configure : M WindowsOther.station unit) (number descriptor : Z)
    (found : list Z) (st : WindowsOther.station) :
  WindowsOther.devices st = Some found ->
  py_list_getitem found number = Ok descriptor ->
  (create_reply number descriptor = Ok tt
   \/ exists code, create_reply number descriptor = Err (ULError code)) ->
  WindowsOther.connect inventory_reply create_reply configure number st
  = configure
      {| WindowsOther.object :=
           WindowsOther.with_daq_device (Some descriptor) (WindowsOther.object st);
         WindowsOther.devices := Some found;
         WindowsOther.boardnum := Some number;
         WindowsOther.inventories := WindowsOther.inventories st;
         WindowsOther.created := WindowsOther.created st ++ [(number, descriptor)] |}.
Proof.
  intros Hd Hget Hcreate. unfold WindowsOther.connect. unfold bind at 1.
  unfold WindowsOther.except_ValueError at 1.
  unfold bind at 1, get. cbv beta iota. rewrite Hd.
  unfold bind at 1, ret. unfold bind at 1. cbv beta iota.
  unfold bind at 1, lift, py_subscript. rewrite Hd, Hget.
  unfold bind at 1. unfold WindowsOther.register.
  assert (Hreg :
    match create_reply number descriptor with
    | Ok _ =>
        (Return tt,
         {| WindowsOther.object := WindowsOther.object st;
            WindowsOther.devices := WindowsOther.devices st;
            WindowsOther.boardnum := WindowsOther.boardnum st;
            WindowsOther.inventories := WindowsOther.inventories st;
            WindowsOther.created :=
              WindowsOther.created st ++ [(number, descriptor)] |})
    | Err (ULError _) =>
        (Return tt,
         {| WindowsOther.object := WindowsOther.object st;
            WindowsOther.devices := WindowsOther.devices st;
            WindowsOther.boardnum := WindowsOther.boardnum st;
            WindowsOther.inventories := WindowsOther.inventories st;
            WindowsOther.created :=
              WindowsOther.created st ++ [(number, descriptor)] |})
    | Err e =>
        (Raise e,
         {| WindowsOther.object := WindowsOther.object st;
            WindowsOther.devices := WindowsOther.devices st;
            WindowsOther.boardnum := WindowsOther.boardnum st;
            WindowsOther.inventories := WindowsOther.inventories st;
            WindowsOther.created :=
              WindowsOther.created st ++ [(number, descriptor)] |})
    end
    = (Return tt,
       {| WindowsOther.object := WindowsOther.object st;
          WindowsOther.devices := WindowsOther.devices st;
          WindowsOther.boardnum := WindowsOther.boardnum st;
          WindowsOther.inventories := WindowsOther.inventories st;
          WindowsOther.created :=
            WindowsOther.created st ++ [(number, descriptor)] |})).
  { destruct Hcreate as [->|[code ->]]; reflexivity. }
  rewrite Hreg. unfold bind at 1. cbv beta iota.
  unfold bind at 1. cbn [WindowsOther.devices]. rewrite Hd, Hget.
  unfold modify. cbv beta iota. cbn [WindowsOther.object WindowsOther.devices
    WindowsOther.inventories WindowsOther.created]. rewrite ?Hd. reflexivity.
Qed.

Lemma Windows_connect_ignores_ULError_witness :
  fst (WindowsOther.connect (Ok [7]) (fun _ _ => Err (ULError 1027)) (ret tt) 0
         {| WindowsOther.object := windows_device;
            WindowsOther.devices := Some [7];
            WindowsOther.boardnum := None; WindowsOther.inventories := 1;
            WindowsOther.created := [] |})
  = Return tt.
Proof.
  rewrite (Windows_connect_ignores_ULError (Ok [7]) (fun _ _ => Err (ULError 1027))
             (ret tt) 0 7 [7]
             {| WindowsOther.object := windows_device;
                WindowsOther.devices := Some [7];
                WindowsOther.boardnum := None; WindowsOther.inventories := 1;
                WindowsOther.created := [] |} eq_refl eq_refl).
  - reflexivity.
  - right. eexists. reflexivity.
Defined.
